(** * wikitextparser: span table, tokenizer, rebase engine and section builder

    A shallow embedding of [wikitextparser.py].  Python values are modelled
    as follows:

    - [str] is [string]; the characters are the code points 0..255;
    - [int] is [Z]; offsets into the buffer are [Z], slices follow Python's
      rules for negative and out-of-range bounds;
    - the dictionary [self._spans] is a [gmap string (list (Z * Z))];
    - [self._lststr[0]], the buffer shared by every view, and [self._spans]
      form the state that every method receives and returns;
    - an exception is the [Raise] case of [result];
    - a compiled regular expression is a value of [Re.regex], run by a
      backtracking matcher that tries the alternatives in the order of
      Python's [re] module. *)

From Stdlib Require Import ZArith Ascii String List Bool Lia.
From stdpp Require Import gmap strings list fin_maps.

Local Open Scope Z_scope.

(** ** Python primitives *)

Module Py.

Inductive exn := IndexError | KeyError | ValueError | RuntimeError | AttributeError.

(** The outcome of a call: a value, an exception, or [OutOfFuel] when a
    loop of the model was given fewer iterations than it needs. *)
Inductive result (A : Type) : Type :=
| Ok (a : A)
| Raise (e : exn)
| OutOfFuel.
Arguments Ok {A} a.
Arguments Raise {A} e.
Arguments OutOfFuel {A}.

Definition bind {A B} (x : result A) (f : A -> result B) : result B :=
  match x with
  | Ok a => f a
  | Raise e => Raise e
  | OutOfFuel => OutOfFuel
  end.

Definition bind_flip {A B} (f : A -> result B) (x : result A) : result B :=
  bind x f.

(** [len(s)] *)
Definition len (s : string) : Z := Z.of_nat (String.length s).

Fixpoint take (n : nat) (s : string) : string :=
  match n, s with
  | S n', String c s' => String c (take n' s')
  | _, _ => EmptyString
  end.

Fixpoint drop (n : nat) (s : string) : string :=
  match n, s with
  | S n', String _ s' => drop n' s'
  | _, _ => s
  end.

(** A slice bound [i] of a sequence of length [n]: negative bounds count
    from the end, and every bound is clamped to [0..n]. *)
Definition bound (n i : Z) : nat :=
  Z.to_nat (if i <? 0 then Z.max 0 (i + n) else Z.min i n).

(** [s[a:b]], [s[a:]] and [s[:b]] *)
Definition slice (s : string) (a b : Z) : string :=
  let lo := bound (len s) a in
  let hi := bound (len s) b in
  take (hi - lo) (drop lo s).

Definition slice_from (s : string) (a : Z) : string :=
  drop (bound (len s) a) s.

Definition slice_to (s : string) (b : Z) : string :=
  take (bound (len s) b) s.

(** [s[i]] *)
Definition getitem (s : string) (i : Z) : result ascii :=
  let n := len s in
  let j := if i <? 0 then i + n else i in
  if (j <? 0) || (n <=? j) then Raise IndexError
  else match String.get (Z.to_nat j) s with
       | Some c => Ok c
       | None => Raise IndexError
       end.

(** [c * n] for a one-character string *)
Fixpoint repeat_char (c : ascii) (n : nat) : string :=
  match n with
  | O => EmptyString
  | S n' => String c (repeat_char c n')
  end.

(** [s.startswith(p)] *)
Fixpoint startswith (s p : string) : bool :=
  match p, s with
  | EmptyString, _ => true
  | String a p', String b s' => Ascii.eqb a b && startswith s' p'
  | String _ _, EmptyString => false
  end.

(** Lowest index [>= i] (counted from the start of [s]) at which [sub]
    occurs in [s], if any. *)
Fixpoint find_nat (sub : string) (i : nat) (s : string) : option nat :=
  match i with
  | S i' =>
      match s with
      | String _ s' => option_map S (find_nat sub i' s')
      | EmptyString => None
      end
  | O =>
      if startswith s sub then Some O
      else match s with
           | String _ s' => option_map S (find_nat sub O s')
           | EmptyString => None
           end
  end.

(** [s.find(sub, start)] *)
Definition find (s sub : string) (start : Z) : Z :=
  let n := len s in
  let i := if start <? 0 then Z.max 0 (start + n) else start in
  match find_nat sub (Z.to_nat i) s with
  | Some k => Z.of_nat k
  | None => -1
  end.

(** Highest index at which [sub] occurs in [s], if any. *)
Fixpoint rfind_nat (sub : string) (s : string) : option nat :=
  match s with
  | EmptyString => if startswith s sub then Some O else None
  | String _ s' =>
      match rfind_nat sub s' with
      | Some k => Some (S k)
      | None => if startswith s sub then Some O else None
      end
  end.

(** [s.partition(sep)] *)
Definition partition (s sep : string) : string * string * string :=
  match find_nat sep O s with
  | Some k => (take k s, sep, drop (k + String.length sep) s)
  | None => (s, EmptyString, EmptyString)
  end.

(** [s.rpartition(sep)] *)
Definition rpartition (s sep : string) : string * string * string :=
  match rfind_nat sep s with
  | Some k => (take k s, sep, drop (k + String.length sep) s)
  | None => (EmptyString, EmptyString, s)
  end.

(** [s.replace(old, new)]: every occurrence of [old], scanning from the
    left, occurrences not overlapping.  [skip] counts the characters of
    the occurrence just replaced that are still to be passed over. *)
Fixpoint replace_go (old new : string) (skip : nat) (s : string) : string :=
  match s with
  | EmptyString => EmptyString
  | String c s' =>
      match skip with
      | S k => replace_go old new k s'
      | O =>
          if startswith s old
          then new +:+ replace_go old new (String.length old - 1) s'
          else String c (replace_go old new O s')
      end
  end.

Fixpoint intersperse (new : string) (s : string) : string :=
  match s with
  | EmptyString => new
  | String c s' => new +:+ String c (intersperse new s')
  end.

Definition replace (s old new : string) : string :=
  match old with
  | EmptyString => intersperse new s
  | String _ _ => replace_go old new O s
  end.

(** Code points for which [str.isspace] holds, which are also the ones
    [\s] matches in a [str] pattern. *)
Definition isspace (c : ascii) : bool :=
  let n := nat_of_ascii c in
  ((9 <=? n) && (n <=? 13) || (28 <=? n) && (n <=? 32)
   || (n =? 133) || (n =? 160))%nat.

(** [s.rstrip()] *)
Fixpoint rstrip (s : string) : string :=
  match s with
  | EmptyString => EmptyString
  | String c s' =>
      match rstrip s' with
      | EmptyString => if isspace c then EmptyString else String c EmptyString
      | t => String c t
      end
  end.

(** [l[i]] on a list *)
Definition list_getitem {A} (l : list A) (i : Z) : result A :=
  let n := Z.of_nat (length l) in
  let j := if i <? 0 then i + n else i in
  if (j <? 0) || (n <=? j) then Raise IndexError
  else match l !! Z.to_nat j with
       | Some x => Ok x
       | None => Raise IndexError
       end.

(** Position in the list that [l[i]] and [l[i] = x] address. *)
Definition list_pos {A} (l : list A) (i : Z) : option nat :=
  let n := Z.of_nat (length l) in
  let j := if i <? 0 then i + n else i in
  if (j <? 0) || (n <=? j) then None else Some (Z.to_nat j).

(** [l.index(x)] *)
Fixpoint list_index `{EqDecision A} (x : A) (l : list A) : option nat :=
  match l with
  | [] => None
  | y :: l' => if decide (x = y) then Some O else option_map S (list_index x l')
  end.

(** [x in l] *)
Definition contains `{EqDecision A} (x : A) (l : list A) : bool :=
  bool_decide (x ∈ l).

(** [str(n)] for an [int] *)
Definition str_of_int (n : Z) : string := pretty.pretty n.

End Py.

#[export] Instance result_ret : MRet Py.result := @Py.Ok.
#[export] Instance result_bind : MBind Py.result := @Py.bind_flip.
#[export] Instance result_fmap : FMap Py.result :=
  fun A B f x => Py.bind x (fun a => Py.Ok (f a)).

(** ** Regular expressions

    The patterns of the module use literals, character sets, quantifiers
    over a single character set, groups, one back-reference, look-ahead,
    fixed-width look-behind, [^] and [$].  The matcher is written in
    continuation-passing style: [k] stands for the rest of the pattern, and
    a failure of [k] makes the matcher try its next alternative, which is
    how [re] backtracks. *)

Module Re.

Inductive regex :=
| Eps
| Chr (c : ascii)
| Cls (p : ascii -> bool)
| Cat (r1 r2 : regex)
| Alt (r1 r2 : regex)
| Rep (greedy : bool) (lo : nat) (hi : option nat) (p : ascii -> bool)
| Grp (n : nat) (r : regex)
| Ref (n : nat)
| Ahead (positive : bool) (r : regex)
| Behind (positive : bool) (width : nat) (r : regex)
| Bos
| Eos.

(** Spans of the capturing groups that took part in the match. *)
Definition captures := list (nat * (nat * nat)).

Fixpoint group_span (n : nat) (c : captures) : option (nat * nat) :=
  match c with
  | [] => None
  | (m, sp) :: c' => if (n =? m)%nat then Some sp else group_span n c'
  end.

Definition outcome := option (nat * captures).

Definition below (cnt : nat) (hi : option nat) : bool :=
  match hi with
  | None => true
  | Some h => (cnt <? h)%nat
  end.

(** Quantifier over the set [p], having taken [cnt] characters so far;
    [rest] is the text from position [i] on.  A greedy quantifier first
    tries to take one more character, a lazy one first tries to stop. *)
Fixpoint rep (greedy : bool) (lo : nat) (hi : option nat) (p : ascii -> bool)
    (cnt i : nat) (rest : string) (k : nat -> string -> outcome) : outcome :=
  let stop := if (lo <=? cnt)%nat then k i rest else None in
  match rest with
  | String c rest' =>
      if below cnt hi && p c then
        if greedy then
          match rep greedy lo hi p (S cnt) (S i) rest' k with
          | Some x => Some x
          | None => stop
          end
        else
          match stop with
          | Some x => Some x
          | None => rep greedy lo hi p (S cnt) (S i) rest' k
          end
      else stop
  | EmptyString => stop
  end.

Section Matcher.

(** The whole subject string: look-behind, [^] and back-references read it. *)
Variable s : string.

Fixpoint run (r : regex) (i : nat) (rest : string) (c : captures)
    (k : nat -> string -> captures -> outcome) : outcome :=
  match r with
  | Eps => k i rest c
  | Chr a =>
      match rest with
      | String b rest' => if Ascii.eqb a b then k (S i) rest' c else None
      | EmptyString => None
      end
  | Cls p =>
      match rest with
      | String b rest' => if p b then k (S i) rest' c else None
      | EmptyString => None
      end
  | Cat r1 r2 => run r1 i rest c (fun j rest' c' => run r2 j rest' c' k)
  | Alt r1 r2 =>
      match run r1 i rest c k with
      | Some x => Some x
      | None => run r2 i rest c k
      end
  | Rep greedy lo hi p =>
      rep greedy lo hi p O i rest (fun j rest' => k j rest' c)
  | Grp n r1 =>
      run r1 i rest c (fun j rest' c' => k j rest' ((n, (i, j)) :: c'))
  | Ref n =>
      match group_span n c with
      | Some (a, b) =>
          let g := Py.take (b - a) (Py.drop a s) in
          if Py.startswith rest g
          then k (i + String.length g)%nat (Py.drop (String.length g) rest) c
          else None
      | None => None
      end
  | Ahead positive r1 =>
      match run r1 i rest c (fun j _ c' => Some (j, c')) with
      | Some _ => if positive then k i rest c else None
      | None => if positive then None else k i rest c
      end
  | Behind positive width r1 =>
      let found :=
        if (width <=? i)%nat then
          run r1 (i - width) (Py.drop (i - width) s) c
            (fun j _ c' => if (j =? i)%nat then Some (j, c') else None)
        else None in
      match found with
      | Some _ => if positive then k i rest c else None
      | None => if positive then None else k i rest c
      end
  | Bos => if (i =? 0)%nat then k i rest c else None
  | Eos =>
      match rest with
      | EmptyString => k i rest c
      | String b EmptyString =>
          if Ascii.eqb b "010" then k i rest c else None
      | _ => None
      end
  end.

(** A match of [r] that starts exactly at [i]. *)
Definition match_at (r : regex) (i : nat) (rest : string) : outcome :=
  run r i rest [] (fun j _ c => Some (j, c)).

(** The leftmost match that starts at [i] or later. *)
Fixpoint search_from (r : regex) (i : nat) (rest : string)
    : option (nat * nat * captures) :=
  match match_at r i rest with
  | Some (j, c) => Some (i, j, c)
  | None =>
      match rest with
      | EmptyString => None
      | String _ rest' => search_from r (S i) rest'
      end
  end.

(** The matches [finditer] yields from position [i] on.  After a match
    the scan resumes at its end; the patterns of this module never match
    the empty string, for which the scan would step one character. *)
Fixpoint finditer_from (fuel : nat) (r : regex) (i : nat)
    : list (nat * nat * captures) :=
  match fuel with
  | O => []
  | S fuel' =>
      if (String.length s <? i)%nat then []
      else
        match search_from r i (Py.drop i s) with
        | None => []
        | Some (a, b, c) =>
            (a, b, c) :: finditer_from fuel' r (if (a <? b)%nat then b else S b)
        end
  end.

End Matcher.

(** A match object: the searched string, the span and the groups. *)
Record Match := {
  subject : string;
  span : Z * Z;
  groups : captures
}.

(** [m.group()] *)
Definition group (m : Match) : string :=
  Py.slice (subject m) (fst (span m)) (snd (span m)).

(** [m.group(n)] for a group that took part in the match *)
Definition group_n (m : Match) (n : nat) : option string :=
  match group_span n (groups m) with
  | Some (a, b) => Some (Py.take (b - a) (Py.drop a (subject m)))
  | None => None
  end.

Definition mk_match (s : string) (x : nat * nat * captures) : Match :=
  let '(a, b, c) := x in
  {| subject := s; span := (Z.of_nat a, Z.of_nat b); groups := c |}.

(** [r.match(s)] *)
Definition match_ (r : regex) (s : string) : option Match :=
  match match_at s r O s with
  | Some (j, c) => Some (mk_match s (O, j, c))
  | None => None
  end.

(** [r.finditer(s)], as the list of its matches *)
Definition finditer (r : regex) (s : string) : list Match :=
  map (mk_match s) (finditer_from s (S (String.length s)) r O).

(** [re.sub(r, repl, s)] for a replacement without group references:
    the text between the matches, with [repl] in place of each match. *)
Fixpoint sub_go (repl s : string) (pos : nat) (ms : list (nat * nat * captures))
    : string :=
  match ms with
  | [] => Py.drop pos s
  | (a, b, _) :: ms' =>
      Py.take (a - pos) (Py.drop pos s) +:+ repl +:+ sub_go repl s b ms'
  end.

Definition sub (r : regex) (repl s : string) : string :=
  sub_go repl s O (finditer_from s (S (String.length s)) r O).

(** Pattern syntax. *)
Fixpoint lit (t : string) : regex :=
  match t with
  | EmptyString => Eps
  | String c EmptyString => Chr c
  | String c t' => Cat (Chr c) (lit t')
  end.

Fixpoint seq (rs : list regex) : regex :=
  match rs with
  | [] => Eps
  | [r] => r
  | r :: rs' => Cat r (seq rs')
  end.

Definition star (p : ascii -> bool) : regex := Rep true O None p.
Definition star_lazy (p : ascii -> bool) : regex := Rep false O None p.
Definition plus_lazy (p : ascii -> bool) : regex := Rep false 1 None p.

Definition any : ascii -> bool := fun _ => true.
Definition is_ (t : string) : ascii -> bool :=
  fun c => existsb (Ascii.eqb c) (list_ascii_of_string t).
Definition not_ (t : string) : ascii -> bool := fun c => negb (is_ t c).

End Re.

(** ** The patterns of the module *)

Import Re.

Definition newline : ascii := "010".

(** [[^\x00-\x1f\|\{\}\[\]<>\n]*] *)
Definition valid_title_char (c : ascii) : bool :=
  negb (nat_of_ascii c <=? 31)%nat && not_ "|{}[]<>" c.
Definition VALID_TITLE_CHARS_PATTERN : regex := star valid_title_char.

(** [\{\{\s*] VALID_TITLE_CHARS [\s*(\|[^{}]*?\}\}|\}\})]; [g] is the
    number the group has in the pattern that includes this one. *)
Definition TEMPLATE_PATTERN (g : nat) : regex :=
  seq [lit "{{"; star Py.isspace; VALID_TITLE_CHARS_PATTERN; star Py.isspace;
       Grp g (Alt (seq [Chr "|"; star_lazy (not_ "{}"); lit "}}"])
                  (lit "}}"))].

(** TEMPLATE_PATTERN [(?!\})|(?<!{)] TEMPLATE_PATTERN *)
Definition TEMPLATE_NOT_PARAM_REGEX : regex :=
  Alt (Cat (TEMPLATE_PATTERN 1) (Ahead false (Chr "}")))
      (Cat (Behind false 1 (Chr "{")) (TEMPLATE_PATTERN 2)).

(** [\{\{\{[^{}]*?\}\}\}] *)
Definition TEMPLATE_PARAMETER_REGEX : regex :=
  seq [lit "{{{"; star_lazy (not_ "{}"); lit "}}}"].

(** [\{\{\s*#[^\s]*:[^{}]*?\}\}] *)
Definition PARSER_FUNCTION_REGEX : regex :=
  seq [lit "{{"; star Py.isspace; Chr "#";
       star (fun c => negb (Py.isspace c)); Chr ":";
       star_lazy (not_ "{}"); lit "}}"].

(** [\[\[] VALID_TITLE_CHARS [(\]\]|\|[\S\s]*?\]\])] *)
Definition WIKILINK_REGEX : regex :=
  seq [lit "[["; VALID_TITLE_CHARS_PATTERN;
       Grp 1 (Alt (lit "]]") (seq [Chr "|"; star_lazy any; lit "]]"]))].

(** [<!--.*?-->] with DOTALL *)
Definition COMMENT_REGEX : regex :=
  seq [lit "<!--"; star_lazy any; lit "-->"].

(** [<nowiki\s*.*?>.*?</nowiki\s*>] with DOTALL *)
Definition NOWIKI_REGEX : regex :=
  seq [lit "<nowiki"; star Py.isspace; star_lazy any; Chr ">";
       star_lazy any; lit "</nowiki"; star Py.isspace; Chr ">"].

(** [(?<!{){(?=[^{])] and [(?<!})}(?=[^}])], the two patterns of [re.sub]
    in [_get_spans] *)
Definition SINGLE_OPEN_REGEX : regex :=
  seq [Behind false 1 (Chr "{"); Chr "{"; Ahead true (Cls (not_ "{"))].
Definition SINGLE_CLOSE_REGEX : regex :=
  seq [Behind false 1 (Chr "}"); Chr "}"; Ahead true (Cls (not_ "}"))].

Definition not_newline (c : ascii) : bool := negb (Ascii.eqb c newline).

(** [(?:(?<=\n)|(?<=^))=[^\n]+?= *(?:\n|$)] *)
Definition SECTION_HEADER_REGEX : regex :=
  seq [Alt (Behind true 1 (Chr newline)) (Behind true 0 Bos);
       Chr "="; plus_lazy not_newline; Chr "="; star (is_ " ");
       Alt (Chr newline) Eos].

(** [^.*?(?=] SECTION_HEADER [)] with DOTALL *)
Definition LEAD_SECTION_REGEX : regex :=
  seq [Bos; star_lazy any; Ahead true SECTION_HEADER_REGEX].

(** SECTION_HEADER [.*?(?=] SECTION_HEADER [|$)] with DOTALL *)
Definition SECTION_REGEX : regex :=
  seq [SECTION_HEADER_REGEX; star_lazy any;
       Ahead true (Alt SECTION_HEADER_REGEX Eos)].

(** [^(={1,6})([^\n]+?)\1( *(?:\n|$))] *)
Definition SECTION_LEVEL_TITLE : regex :=
  seq [Bos; Grp 1 (Rep true 1 (Some 6%nat) (is_ "="));
       Grp 2 (plus_lazy not_newline); Ref 1;
       Grp 3 (Cat (star (is_ " ")) (Alt (Chr newline) Eos))].

Definition spans_of (ms : list Match) : list (Z * Z) := map span ms.

(** ** The tokenizer: [WikiText._get_spans] *)

Abbreviation Span := (Z * Z)%type.
Abbreviation SpanTable := (gmap string (list (Z * Z))).

(** The fillers that take the place of a matched group. *)
Definition mask_all (group : string) : string :=
  Py.repeat_char "_" (String.length group).
Definition mask_braces (group : string) : string :=
  Py.replace (Py.replace group "}" "_") "{" "_".
Definition mask_3 (group : string) : string :=
  "___" +:+ Py.slice group 3 (-3) +:+ "___".
Definition mask_2 (group : string) : string :=
  "__" +:+ Py.slice group 2 (-2) +:+ "__".

(** The body of [for match in REGEX.finditer(string)]: the span is
    appended, and every occurrence of the matched text is masked in the
    current string. *)
Definition record_match (mask : string -> string)
    (acc : string * list (Z * Z)) (m : Match) : string * list (Z * Z) :=
  (Py.replace acc.1 (group m) (mask (group m)), acc.2 ++ [span m]).

(** One [for] loop over the matches found in the string as it is when
    the loop starts. *)
Definition for_matches (r : regex) (mask : string -> string)
    (str : string) (spans : list (Z * Z)) : string * list (Z * Z) :=
  fold_left (record_match mask) (finditer r str) (str, spans).

(** The variable [match] after a [for match in ...] loop: the last
    match, or what it held before when there was none. *)
Definition last_match (ms : list Match) (before : option Match) : option Match :=
  match last ms with
  | Some m => Some m
  | None => before
  end.

(** [loop = True; while loop: loop = False; for match in ...: loop = True; ...] *)
Fixpoint while_loop (fuel : nat) (r : regex) (mask : string -> string)
    (str : string) (spans : list (Z * Z)) (match_ : option Match)
    : option (string * list (Z * Z) * option Match) :=
  match fuel with
  | O => None
  | S fuel' =>
      match finditer r str with
      | [] => Some (str, spans, match_)
      | ms =>
          let '(str', spans') := for_matches r mask str spans in
          while_loop fuel' r mask str' spans' (last_match ms match_)
      end
  end.

(** The [while True] loop; [passes] counts the times its body has run. *)
Fixpoint get_spans_loop (fuel : nat) (str : string)
    (parameter_spans parser_function_spans template_spans : list (Z * Z))
    (passes : nat)
    : option (list (Z * Z) * list (Z * Z) * list (Z * Z) * nat) :=
  match fuel with
  | O => None
  | S fuel' =>
      let str := sub SINGLE_OPEN_REGEX "_" str in
      let str := sub SINGLE_CLOSE_REGEX "_" str in
      let '(head, sep, tail) := Py.rpartition str "}" in
      let str := head +:+ sep +:+ Py.replace tail "{" "_" in
      let '(head, sep, tail) := Py.partition str "{" in
      let str := Py.replace head "}" "_" +:+ sep +:+ tail in
      let match_ := None in
      '(str, parameter_spans, match_) ←
        while_loop fuel TEMPLATE_PARAMETER_REGEX mask_3
          str parameter_spans match_;
      '(str, parser_function_spans, match_) ←
        while_loop fuel PARSER_FUNCTION_REGEX mask_2
          str parser_function_spans match_;
      '(str, template_spans, match_) ←
        while_loop fuel TEMPLATE_NOT_PARAM_REGEX mask_2
          str template_spans match_;
      match match_ with
      | None =>
          Some (parameter_spans, parser_function_spans, template_spans, S passes)
      | Some _ =>
          get_spans_loop fuel' str
            parameter_spans parser_function_spans template_spans (S passes)
      end
  end.

(** [_get_spans] on the text [str], with the number of passes of the
    [while True] loop; [None] when [fuel] iterations were not enough. *)
Definition get_spans_fuel (fuel : nat) (str : string)
    : option (SpanTable * nat) :=
  let '(str, comment_spans) := for_matches COMMENT_REGEX mask_all str [] in
  let '(str, nowiki_spans) := for_matches NOWIKI_REGEX mask_all str [] in
  let '(str, wikilink_spans) :=
    for_matches WIKILINK_REGEX mask_braces str [] in
  '(parameter_spans, parser_function_spans, template_spans, passes) ←
    get_spans_loop fuel str [] [] [] O;
  Some (<["p" := parameter_spans]> (
        <["pf" := parser_function_spans]> (
        <["t" := template_spans]> (
        <["wl" := wikilink_spans]> (
        <["c" := comment_spans]> (
        <["nw" := nowiki_spans]> ∅))))), passes).

Fixpoint count_braces (s : string) : nat :=
  match s with
  | EmptyString => O
  | String c s' => ((if is_ "{}" c then 1 else 0) + count_braces s')%nat
  end.

(** Every iteration of the loops of [_get_spans] but the last of each
    masks a brace, so one more than the number of braces is enough fuel
    (lemma [get_spans_fuel_enough] below). *)
Definition _get_spans (str : string) : option SpanTable :=
  fst <$> get_spans_fuel (S (count_braces str)) str.


Definition table (p pf t wl c nw : list (Z * Z)) : SpanTable :=
  <["p" := p]> (<["pf" := pf]> (<["t" := t]> (
  <["wl" := wl]> (<["c" := c]> (<["nw" := nw]> ∅))))).

(** ** The document state and the node views

    [self._lststr] is a one-element list shared by the document and all
    the views made from it, and [self._spans] is one dictionary shared the
    same way: both are fields of the single state below.  A view is its
    class and its [_index]; an [Argument] also has its [_typeindex]. *)

Record State := {
  _lststr : string;
  _spans : gmap string (list (Z * Z))
}.

Inductive Class :=
| KWikiText
| KTemplate
| KParameter
| KParserFunction
| KWikiLink
| KComment
| KExternalLink
| KArgument (_typeindex : string)
| KSection.

Record Node := {
  class : Class;
  _index : Z
}.

(** The key of [self._spans] that [_get_span] of each class reads. *)
Definition span_key (c : Class) : option string :=
  match c with
  | KWikiText => None
  | KTemplate => Some "t"
  | KParameter => Some "p"
  | KParserFunction => Some "pf"
  | KWikiLink => Some "wl"
  | KComment => Some "c"
  | KExternalLink => Some "el"
  | KArgument typeindex => Some typeindex
  | KSection => Some "s"
  end.

(** [spans[key]] *)
Definition dict_getitem (spans : gmap string (list (Z * Z))) (key : string)
    : Py.result (list (Z * Z)) :=
  match spans !! key with
  | Some l => Py.Ok l
  | None => Py.Raise Py.KeyError
  end.

(** [self._get_span()] *)
Definition _get_span (st : State) (n : Node) : Py.result (Z * Z) :=
  match span_key (class n) with
  | None => Py.Ok (0, Py.len (_lststr st))
  | Some key =>
      l ← dict_getitem (_spans st) key;
      Py.list_getitem l (_index n)
  end.

(** [self.string] *)
Definition string_ (st : State) (n : Node) : Py.result string :=
  '(start, end_) ← _get_span st n;
  mret (Py.slice (_lststr st) start end_).

(** ** The rebase engine *)

(** The body of the loop of [_shrink_span_update]. *)
Definition shrink_span (rmstart rmend : Z) (sp : Z * Z) : Z * Z :=
  let rmlength := rmend - rmstart in
  let '(spanstart, spanend) := sp in
  if spanend <=? rmstart then sp
  else if rmend <=? spanstart then (spanstart - rmlength, spanend - rmlength)
  else if rmstart <? spanstart then
    if rmend <=? spanend then (rmstart, spanend - rmlength)
    else (rmstart, rmstart)
  else
    if rmend <=? spanend then (spanstart, spanend - rmlength)
    else (spanstart, rmstart).

Definition _shrink_span_update (st : State) (rmstart rmend : Z) : State :=
  {| _lststr := _lststr st;
     _spans := fmap (M := list) (shrink_span rmstart rmend) <$> _spans st |}.

(** The body of the loop of [_extend_span_update]. *)
Definition extend_span (astart alength : Z) (sp : Z * Z) : Z * Z :=
  let '(spanstart, spanend) := sp in
  if astart <? spanstart then (spanstart + alength, spanend + alength)
  else if (spanstart <=? astart) && (astart <? spanend)
  then (spanstart, spanend + alength)
  else sp.

Definition _extend_span_update (st : State) (astart alength : Z) : State :=
  {| _lststr := _lststr st;
     _spans := fmap (M := list) (extend_span astart alength) <$> _spans st |}.

(** The setter of [self.string]: the single place where the buffer is
    written. *)
Definition set_string (st : State) (n : Node) (newstring : string)
    : Py.result State :=
  oldstring ← string_ st n;
  let oldlength := Py.len oldstring in
  let newlength := Py.len newstring in
  '(oldstart, oldend) ← _get_span st n;
  let st :=
    {| _lststr := Py.slice_to (_lststr st) oldstart +:+ newstring
                  +:+ Py.slice_from (_lststr st) oldend;
       _spans := _spans st |} in
  if oldlength <? newlength then
    '(oldstart, oldend) ← _get_span st n;
    mret (_extend_span_update st oldstart (newlength - oldlength))
  else if newlength <? oldlength then
    mret (_shrink_span_update st oldstart (oldstart + oldlength - newlength))
  else mret st.

(** ** Construction and the listing queries *)

(** [WikiText(string)]: the state of a new document. *)
Definition WikiText_init (str : string) : Py.result State :=
  match _get_spans str with
  | Some spans => Py.Ok {| _lststr := str; _spans := spans |}
  | None => Py.OutOfFuel
  end.

(** The document itself as a node. *)
Definition root : Node := {| class := KWikiText; _index := -1 |}.

(** [Argument(string)] with neither [spans] nor [index]: the state of
    the new object, and the object. *)
Definition Argument_init (str : string) : Py.result (State * Node) :=
  st ← WikiText_init str;
  mret ({| _lststr := str;
           _spans := <["a" := [(0, Py.len str)]]> (_spans st) |},
        {| class := KArgument "a"; _index := -1 |}).

(** [Section(string)] with neither [spans] nor [index]. *)
Definition Section_init (str : string) : Py.result (State * Node) :=
  st ← WikiText_init str;
  mret ({| _lststr := str;
           _spans := <["s" := [(0, Py.len str)]]> (_spans st) |},
        {| class := KSection; _index := -1 |}).

(** [enumerate(l)] *)
Definition enumerate {A} (l : list A) : list (Z * A) :=
  imap (fun i x => (Z.of_nat i, x)) l.

(** [_gen_subspan_indices]: the document lists the spans inside its own,
    bounds included; an indexed object lists those strictly inside. *)
Definition _gen_subspan_indices (st : State) (n : Node) (type_ : string)
    : Py.result (list Z) :=
  '(selfstart, selfend) ← _get_span st n;
  l ← dict_getitem (_spans st) type_;
  let inside (s : Z * Z) :=
    match class n with
    | KWikiText => (selfstart <=? s.1) && (s.2 <=? selfend)
    | _ => (selfstart <? s.1) && (s.2 <? selfend)
    end in
  mret (fst <$> filter (fun p => inside p.2 = true) (enumerate l)).

Definition nodes_of (c : Class) (indices : list Z) : list Node :=
  (fun i => {| class := c; _index := i |}) <$> indices.

Definition parameters (st : State) (n : Node) : Py.result (list Node) :=
  nodes_of KParameter <$> _gen_subspan_indices st n "p".
Definition parser_functions (st : State) (n : Node) : Py.result (list Node) :=
  nodes_of KParserFunction <$> _gen_subspan_indices st n "pf".
Definition templates (st : State) (n : Node) : Py.result (list Node) :=
  nodes_of KTemplate <$> _gen_subspan_indices st n "t".
Definition wikilinks (st : State) (n : Node) : Py.result (list Node) :=
  nodes_of KWikiLink <$> _gen_subspan_indices st n "wl".
Definition comments (st : State) (n : Node) : Py.result (list Node) :=
  nodes_of KComment <$> _gen_subspan_indices st n "c".

(** ** Containment and splitting *)

(** The spans collected by [_in_subspans_factory]. *)
Fixpoint subspans_of (spans : gmap string (list (Z * Z)))
    (selfstart selfend : Z) (keys : list string) : Py.result (list (Z * Z)) :=
  match keys with
  | [] => mret []
  | key :: keys' =>
      l ← dict_getitem spans key;
      rest ← subspans_of spans selfstart selfend keys';
      mret (filter (fun s => selfstart < s.1 ∧ s.2 < selfend) l ++ rest)
  end.

(** The function [in_spans] that [_in_subspans_factory] returns. *)
Definition in_spans (subspans : list (Z * Z)) (index : Z) : bool :=
  existsb (fun s => (s.1 <=? index) && (index <? s.2)) subspans.

Definition _in_subspans_factory (st : State) (n : Node)
    : Py.result (Z -> bool) :=
  '(selfstart, selfend) ← _get_span st n;
  subspans ← subspans_of (_spans st) selfstart selfend
                ["t"; "p"; "pf"; "wl"; "c"; "nw"];
  mret (in_spans subspans).

(** [while in_spans(spanstart + index): index = string.find(char, index + 1)] *)
Fixpoint skip_in_spans (fuel : nat) (in_spans : Z -> bool) (str char : string)
    (spanstart index : Z) : Py.result Z :=
  if in_spans (spanstart + index) then
    match fuel with
    | O => Py.OutOfFuel
    | S fuel' =>
        skip_in_spans fuel' in_spans str char spanstart
          (Py.find str char (index + 1))
    end
  else mret index.

(** The [while True] loop of [_not_in_subspans_splitspans]. *)
Fixpoint splitspans_loop (fuel : nat) (in_spans : Z -> bool) (str char : string)
    (spanstart spanend findstart : Z) (results : list (Z * Z))
    : Py.result (list (Z * Z)) :=
  match fuel with
  | O => Py.OutOfFuel
  | S fuel' =>
      index ← skip_in_spans (S (String.length str)) in_spans str char spanstart
                (Py.find str char findstart);
      if index =? -1 then mret (results ++ [(spanstart + findstart, spanend)])
      else
        splitspans_loop fuel' in_spans str char spanstart spanend (index + 1)
          (results ++ [(spanstart + findstart, spanstart + index)])
  end.

Definition _not_in_subspans_splitspans (st : State) (n : Node) (char : string)
    : Py.result (list (Z * Z)) :=
  '(spanstart, spanend) ← _get_span st n;
  let str := Py.slice (_lststr st) spanstart spanend in
  in_spans ← _in_subspans_factory st n;
  splitspans_loop (S (S (String.length str))) in_spans str char
    spanstart spanend 0 [].

(** ** The classes *)

(** [if key not in spans: spans[key] = []] *)
Definition setdefault_empty (spans : gmap string (list (Z * Z))) (key : string)
    : gmap string (list (Z * Z)) :=
  match spans !! key with
  | Some _ => spans
  | None => <[key := []]> spans
  end.

(** [if span not in l: l.append(span)], then [l.index(span)] *)
Definition add_span (l : list (Z * Z)) (sp : Z * Z) : list (Z * Z) * Z :=
  let l' := if Py.contains sp l then l else l ++ [sp] in
  (l', match Py.list_index sp l' with
       | Some i => Z.of_nat i
       | None => -1
       end).

(** The loop of [Template.arguments] and of [ParserFunction.arguments]
    over the spans between the bars: each span is extended to its bar,
    recorded, and becomes an [Argument]. *)
Fixpoint add_arguments (typeindex : string) (barsplits : list (Z * Z))
    (aspans : list (Z * Z)) (arguments : list Node)
    : list (Z * Z) * list Node :=
  match barsplits with
  | [] => (aspans, arguments)
  | aspan :: rest =>
      let aspan := (aspan.1 + -1, aspan.2) in
      let '(aspans, i) := add_span aspans aspan in
      add_arguments typeindex rest aspans
        (arguments ++ [{| class := KArgument typeindex; _index := i |}])
  end.

(** [barsplits[-1] = (barsplits[-1][0], barsplits[-1][1] - 2)] *)
Definition cut_last (barsplits : list (Z * Z)) : list (Z * Z) :=
  match reverse barsplits with
  | [] => []
  | sp :: before => reverse ((sp.1, sp.2 - 2) :: before)
  end.

Module Template.

(** [Template.arguments] *)
Definition arguments (st : State) (n : Node) : Py.result (list Node * State) :=
  splits ← _not_in_subspans_splitspans st n "|";
  let barsplits := List.tl splits in
  let typeindex := "ta" +:+ Py.str_of_int (_index n) in
  let spans := setdefault_empty (_spans st) typeindex in
  aspans ← dict_getitem spans typeindex;
  match barsplits with
  | [] => mret ([], {| _lststr := _lststr st; _spans := spans |})
  | _ =>
      let barsplits := cut_last barsplits in
      let '(aspans, arguments) := add_arguments typeindex barsplits aspans [] in
      mret (arguments,
            {| _lststr := _lststr st; _spans := <[typeindex := aspans]> spans |})
  end.

(** [Template.name] *)
Definition name (st : State) (n : Node) : Py.result string :=
  s ← string_ st n;
  mret (Py.partition (Py.slice s 2 (-2)) "|").1.1.

(** The setter of [Template.name] *)
Definition set_name (st : State) (n : Node) (newname : string)
    : Py.result State :=
  s ← string_ st n;
  let '(name, pipe, paramters) := Py.partition (Py.slice s 2 (-2)) "|" in
  match pipe with
  | EmptyString => set_string st n ("{{" +:+ newname +:+ "}}")
  | _ => set_string st n ("{{" +:+ newname +:+ "|" +:+ paramters +:+ "}}")
  end.

End Template.

Module Parameter_.

Definition name (st : State) (n : Node) : Py.result string :=
  s ← string_ st n;
  mret (Py.partition (Py.slice s 3 (-3)) "|").1.1.

Definition pipe (st : State) (n : Node) : Py.result string :=
  s ← string_ st n;
  mret (Py.partition (Py.slice s 3 (-3)) "|").1.2.

Definition default (st : State) (n : Node) : Py.result string :=
  s ← string_ st n;
  mret (Py.partition (Py.slice s 3 (-3)) "|").2.

Definition set_name (st : State) (n : Node) (newname : string)
    : Py.result State :=
  s ← string_ st n;
  let '(name, pipe, default) := Py.partition (Py.slice s 3 (-3)) "|" in
  match pipe with
  | EmptyString => set_string st n ("{{{" +:+ newname +:+ "}}}")
  | _ => set_string st n ("{{{" +:+ newname +:+ "|" +:+ default +:+ "}}}")
  end.

Definition set_default (st : State) (n : Node) (newdefault : string)
    : Py.result State :=
  nm ← name st n;
  set_string st n ("{{{" +:+ nm +:+ "|" +:+ newdefault +:+ "}}}").

End Parameter_.

Module WikiLink.

Definition target (st : State) (n : Node) : Py.result string :=
  s ← string_ st n;
  mret (Py.partition (Py.slice s 2 (-2)) "|").1.1.

(** [None] is Python's [None]: the link has no pipe. *)
Definition text (st : State) (n : Node) : Py.result (option string) :=
  s ← string_ st n;
  let '(target, pipe, text) := Py.partition (Py.slice s 2 (-2)) "|" in
  match pipe with
  | EmptyString => mret None
  | _ => mret (Some text)
  end.

Definition set_target (st : State) (n : Node) (newtarget : string)
    : Py.result State :=
  s ← string_ st n;
  let '(target, pipe, text) := Py.partition (Py.slice s 2 (-2)) "|" in
  match pipe with
  | EmptyString => set_string st n ("[[" +:+ newtarget +:+ "]]")
  | _ => set_string st n ("[[" +:+ newtarget +:+ "|" +:+ text +:+ "]]")
  end.

Definition set_text (st : State) (n : Node) (newtext : string)
    : Py.result State :=
  t ← target st n;
  set_string st n ("[[" +:+ t +:+ "|" +:+ newtext +:+ "]]").

End WikiLink.

Module Comment.

Definition contents (st : State) (n : Node) : Py.result string :=
  s ← string_ st n;
  mret (Py.slice s 4 (-3)).

End Comment.

Module Argument.

(** [span0 < span1 and '=' not in godstring[span0:span1]], counted over
    [self._spans[self._typeindex][:self._index]] *)
Definition positional (godstring : string) (sp : Z * Z) : bool :=
  (sp.1 <? sp.2)
  && negb (bool_decide (is_Some
       (Py.find_nat "=" O (Py.slice godstring sp.1 sp.2)))).

(** [l[:i]] on a list *)
Definition list_slice_to {A} (l : list A) (i : Z) : list A :=
  take (Py.bound (Z.of_nat (length l)) i) l.

Definition name (st : State) (n : Node) : Py.result string :=
  s ← string_ st n;
  let '(pipename, equal, value) := Py.partition s "=" in
  match equal with
  | String _ _ => mret (Py.slice_from pipename 1)
  | EmptyString =>
      match class n with
      | KArgument typeindex =>
          l ← dict_getitem (_spans st) typeindex;
          let before := list_slice_to l (_index n) in
          let position :=
            1 + Z.of_nat (length (filter
                  (fun sp => positional (_lststr st) sp = true) before)) in
          mret (Py.str_of_int position)
      | _ => Py.Raise Py.AttributeError
      end
  end.

Definition equal_sign (st : State) (n : Node) : Py.result string :=
  s ← string_ st n;
  mret (Py.partition s "=").1.2.

Definition value (st : State) (n : Node) : Py.result string :=
  s ← string_ st n;
  let '(pipename, equal, value) := Py.partition s "=" in
  match equal with
  | String _ _ => mret value
  | EmptyString => mret (Py.slice_from pipename 1)
  end.

(** The setter of [Argument.value]; [pipename[0]] is an index, not a
    slice. *)
Definition set_value (st : State) (n : Node) (newvalue : string)
    : Py.result State :=
  s ← string_ st n;
  let '(pipename, equal, value) := Py.partition s "=" in
  match equal with
  | String _ _ => set_string st n (pipename +:+ "=" +:+ newvalue)
  | EmptyString =>
      c ← Py.getitem pipename 0;
      set_string st n (String c newvalue)
  end.

(** The setter of [Argument.name] *)
Definition set_name (st : State) (n : Node) (newname : string)
    : Py.result State :=
  v ← value st n;
  set_string st n ("|" +:+ newname +:+ "=" +:+ v).

End Argument.

Module Section_.

(** [Section.level] *)
Definition level (st : State) (n : Node) : Py.result Z :=
  selfstring ← string_ st n;
  match match_ SECTION_LEVEL_TITLE selfstring with
  | None => mret 0
  | Some m =>
      match group_n m 1 with
      | Some g => mret (Py.len g)
      | None => Py.Raise Py.AttributeError
      end
  end.

(** [Section.title] *)
Definition title (st : State) (n : Node) : Py.result string :=
  level ← level st n;
  if level =? 0 then mret ""
  else
    s ← string_ st n;
    mret (Py.slice (Py.rstrip (Py.partition s (String newline "")).1.1)
            level (- level)).

(** [Section.contents] *)
Definition contents (st : State) (n : Node) : Py.result string :=
  level ← level st n;
  s ← string_ st n;
  if level =? 0 then mret s
  else mret (Py.partition s (String newline "")).2.

(** The setter of [Section.title] *)
Definition set_title (st : State) (n : Node) (newtitle : string)
    : Py.result State :=
  level ← level st n;
  if level =? 0 then Py.Raise Py.RuntimeError
  else
    let equals := Py.repeat_char "=" (Z.to_nat level) in
    c ← contents st n;
    set_string st n (equals +:+ newtitle +:+ equals +:+ String newline "" +:+ c).

(** The setter of [Section.level] *)
Definition set_level (st : State) (n : Node) (newlevel : Z)
    : Py.result State :=
  let equals := Py.repeat_char "=" (Z.to_nat newlevel) in
  t ← title st n;
  c ← contents st n;
  set_string st n (equals +:+ t +:+ equals +:+ c).

(** The setter of [Section.contents] *)
Definition set_contents (st : State) (n : Node) (newcontents : string)
    : Py.result State :=
  level ← level st n;
  if level =? 0 then set_string st n newcontents
  else
    s ← string_ st n;
    set_string st n
      ((Py.partition s (String newline "")).1.1 +:+ String newline ""
       +:+ newcontents).

End Section_.

(** ** The section builder: [WikiText.sections] *)

Definition section (index : Z) : Node := {| class := KSection; _index := index |}.

(** [sspans[index] = (sspans[index][0], end_)] in the state *)
Definition extend_section (st : State) (index : Z) (end_ : Z) : Py.result State :=
  sspans ← dict_getitem (_spans st) "s";
  sp ← Py.list_getitem sspans index;
  match Py.list_pos sspans index with
  | Some i =>
      mret {| _lststr := _lststr st;
              _spans := <["s" := <[i := (sp.1, end_)]> sspans]> (_spans st) |}
  | None => Py.Raise Py.IndexError
  end.

(** The loop [for i, section in enumerate(sections[1:])]: [scan] holds
    the sections still to visit.  A section of lower level than the
    latest one is extended to the end of the latest one; the first
    section that is not of lower level ends the loop. *)
Fixpoint extend_parents (st : State) (scan : list Node)
    (latest_level end_ : Z) : Py.result State :=
  match scan with
  | [] => mret st
  | section :: scan' =>
      level ← Section_.level st section;
      if level <? latest_level then
        st ← extend_section st (_index section) end_;
        extend_parents st scan' latest_level end_
      else mret st
  end.

(** [mspan = (mspan[0] + selfstart, mspan[1] + selfstart)], and the
    index under which the span is found in [spans['s']], added to it
    when it is not there yet. *)
Definition record_section (st : State) (selfstart : Z) (mspan : Z * Z)
    : Py.result (State * Z * (Z * Z)) :=
  let mspan := (mspan.1 + selfstart, mspan.2 + selfstart) in
  sspans ← dict_getitem (_spans st) "s";
  let '(sspans, index) := add_span sspans mspan in
  mret ({| _lststr := _lststr st; _spans := <["s" := sspans]> (_spans st) |},
        index, mspan).

(** The body of [for m in SECTION_REGEX.finditer(selfstring)]. *)
Definition add_section (selfstart : Z) (acc : State * list Node) (m : Match)
    : Py.result (State * list Node) :=
  let '(st, sections) := acc in
  '(st, index, mspan) ← record_section st selfstart (span m);
  let latest_section := section index in
  let sections := sections ++ [latest_section] in
  latest_level ← Section_.level st latest_section;
  st ← extend_parents st (List.tl sections) latest_level mspan.2;
  mret (st, sections).

Fixpoint for_sections (selfstart : Z) (ms : list Match)
    (acc : State * list Node) : Py.result (State * list Node) :=
  match ms with
  | [] => mret acc
  | m :: ms' =>
      acc ← add_section selfstart acc m;
      for_sections selfstart ms' acc
  end.

(** [WikiText.sections] *)
Definition sections (st : State) (n : Node) : Py.result (list Node * State) :=
  '(selfstart, selfend) ← _get_span st n;
  selfstring ← string_ st n;
  let st :=
    {| _lststr := _lststr st; _spans := setdefault_empty (_spans st) "s" |} in
  match match_ LEAD_SECTION_REGEX selfstring with
  | None => Py.Raise Py.AttributeError
  | Some m =>
      '(st, index, _) ← record_section st selfstart (span m);
      '(st, sections) ←
        for_sections selfstart (finditer SECTION_REGEX selfstring)
          (st, [section index]);
      mret (sections, st)
  end.

(** ** Invariants of the span table and sequences of edits *)

(** Invariant 1 of the data model for one span of a buffer of length [n]. *)
Definition span_ok (n : Z) (sp : Z * Z) : Prop :=
  0 <= sp.1 /\ sp.1 <= sp.2 /\ sp.2 <= n.

(** Every span of every category is within the buffer. *)
Definition table_ok (st : State) : Prop :=
  forall key l, _spans st !! key = Some l ->
    Forall (span_ok (Py.len (_lststr st))) l.

(** The node has a span: its category exists and its index is in range. *)
Definition resolves (st : State) (n : Node) : Prop :=
  exists sp, _get_span st n = Py.Ok sp.

(** The two tables have the same categories, each with as many spans. *)
Definition same_shape (st st' : State) : Prop :=
  forall key, length <$> (_spans st' !! key) = length <$> (_spans st !! key).

(** The length delta of writing [newstring] into the node. *)
Definition delta (st : State) (n : Node) (newstring : string) : Z :=
  match string_ st n with
  | Py.Ok oldstring => Py.len newstring - Py.len oldstring
  | _ => 0
  end.

(** What [set_string] does to one span, as a function of the start [p]
    of the edited node and of the length delta. *)
Definition rebase (p delta : Z) (sp : Z * Z) : Z * Z :=
  if 0 <? delta then extend_span p delta sp
  else if delta <? 0 then shrink_span p (p - delta) sp
  else sp.

(** A sequence of calls of the setter; the result lists the state after
    each call. *)
Fixpoint run_edits (st : State) (edits : list (Node * string))
    : Py.result (list State) :=
  match edits with
  | [] => mret []
  | (n, newstring) :: edits' =>
      st' ← set_string st n newstring;
      states ← run_edits st' edits';
      mret (st' :: states)
  end.

(** The sum of the length deltas of the calls. *)
Fixpoint sum_deltas (st : State) (edits : list (Node * string))
    (states : list State) : Z :=
  match edits, states with
  | (n, newstring) :: edits', st' :: states' =>
      delta st n newstring + sum_deltas st' edits' states'
  | _, _ => 0
  end.

(** What one call guarantees: the invariant, the length of the buffer,
    no span added or removed, and a span that lay within the removed
    region [p, p + |delta|) left empty at [p]. *)
Definition step_ok (st : State) (n : Node) (newstring : string) (st' : State)
    : Prop :=
  table_ok st' /\
  Py.len (_lststr st') = Py.len (_lststr st) + delta st n newstring /\
  same_shape st st' /\
  forall p e0 key l i s e,
    _get_span st n = Py.Ok (p, e0) ->
    delta st n newstring < 0 ->
    _spans st !! key = Some l -> l !! i = Some (s, e) ->
    p <= s -> s <= e -> e <= p - delta st n newstring ->
    exists l', _spans st' !! key = Some l' /\ l' !! i = Some (p, p).

Fixpoint steps_ok (st : State) (edits : list (Node * string))
    (states : list State) : Prop :=
  match edits, states with
  | [], [] => True
  | (n, newstring) :: edits', st' :: states' =>
      step_ok st n newstring st' /\ steps_ok st' edits' states'
  | _, _ => False
  end.

(** ** The documents of the examples *)

Definition template (index : Z) : Node := {| class := KTemplate; _index := index |}.
Definition parameter (index : Z) : Node := {| class := KParameter; _index := index |}.
Definition argument (typeindex : string) (index : Z) : Node :=
  {| class := KArgument typeindex; _index := index |}.

(** ["{{a|1}}"] once [templates] and [arguments] have been called. *)
Definition example_5 : State :=
  {| _lststr := "{{a|1}}";
     _spans := <["ta0" := [(3, 5)]]> (table [] [] [(0, 7)] [] [] []) |}.

(** ["{{a|b}}"] once the text of its argument has been set to [""]. *)
Definition emptied_argument : State :=
  {| _lststr := "{{a}}";
     _spans := <["ta0" := [(3, 3)]]> (table [] [] [(0, 5)] [] [] []) |}.

(** ["== Title ==\nBody"] *)
Definition example_4 : string := "== Title ==" +:+ String newline "Body".

(** A document with nested headers. *)
Definition nested_sections : string :=
  "lead" +:+ String newline "= A =" +:+ String newline "== B =="
  +:+ String newline "=== C ===" +:+ String newline "== D =="
  +:+ String newline "".




(** [nested_sections] once the lead section and the sections ["A"],
    ["B"] and ["C"] have been built. *)
Definition three_sections : State :=
  {| _lststr := nested_sections;
     _spans := <["s" := [(0, 5); (5, 29); (11, 29); (19, 29)]]>
                 (table [] [] [] [] [] []) |}.

(** The match of SECTION_REGEX for the section ["D"]. *)
Definition match_D : Match :=
  {| subject := nested_sections; span := (29, 37); groups := [] |}.

(** ** What a match implies

    [sem s r i j] is implied by every match of [r] in [s] that starts at
    [i] and ends at [j]: the literal characters are in the text, a
    quantifier or a back-reference ends between its start and the end of
    the text, an assertion takes no character. *)
Fixpoint sem (s : string) (r : regex) (i j : nat) : Prop :=
  match r with
  | Eps => j = i
  | Chr a => String.get i s = Some a /\ j = S i
  | Cls p => (exists b, String.get i s = Some b /\ p b = true) /\ j = S i
  | Cat r1 r2 => exists k, sem s r1 i k /\ sem s r2 k j
  | Alt r1 r2 => sem s r1 i j \/ sem s r2 i j
  | Rep _ _ _ _ => (i <= j)%nat
  | Grp _ r1 => sem s r1 i j
  | Ref _ => (i <= j)%nat
  | Ahead _ _ | Behind _ _ _ | Bos | Eos => j = i
  end.

(** The matches are in the order of the text and do not overlap. *)
Fixpoint ordered (pos : nat) (ms : list (nat * nat * captures)) : Prop :=
  match ms with
  | [] => True
  | (a, b, _) :: ms' => (pos <= a)%nat /\ (a <= b)%nat /\ ordered b ms'
  end.

(** [old] occurs in [s]. *)
Definition occurs (old s : string) : Prop :=
  exists a, Py.startswith (Py.drop a s) old = true.

(** The text from [a] to [b] opens with two braces and closes with two. *)
Definition braced (s : string) (a b : nat) : Prop :=
  (a + 4 <= b)%nat /\
  String.get a s = Some "{"%char /\ String.get (S a) s = Some "{"%char /\
  String.get (b - 2) s = Some "}"%char /\ String.get (b - 1) s = Some "}"%char.

(** The string at the start of the three [while] loops of a pass of
    [_get_spans], after the single braces have been masked. *)
Definition pass_start (str : string) : string :=
  let str := sub SINGLE_OPEN_REGEX "_" str in
  let str := sub SINGLE_CLOSE_REGEX "_" str in
  let '(head, sep, tail) := Py.rpartition str "}" in
  let str := head +:+ sep +:+ Py.replace tail "{" "_" in
  let '(head, sep, tail) := Py.partition str "{" in
  Py.replace head "}" "_" +:+ sep +:+ tail.

(** ** External links *)

(** A literal of a pattern compiled with [re.IGNORECASE]: a letter stands
    for both of its cases. *)
Definition lower (c : ascii) : ascii :=
  let n := nat_of_ascii c in
  if ((65 <=? n) && (n <=? 90))%nat then ascii_of_nat (n + 32) else c.

Fixpoint lit_nocase (t : string) : regex :=
  match t with
  | EmptyString => Eps
  | String c EmptyString => Cls (fun b => Ascii.eqb (lower b) (lower c))
  | String c t' => Cat (Cls (fun b => Ascii.eqb (lower b) (lower c))) (lit_nocase t')
  end.

Fixpoint alt (rs : list regex) : regex :=
  match rs with
  | [] => Eps
  | [r] => r
  | r :: rs' => Alt r (alt rs')
  end.

(** VALID_EXTLINK_CHARS_PATTERN: any number of characters other than the
    space, the backslash, the double quote, the tab, the newline and the
    characters of [^`#<>[]{|}]. *)
Definition valid_extlink_char (c : ascii) : bool :=
  not_ " \^`#<>[]{|}" c
  && negb (Ascii.eqb c "034") && negb (Ascii.eqb c "009")
  && negb (Ascii.eqb c newline).
Definition VALID_EXTLINK_CHARS_PATTERN : regex := star valid_extlink_char.

(** The schemes of VALID_EXTLINK_SCHEMES_PATTERN but the last, [//]. *)
Definition extlink_schemes : list string :=
  ["bitcoin:"; "ftp://"; "ftps://"; "geo:"; "git://"; "gopher://"; "http://";
   "https://"; "irc://"; "ircs://"; "magnet:"; "mailto:"; "mms://"; "news:";
   "nntp://"; "redis://"; "sftp://"; "sip:"; "sips:"; "sms:"; "ssh://";
   "svn://"; "tel:"; "telnet://"; "urn:"; "worldwind://"; "xmpp:"].

(** VALID_EXTLINK_SCHEMES_PATTERN, as group [g] *)
Definition VALID_EXTLINK_SCHEMES_PATTERN (g : nat) : regex :=
  Grp g (alt (lit_nocase <$> extlink_schemes ++ ["//"])).

(** The schemes without [|//], then VALID_EXTLINK_CHARS *)
Definition BARE_EXTERNALLINK_REGEX (g : nat) : regex :=
  Cat (Grp g (alt (lit_nocase <$> extlink_schemes))) VALID_EXTLINK_CHARS_PATTERN.

(** [\[] SCHEMES VALID_EXTLINK_CHARS [ *[^\]\n]*\]] *)
Definition BRACKET_EXTERNALLINK_REGEX (g : nat) : regex :=
  seq [Chr "["; VALID_EXTLINK_SCHEMES_PATTERN g; VALID_EXTLINK_CHARS_PATTERN;
       star (is_ " "); star (fun c => not_ "]" c && not_newline c); Chr "]"].

(** [(] BARE [|] BRACKET [)] *)
Definition EXTERNALLINK_REGEX : regex :=
  Grp 1 (Alt (BARE_EXTERNALLINK_REGEX 2) (BRACKET_EXTERNALLINK_REGEX 3)).

Definition external_link (index : Z) : Node :=
  {| class := KExternalLink; _index := index |}.

(** The body of [for m in EXTERNALLINK_REGEX.finditer(self.string)] *)
Definition record_link (selfstart : Z) (acc : list (Z * Z) * list Node)
    (m : Match) : list (Z * Z) * list Node :=
  let mspan := ((span m).1 + selfstart, (span m).2 + selfstart) in
  let '(elspans, index) := add_span acc.1 mspan in
  (elspans, acc.2 ++ [external_link index]).

(** [WikiText.external_links] *)
Definition external_links (st : State) (n : Node)
    : Py.result (list Node * State) :=
  '(selfstart, selfend) ← _get_span st n;
  let spans := setdefault_empty (_spans st) "el" in
  elspans ← dict_getitem spans "el";
  selfstring ← string_ st n;
  let '(elspans, links) :=
    fold_left (record_link selfstart) (finditer EXTERNALLINK_REGEX selfstring)
      (elspans, []) in
  mret (links, {| _lststr := _lststr st; _spans := <["el" := elspans]> spans |}).

(** [ExternalLink(string)] with neither [spans] nor [index]. *)
Definition ExternalLink_init (str : string) : Py.result (State * Node) :=
  st ← WikiText_init str;
  mret ({| _lststr := str;
           _spans := <["el" := [(0, Py.len str)]]> (_spans st) |},
        external_link (-1)).

Module ExternalLink.

Definition in_brackets (st : State) (n : Node) : Py.result bool :=
  s ← string_ st n;
  mret (Py.startswith s "[").

Definition url (st : State) (n : Node) : Py.result string :=
  b ← in_brackets st n;
  s ← string_ st n;
  if (b : bool) then mret (Py.partition (Py.slice s 1 (-1)) " ").1.1
  else mret s.

Definition text (st : State) (n : Node) : Py.result string :=
  b ← in_brackets st n;
  s ← string_ st n;
  if (b : bool) then mret (Py.partition (Py.slice s 1 (-1)) " ").2
  else mret s.

(** The setter of [ExternalLink.url] *)
Definition set_url (st : State) (n : Node) (newurl : string)
    : Py.result State :=
  text ← text st n;
  b ← in_brackets st n;
  if (b : bool) then
    match text with
    | EmptyString => set_string st n ("[" +:+ newurl +:+ "]")
    | _ => set_string st n ("[" +:+ newurl +:+ " " +:+ text +:+ "]")
    end
  else set_string st n newurl.

(** The setter of [ExternalLink.text] *)
Definition set_text (st : State) (n : Node) (newtext : string)
    : Py.result State :=
  u ← url st n;
  set_string st n ("[" +:+ u +:+ " " +:+ newtext +:+ "]").

End ExternalLink.

(** ** Parser functions *)

Module ParserFunction.

(** [ParserFunction.name] *)
Definition name (st : State) (n : Node) : Py.result string :=
  s ← string_ st n;
  mret (Py.partition (Py.partition s ":").1.1 "#").2.

(** [ParserFunction.arguments]: the first argument starts at the colon,
    the others at their bars. *)
Definition arguments (st : State) (n : Node) : Py.result (list Node * State) :=
  barsplits ← _not_in_subspans_splitspans st n "|";
  let typeindex := "pfa" +:+ Py.str_of_int (_index n) in
  let spans := setdefault_empty (_spans st) typeindex in
  aspans ← dict_getitem spans typeindex;
  '(selfstart, selfend) ← _get_span st n;
  match cut_last barsplits with
  | [] => Py.Raise Py.IndexError
  | aspan :: barsplits =>
      s ← string_ st n;
      let aspan := (aspan.1 + Py.find s ":" 0, aspan.2) in
      let '(aspans, i) := add_span aspans aspan in
      let '(aspans, arguments) :=
        add_arguments typeindex barsplits aspans
          [{| class := KArgument typeindex; _index := i |}] in
      mret (arguments,
            {| _lststr := _lststr st; _spans := <[typeindex := aspans]> spans |})
  end.

End ParserFunction.

(** ** Splitting into texts *)

(** The [while True] loop of [_not_in_subspans_split]. *)
Fixpoint split_loop (fuel : nat) (in_spans : Z -> bool) (str char : string)
    (spanstart findstart : Z) (splits : list string)
    : Py.result (list string) :=
  match fuel with
  | O => Py.OutOfFuel
  | S fuel' =>
      index ← skip_in_spans (S (String.length str)) in_spans str char spanstart
                (Py.find str char findstart);
      if index =? -1 then mret (splits ++ [Py.slice_from str findstart])
      else
        split_loop fuel' in_spans str char spanstart (index + 1)
          (splits ++ [Py.slice str findstart index])
  end.

Definition _not_in_subspans_split (st : State) (n : Node) (char : string)
    : Py.result (list string) :=
  '(spanstart, spanend) ← _get_span st n;
  let str := Py.slice (_lststr st) spanstart spanend in
  in_spans ← _in_subspans_factory st n;
  split_loop (S (S (String.length str))) in_spans str char spanstart 0 [].

(** ** What the tokenizer records

    [masked s t]: [t] is [s] with some of its characters replaced by
    underscores, which is what every step of [_get_spans] does to the
    string it searches. *)
Fixpoint masked (s t : string) : Prop :=
  match s, t with
  | EmptyString, EmptyString => True
  | String a s', String b t' => (b = a \/ b = "_"%char) /\ masked s' t'
  | _, _ => False
  end.

(** The span lies in [str], where it opens with [open] and closes with
    [close]: [str[a:a + len(open)] == open] and
    [str[b - len(close):b] == close]. *)
Definition delimited (str open close : string) (sp : Z * Z) : Prop :=
  0 <= sp.1 /\ sp.1 + Py.len open + Py.len close <= sp.2 /\
  sp.2 <= Py.len str /\
  Py.slice str sp.1 (sp.1 + Py.len open) = open /\
  Py.slice str (sp.2 - Py.len close) sp.2 = close.

(** The same for positions of the text: from [a] the text reads [pre],
    and up to [b] it reads [post]. *)
Definition edged (s pre post : string) (a b : nat) : Prop :=
  (a + String.length pre + String.length post <= b)%nat /\
  (b <= String.length s)%nat /\
  Py.startswith (Py.drop a s) pre = true /\
  Py.startswith (Py.drop (b - String.length post) s) post = true.

(** ** What the splitter returns

    [tiled good start end_ l]: the spans of [l] follow one another from
    [start] to [end_]; each but the last ends at a position where [good]
    holds, and the next one starts one position later. *)
Fixpoint tiled (good : Z -> Prop) (start end_ : Z) (l : list (Z * Z)) : Prop :=
  match l with
  | [] => False
  | sp :: rest =>
      sp.1 = start /\
      match rest with
      | [] => sp.2 = end_
      | _ => start <= sp.2 /\ good sp.2 /\ tiled good (sp.2 + 1) end_ rest
      end
  end.

(** The parser function [{{#a|b:c}}], whose first bar is before its
    colon, as [WikiText] parses it. *)
Definition bar_before_colon : State :=
  {| _lststr := "{{#a|b:c}}"; _spans := table [] [(0, 10)] [] [] [] [] |}.

Definition parser_function (index : Z) : Node :=
  {| class := KParserFunction; _index := index |}.

(** A section that is a header line and a body, and a section without a
    header. *)
Definition titled_section : State :=
  {| _lststr := "== T ==" +:+ String newline "body";
     _spans := <["s" := [(0, 12)]]> ∅ |}.

Definition lead_only : State :=
  {| _lststr := "lead"; _spans := <["s" := [(0, 4)]]> ∅ |}.

(** * Properties *)

(** ** The primitives and the patterns on examples *)

Example slice_negative : Py.slice "{{a|b}}" 2 (-2) = "a|b".
Proof. reflexivity. Qed.
Example replace_all : Py.replace "{{a}} {{a}}" "{{a}}" "__a__" = "__a__ __a__".
Proof. reflexivity. Qed.
Example partition_absent : Py.partition "abc" "|" = ("abc", "", "").
Proof. reflexivity. Qed.
Example rpartition_last : Py.rpartition "a}b}c{" "}" = ("a}b", "}", "c{").
Proof. reflexivity. Qed.
Example rstrip_header : Py.rstrip "== T ==  " = "== T ==".
Proof. reflexivity. Qed.
Example str_of_int_12 : Py.str_of_int 12 = "12".
Proof. reflexivity. Qed.
Example comment_found :
  spans_of (finditer COMMENT_REGEX "a<!-- {{x}} -->b<!---->") = [(1, 15); (16, 23)].
Proof. reflexivity. Qed.
Example template_found :
  spans_of (finditer TEMPLATE_NOT_PARAM_REGEX "{{a|{{b|c}}}}") = [(4, 11)].
Proof. reflexivity. Qed.
Example parameter_is_no_template :
  spans_of (finditer TEMPLATE_NOT_PARAM_REGEX "{{{x|default}}}") = [].
Proof. reflexivity. Qed.
Example parser_function_found :
  spans_of (finditer PARSER_FUNCTION_REGEX "{{#if:x|y|z}} {{ #a:b}}") = [(0, 13); (14, 23)].
Proof. reflexivity. Qed.
Example single_braces_masked :
  sub SINGLE_OPEN_REGEX "_" "{a {{b}} {" = "_a {{b}} {".
Proof. reflexivity. Qed.
Example header_found :
  spans_of (finditer SECTION_HEADER_REGEX ("== Title ==" +:+ String newline "Body"))
  = [(0, 12)].
Proof. reflexivity. Qed.
Example level_title_groups :
  (fun m => group_n m 2) <$> match_ SECTION_LEVEL_TITLE "== Title =="
  = Some (Some " Title ").
Proof. reflexivity. Qed.
Example nested_templates :
  _get_spans "{{a|{{b|c}}}}" = Some (table [] [] [(4, 11); (0, 13)] [] [] []).
Proof. vm_compute. reflexivity. Qed.
Example parameter_recorded :
  get_spans_fuel 5 "{{{x|default}}}" = Some (table [(0, 15)] [] [] [] [] [], 2%nat).
Proof. vm_compute. reflexivity. Qed.
Example template_in_parameter_in_template :
  get_spans_fuel 9 "{{a|{{{b|{{c}}}}}}}"
  = Some (table [(4, 17)] [] [(9, 14); (0, 19)] [] [] [], 3%nat).
Proof. vm_compute. reflexivity. Qed.
Example unbalanced :
  _get_spans "{{a|{{b}} [[x|{{y]] <!-- {{c}} -->"
  = Some (table [] [] [(4, 9)] [(10, 19)] [(20, 34)] []).
Proof. vm_compute. reflexivity. Qed.
Example overlapping_spans :
  _get_spans "{{#{{{:a}}b}}}" = Some (table [(3, 14)] [(0, 10)] [] [] [] []).
Proof. vm_compute. reflexivity. Qed.

(** ** Strings and slices *)

Lemma length_append (s t : string) :
  String.length (s +:+ t) = (String.length s + String.length t)%nat.
Proof. induction s as [|c s IH]; simpl; [reflexivity | now rewrite IH]. Qed.

Lemma length_take (n : nat) (s : string) :
  String.length (Py.take n s) = Nat.min n (String.length s).
Proof.
  revert s; induction n as [|n IH]; intros [|c s]; simpl; try reflexivity.
  now rewrite IH.
Qed.

Lemma length_drop (n : nat) (s : string) :
  String.length (Py.drop n s) = (String.length s - n)%nat.
Proof.
  revert s; induction n as [|n IH]; intros [|c s]; simpl; try reflexivity.
  apply IH.
Qed.

Lemma append_cons (c : ascii) (s t : string) :
  String c s +:+ t = String c (s +:+ t).
Proof. reflexivity. Qed.

Lemma take_drop (n : nat) (s : string) : Py.take n s +:+ Py.drop n s = s.
Proof.
  revert s; induction n as [|n IH]; intros [|c s]; simpl; try reflexivity.
  rewrite append_cons. f_equal. apply IH.
Qed.

Lemma len_append (s t : string) : Py.len (s +:+ t) = Py.len s + Py.len t.
Proof. unfold Py.len. rewrite length_append. lia. Qed.

Lemma len_nonneg (s : string) : 0 <= Py.len s.
Proof. unfold Py.len. lia. Qed.

Lemma bound_in_range (n i : Z) : 0 <= i <= n -> Py.bound n i = Z.to_nat i.
Proof.
  intros H. unfold Py.bound.
  destruct (Z.ltb_spec i 0); [lia|]. f_equal. lia.
Qed.

Lemma len_slice (s : string) (a b : Z) :
  0 <= a -> a <= b -> b <= Py.len s -> Py.len (Py.slice s a b) = b - a.
Proof.
  intros Ha Hab Hb. unfold Py.slice.
  rewrite !bound_in_range by lia.
  unfold Py.len in *. rewrite length_take, length_drop. lia.
Qed.

Lemma len_slice_to (s : string) (a : Z) :
  0 <= a <= Py.len s -> Py.len (Py.slice_to s a) = a.
Proof.
  intros Ha. unfold Py.slice_to. rewrite bound_in_range by lia.
  unfold Py.len in *. rewrite length_take. lia.
Qed.

Lemma len_slice_from (s : string) (a : Z) :
  0 <= a <= Py.len s -> Py.len (Py.slice_from s a) = Py.len s - a.
Proof.
  intros Ha. unfold Py.slice_from. rewrite bound_in_range by lia.
  unfold Py.len in *. rewrite length_drop. lia.
Qed.

Lemma slice_empty (s : string) (a : Z) : Py.slice s a a = "".
Proof. unfold Py.slice. rewrite Nat.sub_diag. now destruct (Py.drop _ s). Qed.

(** ** Results *)

Lemma bind_Ok {A B} (x : Py.result A) (f : A -> Py.result B) (b : B) :
  x ≫= f = Py.Ok b -> exists a, x = Py.Ok a /\ f a = Py.Ok b.
Proof. destruct x as [a| |]; simpl; intros H; try discriminate. eauto. Qed.

Lemma list_getitem_pos {A} (l : list A) (i : Z) (x : A) :
  Py.list_getitem l i = Py.Ok x <->
  exists k, Py.list_pos l i = Some k /\ l !! k = Some x.
Proof.
  unfold Py.list_getitem, Py.list_pos.
  destruct (_ || _).
  - split; [discriminate | intros (k & [=] & _)].
  - split.
    + destruct (l !! _) eqn:E; [|discriminate]. intros [= ->]. eauto.
    + intros (k & [= <-] & ->). reflexivity.
Qed.

Lemma list_pos_fmap {A B} (f : A -> B) (l : list A) (i : Z) :
  Py.list_pos (f <$> l) i = Py.list_pos l i.
Proof. unfold Py.list_pos. now rewrite length_fmap. Qed.

Lemma list_getitem_fmap {A B} (f : A -> B) (l : list A) (i : Z) :
  Py.list_getitem (f <$> l) i = f <$> Py.list_getitem l i.
Proof.
  unfold Py.list_getitem. rewrite length_fmap.
  destruct (_ || _); [reflexivity|].
  rewrite list_lookup_fmap. now destruct (l !! _).
Qed.

Lemma dict_getitem_fmap (f : list (Z * Z) -> list (Z * Z))
    (m : gmap string (list (Z * Z))) (key : string) :
  dict_getitem (f <$> m) key = f <$> dict_getitem m key.
Proof. unfold dict_getitem. rewrite lookup_fmap. now destruct (m !! key). Qed.

(** ** The setter of [string] and the rebase engine *)

Lemma get_span_ok (st : State) (n : Node) (sp : Z * Z) :
  table_ok st -> _get_span st n = Py.Ok sp -> span_ok (Py.len (_lststr st)) sp.
Proof.
  intros Hok. unfold _get_span. destruct (span_key (class n)) as [key|].
  - intros H. apply bind_Ok in H as (l & Hl & H).
    unfold dict_getitem in Hl. destruct (_spans st !! key) eqn:E; [|discriminate].
    injection Hl as ->. apply list_getitem_pos in H as (k & _ & H).
    exact (proj1 (Forall_lookup _ _) (Hok _ _ E) _ _ H).
  - intros [= <-]. unfold span_ok; simpl. pose proof (len_nonneg (_lststr st)). lia.
Qed.

(** An indexed node reads its span from the table alone; the span of the
    document starts at 0 whatever the buffer is. *)
Lemma get_span_start (st : State) (buffer : string) (n : Node) (p e : Z) :
  _get_span st n = Py.Ok (p, e) ->
  exists e', _get_span {| _lststr := buffer; _spans := _spans st |} n
             = Py.Ok (p, e').
Proof.
  unfold _get_span. simpl. destruct (span_key (class n)); [eauto|].
  intros [= <- <-]. eauto.
Qed.

Lemma get_span_fmap (st : State) (f : Z * Z -> Z * Z) (n : Node) :
  span_key (class n) <> None ->
  _get_span {| _lststr := _lststr st; _spans := fmap (M := list) f <$> _spans st |} n
  = f <$> _get_span st n.
Proof.
  unfold _get_span. simpl. destruct (span_key (class n)) as [key|]; [|congruence].
  intros _. rewrite dict_getitem_fmap.
  destruct (dict_getitem (_spans st) key); simpl; try reflexivity.
  apply list_getitem_fmap.
Qed.

Lemma rebase_zero (p : Z) (sp : Z * Z) : rebase p 0 sp = sp.
Proof. reflexivity. Qed.

Lemma fmap_rebase_zero (p : Z) (m : gmap string (list (Z * Z))) :
  fmap (M := list) (rebase p 0) <$> m = m.
Proof.
  apply map_eq. intros key. rewrite lookup_fmap.
  destruct (m !! key) as [l|]; simpl; [|reflexivity].
  f_equal. rewrite <- (list_fmap_id l) at 2. apply list_fmap_ext.
  intros ? ? _. apply rebase_zero.
Qed.

(** The state after [set_string]: the new text is spliced into the
    buffer at the span of the node, and every span is rebased. *)
Lemma set_string_spec (st : State) (n : Node) (newstring : string) (p e : Z) :
  _get_span st n = Py.Ok (p, e) ->
  set_string st n newstring
  = Py.Ok {| _lststr := Py.slice_to (_lststr st) p +:+ newstring
                        +:+ Py.slice_from (_lststr st) e;
             _spans := fmap (M := list) (rebase p (delta st n newstring))
                       <$> _spans st |}.
Proof.
  intros Hsp. unfold set_string, delta, string_. rewrite Hsp. simpl.
  set (old := Py.len (Py.slice (_lststr st) p e)).
  set (new := Py.len newstring).
  set (buffer := Py.slice_to _ _ +:+ _).
  destruct (get_span_start st buffer n p e Hsp) as (e' & He').
  unfold rebase.
  destruct (Z.ltb_spec old new) as [Hlt|Hge].
  - rewrite He'. simpl. destruct (Z.ltb_spec 0 (new - old)); [|lia].
    reflexivity.
  - destruct (Z.ltb_spec 0 (new - old)); [lia|].
    destruct (Z.ltb_spec new old) as [Hlt|Hge'].
    + destruct (Z.ltb_spec (new - old) 0); [|lia].
      replace (p + old - new) with (p - (new - old)) by lia. reflexivity.
    + destruct (Z.ltb_spec (new - old) 0); [lia|].
      simpl. unfold mret, result_ret. do 2 f_equal.
      symmetry. apply map_eq. intros key. rewrite lookup_fmap.
      destruct (_spans st !! key) as [l|]; simpl; [|reflexivity].
      f_equal. apply list_fmap_id.
Qed.

Lemma delta_spec (st : State) (n : Node) (newstring : string) (p e : Z) :
  table_ok st -> _get_span st n = Py.Ok (p, e) ->
  delta st n newstring = Py.len newstring - (e - p).
Proof.
  intros Hok Hsp. destruct (get_span_ok _ _ _ Hok Hsp) as (H1 & H2 & H3).
  simpl in *. unfold delta, string_. rewrite Hsp. simpl.
  rewrite len_slice by lia. reflexivity.
Qed.

Ltac split_span :=
  unfold rebase, extend_span, shrink_span, span_ok in *; simpl in *;
  repeat match goal with
  | |- context [Z.ltb ?a ?b] => destruct (Z.ltb_spec a b); simpl
  | |- context [Z.leb ?a ?b] => destruct (Z.leb_spec a b); simpl
  end.

(** The rebase keeps a span within the buffer, whose length changes by
    the delta. *)
Lemma rebase_ok (len p e d : Z) (sp : Z * Z) :
  span_ok len (p, e) -> span_ok len sp -> - (e - p) <= d ->
  span_ok (len + d) (rebase p d sp).
Proof. destruct sp as [s t]. intros H1 H2 H3. split_span; lia. Qed.

(** A span within the removed region is left empty at its start. *)
Lemma rebase_within_removed (p d s e : Z) :
  d < 0 -> p <= s -> s <= e -> e <= p - d -> rebase p d (s, e) = (p, p).
Proof. intros. split_span; f_equal; lia. Qed.

Lemma set_string_step (st : State) (n : Node) (newstring : string) :
  table_ok st -> resolves st n ->
  exists st', set_string st n newstring = Py.Ok st' /\ step_ok st n newstring st'.
Proof.
  intros Hok ((p & e) & Hsp). eexists. split; [exact (set_string_spec _ _ _ _ _ Hsp)|].
  pose proof (get_span_ok _ _ _ Hok Hsp) as Hn.
  pose proof (delta_spec st n newstring p e Hok Hsp) as Hd.
  pose proof (len_nonneg newstring) as Hnew.
  assert (Hlen : Py.len (Py.slice_to (_lststr st) p +:+ newstring
                         +:+ Py.slice_from (_lststr st) e)
                 = Py.len (_lststr st) + delta st n newstring).
  { destruct Hn as (H1 & H2 & H3); simpl in *.
    rewrite !len_append, len_slice_to, len_slice_from by lia. lia. }
  repeat split.
  - intros key l. simpl. rewrite lookup_fmap.
    destruct (_spans st !! key) as [l0|] eqn:E; [|discriminate].
    intros [= <-]. rewrite Hlen. apply Forall_fmap.
    eapply Forall_impl; [exact (Hok _ _ E)|].
    intros sp Hsp'. simpl. eapply rebase_ok; eauto. lia.
  - exact Hlen.
  - intros key. simpl. rewrite lookup_fmap.
    destruct (_spans st !! key); simpl; [|reflexivity]. now rewrite length_fmap.
  - intros p' e0 key l i s t Hsp' Hneg Hl Hi Hps Hst Hend.
    rewrite Hsp in Hsp'. injection Hsp' as <- <-.
    exists (rebase p (delta st n newstring) <$> l). split.
    + simpl. rewrite lookup_fmap, Hl. reflexivity.
    + rewrite list_lookup_fmap, Hi. simpl. f_equal.
      now apply rebase_within_removed.
Qed.

Lemma same_shape_resolves (st st' : State) (n : Node) :
  same_shape st st' -> resolves st n -> resolves st' n.
Proof.
  intros Hsh (sp & Hsp). unfold resolves, _get_span in *.
  destruct (span_key (class n)) as [key|]; [|eauto].
  apply bind_Ok in Hsp as (l & Hl & Hsp).
  unfold dict_getitem in *. specialize (Hsh key).
  destruct (_spans st !! key) as [l0|]; [|discriminate]. injection Hl as ->.
  destruct (_spans st' !! key) as [l'|]; [|discriminate]. simpl in *.
  injection Hsh as Hlen.
  apply list_getitem_pos in Hsp as (k & Hk & Hl).
  assert (is_Some (l' !! k)) as (sp' & Hsp').
  { apply lookup_lt_is_Some. rewrite Hlen. apply lookup_lt_is_Some. eauto. }
  exists sp'. apply list_getitem_pos. exists k. split; [|exact Hsp'].
  unfold Py.list_pos in *. now rewrite Hlen.
Qed.

Lemma last_cons {A} (a d : A) (l : list A) :
  List.last (a :: l) d = List.last l a.
Proof.
  revert a d. induction l as [|b l IH]; intros a d; [reflexivity|].
  change (List.last (b :: l) d = List.last (b :: l) a).
  now rewrite (IH b d), (IH b a).
Qed.

(** The setter of [string] keeps the invariant of the span table.  When
    every span of every category satisfies
    [0 <= start <= end <= len(buffer)] and the edited nodes are nodes of
    the table, then after every call of the setter, and so after every
    sequence of calls: every span still satisfies the invariant, the
    length of the buffer is its length before the call plus the length
    delta [len(newstring) - len(old text of the node)], no span is added
    or removed, and a span that lay within the removed region of a shrink
    is left with zero length at the start of the region. *)
Theorem setter_keeps_invariant (st : State) (edits : list (Node * string)) :
  table_ok st ->
  Forall (fun e => resolves st e.1) edits ->
  exists states,
    run_edits st edits = Py.Ok states /\
    steps_ok st edits states /\
    Py.len (_lststr (List.last states st))
    = Py.len (_lststr st) + sum_deltas st edits states.
Proof.
  revert st. induction edits as [|[n newstring] edits IH]; intros st Hok Hres.
  - exists []. simpl. repeat split. lia.
  - apply Forall_cons in Hres as (Hn & Hres). simpl in Hn.
    destruct (set_string_step st n newstring Hok Hn) as (st' & Hset & Hstep).
    destruct (IH st') as (states & Hrun & Hsteps & Hlen).
    + apply Hstep.
    + eapply Forall_impl; [exact Hres|]. intros e He.
      eapply same_shape_resolves; [apply Hstep | exact He].
    + exists (st' :: states). rewrite last_cons, Hlen. simpl.
      rewrite Hset. simpl. rewrite Hrun. simpl.
      split; [reflexivity|]. split; [split; assumption|].
      destruct Hstep as (_ & Hl & _). lia.
Qed.

(** C2. [set_string] rebases every span [(s, e)] of every category by
    the case rules of section 4.2, each rule applying where no earlier
    one does, with the anchor [p] the start of the span of the edited
    node and [d] the length delta.  Growth ([0 < d]): a span with [p < s]
    has both coordinates shifted by [d]; otherwise ([s <= p]) a span with
    [p < e] has its end extended by [d]; otherwise ([s <= p] and
    [e <= p]) it is unchanged.  Shrink ([d < 0], removed region
    [p, p + r) with [r = -d]): a span with [e <= p] is unchanged;
    otherwise a span with [p + r <= s] is shifted left by [r]; otherwise
    a span with [p < s] gets start [p] and end [e - r] if [p + r <= e],
    else it collapses to [(p, p)]; otherwise ([s <= p]) a span keeps its
    start and gets end [e - r] if [p + r <= e], else end [p].  Nothing is
    assumed of the span: its start may lie after its end. *)
Theorem C2_rebase_case_rules (st : State) (n : Node) (newstring : string)
    (p e0 : Z) (key : string) (l : list (Z * Z)) (i : nat) (s e : Z) :
  _get_span st n = Py.Ok (p, e0) ->
  _spans st !! key = Some l -> l !! i = Some (s, e) ->
  exists oldstring st' l' s' e',
    string_ st n = Py.Ok oldstring /\
    set_string st n newstring = Py.Ok st' /\
    _spans st' !! key = Some l' /\ l' !! i = Some (s', e') /\
    let d := Py.len newstring - Py.len oldstring in
    let r := - d in
    (0 < d ->
       (p < s -> (s', e') = (s + d, e + d)) /\
       (s <= p -> p < e -> (s', e') = (s, e + d)) /\
       (s <= p -> e <= p -> (s', e') = (s, e))) /\
    (d < 0 ->
       (e <= p -> (s', e') = (s, e)) /\
       (p < e -> p + r <= s -> (s', e') = (s - r, e - r)) /\
       (p < e -> s < p + r -> p < s ->
          (s', e') = if decide (p + r <= e) then (p, e - r) else (p, p)) /\
       (p < e -> s < p + r -> s <= p ->
          (s', e') = if decide (p + r <= e) then (s, e - r) else (s, p))).
Proof.
  intros Hsp Hl Hi.
  pose proof (set_string_spec st n newstring p e0 Hsp) as Hset.
  assert (exists old, string_ st n = Py.Ok old) as (old & Hold).
  { unfold string_. rewrite Hsp. simpl. eauto. }
  assert (Hd : delta st n newstring = Py.len newstring - Py.len old).
  { unfold delta. now rewrite Hold. }
  rewrite Hd in Hset. set (d := Py.len newstring - Py.len old) in *.
  exists old. eexists. exists (rebase p d <$> l).
  exists (rebase p d (s, e)).1, (rebase p d (s, e)).2.
  split; [exact Hold|]. split; [exact Hset|].
  split; [simpl; now rewrite lookup_fmap, Hl|].
  split; [rewrite list_lookup_fmap, Hi; simpl; now destruct (rebase p d (s, e))|].
  cbv zeta. fold d. clearbody d. clear Hset Hd.
  split; intros Hsign; repeat split; intros;
    repeat case_decide; split_span; simpl; f_equal; lia.
Qed.

(** C10. When the span of a node of the table is empty, [(p, p)],
    writing a non-empty text into the node inserts the text into the
    buffer at [p] and shifts the spans that start after [p], but the span
    of the node itself stays [(p, p)]: the text of the node reads back as
    the empty string. *)
Theorem C10_empty_node_stays_empty (st : State) (n : Node) (p : Z)
    (newstring : string) :
  span_key (class n) <> None ->
  _get_span st n = Py.Ok (p, p) ->
  newstring <> "" ->
  exists st',
    set_string st n newstring = Py.Ok st' /\
    _lststr st' = Py.slice_to (_lststr st) p +:+ newstring
                  +:+ Py.slice_from (_lststr st) p /\
    _get_span st' n = Py.Ok (p, p) /\
    string_ st' n = Py.Ok "" /\
    forall key l i s e,
      _spans st !! key = Some l -> l !! i = Some (s, e) -> p < s ->
      exists l', _spans st' !! key = Some l' /\
        l' !! i = Some (s + Py.len newstring, e + Py.len newstring).
Proof.
  intros Hkey Hsp Hnew.
  pose proof (set_string_spec st n newstring p p Hsp) as Hset.
  assert (Hd : delta st n newstring = Py.len newstring).
  { unfold delta, string_. rewrite Hsp. simpl. rewrite slice_empty.
    unfold Py.len. simpl. lia. }
  assert (Hpos : 0 < Py.len newstring).
  { destruct newstring; [congruence|]. unfold Py.len. simpl. lia. }
  rewrite Hd in Hset. set (d := Py.len newstring) in *.
  assert (Hself : rebase p d (p, p) = (p, p)).
  { clearbody d. split_span; f_equal; lia. }
  eexists. split; [exact Hset|]. split; [reflexivity|].
  assert (Hsp' : _get_span
            {| _lststr := Py.slice_to (_lststr st) p +:+ newstring
                          +:+ Py.slice_from (_lststr st) p;
               _spans := fmap (M := list) (rebase p d) <$> _spans st |} n
          = Py.Ok (p, p)).
  { pose proof (get_span_fmap
      {| _lststr := Py.slice_to (_lststr st) p +:+ newstring
                    +:+ Py.slice_from (_lststr st) p;
         _spans := _spans st |} (rebase p d) n Hkey) as H.
    simpl in H. rewrite H.
    destruct (get_span_start st (Py.slice_to (_lststr st) p +:+ newstring
                +:+ Py.slice_from (_lststr st) p) n p p Hsp) as (e' & He').
    unfold _get_span in *. simpl in *.
    destruct (span_key (class n)); [|congruence].
    rewrite Hsp. simpl. now rewrite Hself. }
  split; [exact Hsp'|]. split.
  - unfold string_. rewrite Hsp'. simpl. now rewrite slice_empty.
  - intros key l i s e Hl Hi Hps. exists (rebase p d <$> l). split.
    + simpl. now rewrite lookup_fmap, Hl.
    + rewrite list_lookup_fmap, Hi. simpl. f_equal.
      clearbody d. split_span; f_equal; lia.
Qed.

(** ** The examples of the specification *)

#[local] Instance span_ok_dec (n : Z) (sp : Z * Z) : Decision (span_ok n sp).
Proof. unfold span_ok. apply _. Defined.

Lemma table_ok_decide (st : State) :
  bool_decide (map_Forall (fun _ l => Forall (span_ok (Py.len (_lststr st))) l)
                 (_spans st)) = true ->
  table_ok st.
Proof. intros H. apply bool_decide_eq_true in H. exact H. Qed.

Lemma example_5_reached :
  exists st, WikiText_init "{{a|1}}" = Py.Ok st /\
    templates st root = Py.Ok [template 0] /\
    Template.arguments st (template 0) = Py.Ok ([argument "ta0" 0], example_5).
Proof.
  exists {| _lststr := "{{a|1}}"; _spans := table [] [] [(0, 7)] [] [] [] |}.
  repeat split; vm_compute; reflexivity.
Qed.

Lemma emptied_argument_reached :
  exists st st', WikiText_init "{{a|b}}" = Py.Ok st /\
    Template.arguments st (template 0) = Py.Ok ([argument "ta0" 0], st') /\
    set_string st' (argument "ta0" 0) "" = Py.Ok emptied_argument.
Proof.
  exists {| _lststr := "{{a|b}}"; _spans := table [] [] [(0, 7)] [] [] [] |}.
  exists {| _lststr := "{{a|b}}";
            _spans := <["ta0" := [(3, 5)]]> (table [] [] [(0, 7)] [] [] []) |}.
  repeat split; vm_compute; reflexivity.
Qed.

(** C4. For ["{{{x|default}}}"] the tokenizer records one parameter span,
    which covers the whole text, and no template span and no
    parser-function span; the parameter has name ["x"], pipe ["|"] and
    default ["default"]. *)
Theorem C4_parameter_with_default :
  exists st,
    WikiText_init "{{{x|default}}}" = Py.Ok st /\
    _spans st !! "p" = Some [(0, Py.len "{{{x|default}}}")] /\
    _spans st !! "t" = Some [] /\
    _spans st !! "pf" = Some [] /\
    parameters st root = Py.Ok [parameter 0] /\
    templates st root = Py.Ok [] /\
    parser_functions st root = Py.Ok [] /\
    Parameter_.name st (parameter 0) = Py.Ok "x" /\
    Parameter_.pipe st (parameter 0) = Py.Ok "|" /\
    Parameter_.default st (parameter 0) = Py.Ok "default".
Proof.
  exists {| _lststr := "{{{x|default}}}";
            _spans := table [(0, 15)] [] [] [] [] [] |}.
  repeat split; vm_compute; reflexivity.
Qed.

(** C5. For ["{{a|{{b|c}}}}"] the tokenizer records two template spans,
    the inner one first.  The outer template has name ["a"] and one
    argument, which is positional (no equal sign, name ["1"]) and has the
    value ["{{b|c}}"]: the bar inside the inner template does not split.
    The inner template has name ["b"] and one positional argument, of
    value ["c"]. *)
Theorem C5_nested_templates :
  exists st st1 st2,
    WikiText_init "{{a|{{b|c}}}}" = Py.Ok st /\
    _spans st !! "t" = Some [(4, 11); (0, 13)] /\
    templates st root = Py.Ok [template 0; template 1] /\
    string_ st (template 1) = Py.Ok "{{a|{{b|c}}}}" /\
    Template.name st (template 1) = Py.Ok "a" /\
    Template.arguments st (template 1) = Py.Ok ([argument "ta1" 0], st1) /\
    Argument.value st1 (argument "ta1" 0) = Py.Ok "{{b|c}}" /\
    Argument.equal_sign st1 (argument "ta1" 0) = Py.Ok "" /\
    Argument.name st1 (argument "ta1" 0) = Py.Ok "1" /\
    string_ st1 (template 0) = Py.Ok "{{b|c}}" /\
    Template.name st1 (template 0) = Py.Ok "b" /\
    Template.arguments st1 (template 0) = Py.Ok ([argument "ta0" 0], st2) /\
    Argument.value st2 (argument "ta0" 0) = Py.Ok "c" /\
    Argument.equal_sign st2 (argument "ta0" 0) = Py.Ok "" /\
    Argument.name st2 (argument "ta0" 0) = Py.Ok "1".
Proof.
  exists {| _lststr := "{{a|{{b|c}}}}";
            _spans := table [] [] [(4, 11); (0, 13)] [] [] [] |}.
  exists {| _lststr := "{{a|{{b|c}}}}";
            _spans := <["ta1" := [(3, 11)]]>
                        (table [] [] [(4, 11); (0, 13)] [] [] []) |}.
  exists {| _lststr := "{{a|{{b|c}}}}";
            _spans := <["ta0" := [(7, 9)]]> (<["ta1" := [(3, 11)]]>
                        (table [] [] [(4, 11); (0, 13)] [] [] [])) |}.
  repeat split; vm_compute; reflexivity.
Qed.

(** C7, as the claim states it, fails: on ["{{a|1}}"], whose argument
    has been listed, after the name of the template is set to ["alpha"]
    the span of the argument is not its span before the edit shifted
    right by 3. *)
Lemma C7_shift_by_3_fails :
  exists st0 st',
    WikiText_init "{{a|1}}" = Py.Ok st0 /\
    templates st0 root = Py.Ok [template 0] /\
    Template.arguments st0 (template 0)
    = Py.Ok ([argument "ta0" 0], example_5) /\
    Template.set_name example_5 (template 0) "alpha" = Py.Ok st' /\
    _get_span example_5 (argument "ta0" 0) = Py.Ok (3, 5) /\
    _get_span st' (argument "ta0" 0) <> Py.Ok (3 + 3, 5 + 3).
Proof.
  exists {| _lststr := "{{a|1}}"; _spans := table [] [] [(0, 7)] [] [] [] |}.
  exists {| _lststr := "{{alpha|1}}";
            _spans := <["ta0" := [(7, 9)]]> (table [] [] [(0, 11)] [] [] []) |}.
  do 5 (split; [vm_compute; reflexivity|]).
  vm_compute. discriminate.
Qed.

(** C7, amended. On ["{{a|1}}"], setting the name of the template to
    ["alpha"] yields the buffer ["{{alpha|1}}"]; afterward the template
    has the same sole argument, its value is still ["1"], and its span
    has shifted right by 4, the length delta of the edit.  The span of
    the template has grown by 4, and no other category is affected. *)
Theorem C7_name_edit_shifts_by_4 :
  exists st0 st',
    WikiText_init "{{a|1}}" = Py.Ok st0 /\
    templates st0 root = Py.Ok [template 0] /\
    Template.arguments st0 (template 0)
    = Py.Ok ([argument "ta0" 0], example_5) /\
    Template.set_name example_5 (template 0) "alpha" = Py.Ok st' /\
    _lststr st' = "{{alpha|1}}" /\
    Template.arguments st' (template 0) = Py.Ok ([argument "ta0" 0], st') /\
    Argument.value st' (argument "ta0" 0) = Py.Ok "1" /\
    _get_span example_5 (argument "ta0" 0) = Py.Ok (3, 5) /\
    _get_span st' (argument "ta0" 0) = Py.Ok (3 + 4, 5 + 4) /\
    _get_span example_5 (template 0) = Py.Ok (0, 7) /\
    _get_span st' (template 0) = Py.Ok (0, 7 + 4) /\
    delete "t" (delete "ta0" (_spans st'))
    = delete "t" (delete "ta0" (_spans example_5)).
Proof.
  exists {| _lststr := "{{a|1}}"; _spans := table [] [] [(0, 7)] [] [] [] |}.
  exists {| _lststr := "{{alpha|1}}";
            _spans := <["ta0" := [(7, 9)]]> (table [] [] [(0, 11)] [] [] []) |}.
  repeat split; vm_compute; reflexivity.
Qed.

(** C8, as the claim states it, fails: the title of the second section
    of ["== Title ==\nBody"] is not ["Title"]. *)
Lemma C8_title_is_not_stripped :
  exists secs st,
    (st0 ← WikiText_init example_4; sections st0 root) = Py.Ok (secs, st) /\
    (s ← Py.list_getitem secs 1; Section_.title st s) <> Py.Ok "Title".
Proof.
  exists [section 0; section 1].
  exists {| _lststr := example_4;
            _spans := <["s" := [(0, 0); (0, 16)]]> (table [] [] [] [] [] []) |}.
  split; [vm_compute; reflexivity|]. vm_compute. discriminate.
Qed.

(** C8, amended. For ["== Title ==\nBody"], [sections()[0]] is the lead
    section, of level 0 and contents [""], and [sections()[1]] has level
    2, contents ["Body"] and title [" Title "]: the title is the text
    between the equal signs, with its spaces. *)
Theorem C8_sections_of_example_4 :
  exists st,
    (st0 ← WikiText_init example_4; sections st0 root)
    = Py.Ok ([section 0; section 1], st) /\
    Section_.level st (section 0) = Py.Ok 0 /\
    Section_.contents st (section 0) = Py.Ok "" /\
    Section_.level st (section 1) = Py.Ok 2 /\
    Section_.title st (section 1) = Py.Ok " Title " /\
    Section_.contents st (section 1) = Py.Ok "Body".
Proof.
  exists {| _lststr := example_4;
            _spans := <["s" := [(0, 0); (0, 16)]]> (table [] [] [] [] [] []) |}.
  repeat split; vm_compute; reflexivity.
Qed.

(** The setter of the title raises [RuntimeError] for every section of
    level 0. *)
Lemma set_title_level_0 (st : State) (n : Node) (newtitle : string) :
  Section_.level st n = Py.Ok 0 ->
  Section_.set_title st n newtitle = Py.Raise Py.RuntimeError.
Proof. intros H. unfold Section_.set_title. now rewrite H. Qed.

(** C9. Setting the title of a lead section raises [RuntimeError], and
    setting the name of a template to the empty string is accepted; but
    the setter of the title is not the only setter that fails: the setter
    of [Argument.value] raises [IndexError] when the text of the argument
    is empty, as for [Argument('')] and for the argument of ["{{a|b}}"]
    once its text has been set to [""]. *)
Theorem C9_value_setter_raises_on_empty_argument :
  (exists secs st,
     (st0 ← WikiText_init example_4; sections st0 root) = Py.Ok (secs, st) /\
     (s ← Py.list_getitem secs 0; Section_.set_title st s "T")
     = Py.Raise Py.RuntimeError) /\
  (exists st', Template.set_name example_5 (template 0) "" = Py.Ok st' /\
     _lststr st' = "{{|1}}") /\
  ('(st, a) ← Argument_init ""; Argument.set_value st a "x")
  = Py.Raise Py.IndexError /\
  (exists st st', WikiText_init "{{a|b}}" = Py.Ok st /\
     Template.arguments st (template 0) = Py.Ok ([argument "ta0" 0], st') /\
     set_string st' (argument "ta0" 0) "" = Py.Ok emptied_argument /\
     string_ emptied_argument (argument "ta0" 0) = Py.Ok "" /\
     Argument.set_value emptied_argument (argument "ta0" 0) "x"
     = Py.Raise Py.IndexError).
Proof.
  split.
  { exists [section 0; section 1].
    exists {| _lststr := example_4;
              _spans := <["s" := [(0, 0); (0, 16)]]> (table [] [] [] [] [] []) |}.
    split; vm_compute; reflexivity. }
  split.
  { exists {| _lststr := "{{|1}}";
              _spans := <["ta0" := [(2, 4)]]> (table [] [] [(0, 6)] [] [] []) |}.
    split; vm_compute; reflexivity. }
  split; [vm_compute; reflexivity|].
  exists {| _lststr := "{{a|b}}"; _spans := table [] [] [(0, 7)] [] [] [] |}.
  exists {| _lststr := "{{a|b}}";
            _spans := <["ta0" := [(3, 5)]]> (table [] [] [(0, 7)] [] [] []) |}.
  repeat split; vm_compute; reflexivity.
Qed.

(** ** The general theorems at the document of example 5 *)

Lemma example_5_ok : table_ok example_5.
Proof. apply table_ok_decide. vm_compute. reflexivity. Qed.

Lemma emptied_argument_ok : table_ok emptied_argument.
Proof. apply table_ok_decide. vm_compute. reflexivity. Qed.

Lemma resolves_Ok (st : State) (n : Node) (sp : Z * Z) :
  _get_span st n = Py.Ok sp -> resolves st n.
Proof. intros H. exists sp. exact H. Qed.

(** At ["{{a|1}}"]: the name is set to ["alpha"], then the text of the
    argument to [""], then the text of the document to ["x"]. *)
Lemma setter_keeps_invariant_witness :
  table_ok example_5 /\
  Forall (fun e => resolves example_5 e.1)
    [(template 0, "{{alpha|1}}"); (argument "ta0" 0, ""); (root, "x")] /\
  exists states,
    run_edits example_5
      [(template 0, "{{alpha|1}}"); (argument "ta0" 0, ""); (root, "x")]
    = Py.Ok states /\
    steps_ok example_5
      [(template 0, "{{alpha|1}}"); (argument "ta0" 0, ""); (root, "x")]
      states /\
    Py.len (_lststr (List.last states example_5))
    = Py.len (_lststr example_5)
      + sum_deltas example_5
          [(template 0, "{{alpha|1}}"); (argument "ta0" 0, ""); (root, "x")]
          states.
Proof.
  assert (H1 : table_ok example_5) by exact example_5_ok.
  assert (H2 : Forall (fun e => resolves example_5 e.1)
    [(template 0, "{{alpha|1}}"); (argument "ta0" 0, ""); (root, "x")]).
  { repeat constructor; simpl.
    - apply (resolves_Ok _ _ (0, 7)). reflexivity.
    - apply (resolves_Ok _ _ (3, 5)). reflexivity.
    - apply (resolves_Ok _ _ (0, 7)). reflexivity. }
  split; [exact H1|]. split; [exact H2|].
  exact (setter_keeps_invariant example_5 _ H1 H2).
Defined.

(** C2 at ["{{a|1}}"]: growth by 4 anchored at 0 shifts the span of the
    argument. *)
Lemma C2_witness :
  _get_span example_5 (template 0) = Py.Ok (0, 7) /\
  _spans example_5 !! "ta0" = Some [(3, 5)] /\
  [(3, 5)] !! 0%nat = Some (3, 5) /\
  exists st' l',
    set_string example_5 (template 0) "{{alpha|1}}" = Py.Ok st' /\
    _spans st' !! "ta0" = Some l' /\ l' !! 0%nat = Some (3 + 4, 5 + 4).
Proof.
  assert (H1 : _get_span example_5 (template 0) = Py.Ok (0, 7)) by reflexivity.
  assert (H2 : _spans example_5 !! "ta0" = Some [(3, 5)]) by reflexivity.
  assert (H3 : [(3, 5)] !! 0%nat = Some (3, 5)) by reflexivity.
  do 3 (split; [assumption|]).
  destruct (C2_rebase_case_rules example_5 (template 0) "{{alpha|1}}"
              0 7 "ta0" [(3, 5)] 0%nat 3 5 H1 H2 H3)
    as (old & st' & l' & s' & e' & Hold & Hset & Hl' & Hi' & Hgrow & _).
  exists st', l'. split; [exact Hset|]. split; [exact Hl'|].
  rewrite Hi'. f_equal.
  assert (Hold' : old = "{{a|1}}").
  { assert (E : string_ example_5 (template 0) = Py.Ok "{{a|1}}") by reflexivity.
    congruence. }
  subst old. apply Hgrow; [reflexivity | lia].
Defined.

(** C10 at ["{{a}}"] with an emptied argument. *)
Lemma C10_witness :
  span_key (class (argument "ta0" 0)) <> None /\
  _get_span emptied_argument (argument "ta0" 0) = Py.Ok (3, 3) /\
  "|c" <> "" /\
  exists st',
    set_string emptied_argument (argument "ta0" 0) "|c" = Py.Ok st' /\
    _lststr st' = "{{a|c}}" /\
    _get_span st' (argument "ta0" 0) = Py.Ok (3, 3) /\
    string_ st' (argument "ta0" 0) = Py.Ok "".
Proof.
  assert (H1 : span_key (class (argument "ta0" 0)) <> None) by discriminate.
  assert (H2 : _get_span emptied_argument (argument "ta0" 0) = Py.Ok (3, 3))
    by reflexivity.
  assert (H3 : "|c" <> "") by discriminate.
  do 3 (split; [assumption|]).
  destruct (C10_empty_node_stays_empty emptied_argument (argument "ta0" 0) 3
              "|c" H1 H2 H3) as (st' & Hset & Hbuf & Hsp & Hstr & _).
  exists st'. repeat split; assumption.
Defined.

(** ** The section builder *)








Section ExtendSection.

Variables (st : State) (sspans : list (Z * Z)) (k : nat) (s e end_ : Z).
Hypothesis Hs : _spans st !! "s" = Some sspans.
Hypothesis Hk : sspans !! k = Some (s, e).

Let st1 : State :=
  {| _lststr := _lststr st;
     _spans := <["s" := <[k := (s, end_)]> sspans]> (_spans st) |}.





Lemma extend_section_keys (key : string) :
  key <> "s" -> _spans st1 !! key = _spans st !! key.
Proof. intros Hne. simpl. now rewrite lookup_insert_ne. Qed.

End ExtendSection.


Lemma list_index_lookup `{EqDecision A} (x : A) (l : list A) :
  x ∈ l -> exists i, Py.list_index x l = Some i /\ l !! i = Some x.
Proof.
  induction l as [|y l IH]; intros Hin; [inversion Hin|].
  simpl. destruct (decide (x = y)) as [->|Hne].
  - exists O. split; reflexivity.
  - apply elem_of_cons in Hin as [?|Hin]; [congruence|].
    destruct (IH Hin) as (i & Hi & Hl). exists (S i). rewrite Hi. split; [reflexivity|exact Hl].
Qed.

(** The index [add_span] returns addresses the span. *)
Lemma add_span_lookup (l : list (Z * Z)) (sp : Z * Z) :
  exists i, (add_span l sp).2 = Z.of_nat i /\ (add_span l sp).1 !! i = Some sp.
Proof.
  unfold add_span. simpl.
  set (l' := if Py.contains sp l then l else l ++ [sp]).
  assert (Hin : sp ∈ l').
  { unfold l', Py.contains. case_bool_decide; [assumption|].
    apply elem_of_app. right. apply list_elem_of_singleton. reflexivity. }
  destruct (list_index_lookup sp l' Hin) as (i & Hi & Hl).
  exists i. rewrite Hi. split; [reflexivity | exact Hl].
Qed.

Lemma list_getitem_of_nat {A} (l : list A) (i : nat) (x : A) :
  l !! i = Some x -> Py.list_getitem l (Z.of_nat i) = Py.Ok x.
Proof.
  intros H. apply list_getitem_pos. exists i. split; [|exact H].
  pose proof (lookup_lt_Some _ _ _ H). unfold Py.list_pos.
  destruct (Z.ltb_spec (Z.of_nat i) 0); [exfalso; lia|].
  destruct (Z.ltb_spec (Z.of_nat i) 0); [exfalso; lia|].
  destruct (Z.leb_spec (Z.of_nat (length l)) (Z.of_nat i)); [exfalso; lia|].
  rewrite Nat2Z.id. reflexivity.
Qed.



Lemma three_sections_reached :
  exists st0 m1 m2 m3,
    WikiText_init nested_sections = Py.Ok st0 /\
    finditer SECTION_REGEX nested_sections = [m1; m2; m3; match_D] /\
    record_section
      {| _lststr := _lststr st0; _spans := setdefault_empty (_spans st0) "s" |}
      0 (0, 5)
    = Py.Ok ({| _lststr := nested_sections;
                _spans := <["s" := [(0, 5)]]> (table [] [] [] [] [] []) |},
             0, (0, 5)) /\
    for_sections 0 [m1; m2; m3]
      ({| _lststr := nested_sections;
          _spans := <["s" := [(0, 5)]]> (table [] [] [] [] [] []) |},
       [section 0])
    = Py.Ok (three_sections, [section 0; section 1; section 2; section 3]).
Proof.
  exists {| _lststr := nested_sections; _spans := table [] [] [] [] [] [] |}.
  exists {| subject := nested_sections; span := (5, 11); groups := [] |}.
  exists {| subject := nested_sections; span := (11, 19); groups := [] |}.
  exists {| subject := nested_sections; span := (19, 29); groups := [] |}.
  repeat split; vm_compute; reflexivity.
Qed.


(** ** Braces in a string *)

Lemma count_braces_append (s t : string) :
  count_braces (s +:+ t) = (count_braces s + count_braces t)%nat.
Proof.
  induction s as [|c s IH]; [reflexivity|].
  rewrite append_cons. simpl. rewrite IH. lia.
Qed.

Lemma count_braces_take_drop (n : nat) (s : string) :
  count_braces s
  = (count_braces (Py.take n s) + count_braces (Py.drop n s))%nat.
Proof. rewrite <- count_braces_append, take_drop. reflexivity. Qed.

Lemma count_braces_drop (n : nat) (s : string) :
  (count_braces (Py.drop n s) <= count_braces s)%nat.
Proof. rewrite (count_braces_take_drop n s). lia. Qed.

Lemma count_braces_take (n : nat) (s : string) :
  (count_braces (Py.take n s) <= count_braces s)%nat.
Proof. rewrite (count_braces_take_drop n s). lia. Qed.

Lemma drop_drop (n m : nat) (s : string) :
  Py.drop n (Py.drop m s) = Py.drop (m + n) s.
Proof.
  revert s. induction m as [|m IH]; intros s; [reflexivity|].
  destruct s as [|c s]; simpl; [now destruct n | apply IH].
Qed.

Lemma drop_all (n : nat) (s : string) :
  (String.length s <= n)%nat -> Py.drop n s = "".
Proof.
  revert s. induction n as [|n IH]; intros [|c s] H; simpl in *;
    try reflexivity; try lia.
  apply IH. lia.
Qed.

Lemma count_braces_drop_le (n m : nat) (s : string) :
  (n <= m)%nat -> (count_braces (Py.drop m s) <= count_braces (Py.drop n s))%nat.
Proof.
  intros H. replace m with (n + (m - n))%nat by lia.
  rewrite <- drop_drop. apply count_braces_drop.
Qed.

Lemma count_braces_repeat_underscore (n : nat) :
  count_braces (Py.repeat_char "_" n) = O.
Proof. induction n as [|n IH]; [reflexivity | exact IH]. Qed.

(** [startswith s p] holds when [s] is [p] followed by the rest of [s]. *)
Lemma startswith_split (s p : string) :
  Py.startswith s p = true -> s = p +:+ Py.drop (String.length p) s.
Proof.
  revert s. induction p as [|a p IH]; intros s H; [reflexivity|].
  destruct s as [|b s]; [discriminate|]. simpl in H.
  apply andb_true_iff in H as (Hab & H). apply Ascii.eqb_eq in Hab as ->.
  rewrite append_cons. simpl. f_equal. now apply IH.
Qed.

Lemma startswith_take (n : nat) (s : string) :
  Py.startswith s (Py.take n s) = true.
Proof.
  revert s. induction n as [|n IH]; intros [|c s]; simpl; try reflexivity.
  now rewrite Ascii.eqb_refl, IH.
Qed.

(** ** [str.replace] and the braces *)

Section Replace.

Variables old new : string.
Hypothesis Hnew : (count_braces new <= count_braces old)%nat.

Lemma count_braces_startswith (s : string) :
  Py.startswith s old = true ->
  count_braces s
  = (count_braces old + count_braces (Py.drop (String.length old) s))%nat.
Proof.
  intros E. rewrite (startswith_split _ _ E) at 1.
  apply count_braces_append.
Qed.

Lemma count_braces_replace_go (skip : nat) (s : string) :
  (count_braces (Py.replace_go old new skip s)
   <= count_braces (Py.drop skip s))%nat.
Proof.
  revert skip. induction s as [|c s IH]; intros skip.
  - destruct skip; simpl; lia.
  - destruct skip as [|k]; [|apply IH].
    cbn [Py.replace_go Py.drop].
    destruct (Py.startswith (String c s) old) eqn:E.
    + rewrite count_braces_append.
      pose proof (IH (String.length old - 1)%nat) as H.
      pose proof (count_braces_startswith _ E) as Hs.
      destruct old as [|a old'].
      * simpl in *. pose proof (count_braces_drop 0 s). simpl in *. lia.
      * cbn [String.length Py.drop] in Hs.
        replace (String.length (String a old') - 1)%nat
          with (String.length old') in * by (simpl; lia).
        lia.
    + specialize (IH O). simpl in *. lia.
Qed.

Lemma count_braces_intersperse (s : string) :
  count_braces old = O ->
  count_braces (Py.intersperse new s) = count_braces s.
Proof.
  intros H0. assert (Hn : count_braces new = O) by lia.
  induction s as [|c s IH]; simpl; [exact Hn|].
  rewrite count_braces_append. simpl. rewrite IH. lia.
Qed.

End Replace.

(** Replacing a text by one with no more braces adds no brace. *)
Lemma count_braces_replace (old new s : string) :
  (count_braces new <= count_braces old)%nat ->
  (count_braces (Py.replace s old new) <= count_braces s)%nat.
Proof.
  intros Hnew. unfold Py.replace. destruct old as [|a old'].
  - rewrite (count_braces_intersperse "" new Hnew); [lia | reflexivity].
  - apply (count_braces_replace_go _ _ Hnew O).
Qed.

(** When [old] occurs, it is replaced at least once. *)
Lemma count_braces_replace_occurs (old new s : string) :
  (count_braces new <= count_braces old)%nat ->
  old <> "" -> occurs old s ->
  (count_braces (Py.replace s old new) + (count_braces old - count_braces new)
   <= count_braces s)%nat.
Proof.
  intros Hnew Hne (a & Ha). unfold Py.replace.
  destruct old as [|c0 old']; [congruence|]. clear Hne.
  set (old := String c0 old') in *.
  assert (Hlen : (String.length old - 1)%nat = String.length old')
    by (simpl; lia).
  assert (Hhere : forall c t, Py.startswith (String c t) old = true ->
    (count_braces (new +:+ Py.replace_go old new (String.length old - 1) t)
     + (count_braces old - count_braces new) <= count_braces (String c t))%nat).
  { intros c t Es. rewrite count_braces_append, Hlen.
    pose proof (count_braces_replace_go old new Hnew (String.length old') t) as H.
    pose proof (count_braces_startswith old _ Es) as Hs.
    change (Py.drop (String.length old) (String c t))
      with (Py.drop (String.length old') t) in Hs.
    lia. }
  revert s Ha. induction a as [|a IH]; intros s Ha.
  - simpl in Ha. destruct s as [|c s]; [discriminate|].
    cbn [Py.replace_go]. rewrite Ha. now apply Hhere.
  - destruct s as [|c s]; [discriminate|].
    simpl in Ha. cbn [Py.replace_go].
    destruct (Py.startswith (String c s) old) eqn:Es.
    + now apply Hhere.
    + specialize (IH s Ha). cbn [count_braces]. lia.
Qed.

(** ** The matcher and what a match implies *)

Lemma drop_cons (i : nat) (s : string) (b : ascii) (rest : string) :
  Py.drop i s = String b rest ->
  String.get i s = Some b /\ Py.drop (S i) s = rest /\ (i < String.length s)%nat.
Proof.
  revert s. induction i as [|i IH]; intros [|c s] H; simpl in *;
    try discriminate.
  - injection H as -> ->. repeat split. lia.
  - destruct (IH s H) as (H1 & H2 & H3). repeat split; [assumption..|lia].
Qed.

Lemma startswith_length (s p : string) :
  Py.startswith s p = true -> (String.length p <= String.length s)%nat.
Proof.
  intros H. pose proof (f_equal String.length (startswith_split _ _ H)) as E.
  rewrite length_append in E. lia.
Qed.

Lemma rep_sound (s : string) (greedy : bool) (lo : nat) (hi : option nat)
    (p : ascii -> bool) (rest : string) :
  forall cnt i k res,
    rep greedy lo hi p cnt i rest k = Some res ->
    rest = Py.drop i s -> (i <= String.length s)%nat ->
    exists j, (i <= j)%nat /\ (j <= String.length s)%nat /\
      k j (Py.drop j s) = Some res.
Proof.
  induction rest as [|c rest IH]; intros cnt i k res H Hrest Hi.
  - simpl in H. destruct (lo <=? cnt)%nat; [|discriminate].
    exists i. rewrite <- Hrest. auto.
  - assert (Hstop : (if (lo <=? cnt)%nat then k i (String c rest) else None)
                    = Some res ->
             exists j, (i <= j)%nat /\ (j <= String.length s)%nat /\
               k j (Py.drop j s) = Some res).
    { destruct (lo <=? cnt)%nat; [|discriminate]. intros Hk.
      exists i. rewrite <- Hrest. auto. }
    symmetry in Hrest. destruct (drop_cons _ _ _ _ Hrest) as (_ & Hdrop & Hlt).
    assert (Hmore : rep greedy lo hi p (S cnt) (S i) rest k = Some res ->
             exists j, (i <= j)%nat /\ (j <= String.length s)%nat /\
               k j (Py.drop j s) = Some res).
    { intros Hk. destruct (IH _ _ _ _ Hk) as (j & H1 & H2 & H3);
        [now symmetry | lia |]. exists j. repeat split; [lia | lia | exact H3]. }
    cbn [rep] in H.
    destruct (below cnt hi && p c); [|now apply Hstop].
    destruct greedy.
    + destruct (rep true lo hi p (S cnt) (S i) rest k) eqn:E.
      * injection H as ->. now apply Hmore.
      * now apply Hstop.
    + destruct (if (lo <=? cnt)%nat then k i (String c rest) else None) eqn:E.
      * injection H as ->. now apply Hstop.
      * now apply Hmore.
Qed.

Lemma run_sound (s : string) (r : regex) :
  forall i rest c k res,
    run s r i rest c k = Some res ->
    rest = Py.drop i s -> (i <= String.length s)%nat ->
    exists j c', sem s r i j /\ (j <= String.length s)%nat /\
      k j (Py.drop j s) c' = Some res.
Proof.
  induction r as [|a|p|r1 IH1 r2 IH2|r1 IH1 r2 IH2|g lo hi p|n r1 IH1|n
                  |pos r1 IH1|pos w r1 IH1| |];
    intros i rest c k res H Hrest Hi; cbn [run] in H.
  - exists i, c. rewrite <- Hrest. simpl. auto.
  - destruct rest as [|b rest]; [discriminate|].
    destruct (Ascii.eqb_spec a b) as [->|]; [|discriminate].
    symmetry in Hrest. destruct (drop_cons _ _ _ _ Hrest) as (Hg & Hd & Hlt).
    exists (S i), c. rewrite Hd. simpl. repeat split; [assumption | lia | assumption].
  - destruct rest as [|b rest]; [discriminate|].
    destruct (p b) eqn:Ep; [|discriminate].
    symmetry in Hrest. destruct (drop_cons _ _ _ _ Hrest) as (Hg & Hd & Hlt).
    exists (S i), c. rewrite Hd. simpl.
    split; [split; [eauto | reflexivity]|]. split; [lia | assumption].
  - destruct (IH1 _ _ _ _ _ H Hrest Hi) as (m & c1 & Hs1 & Hm & H2).
    destruct (IH2 _ _ _ _ _ H2 eq_refl Hm) as (j & c2 & Hs2 & Hj & Hk).
    exists j, c2. simpl. eauto.
  - destruct (run s r1 i rest c k) eqn:E.
    + injection H as ->.
      destruct (IH1 _ _ _ _ _ E Hrest Hi) as (j & c' & Hs & Hj & Hk).
      exists j, c'. simpl. auto.
    + destruct (IH2 _ _ _ _ _ H Hrest Hi) as (j & c' & Hs & Hj & Hk).
      exists j, c'. simpl. auto.
  - destruct (rep_sound s _ _ _ _ _ _ _ _ _ H Hrest Hi) as (j & H1 & H2 & H3).
    exists j, c. simpl. auto.
  - destruct (IH1 _ _ _ _ _ H Hrest Hi) as (j & c' & Hs & Hj & Hk).
    exists j, ((n, (i, j)) :: c'). simpl. auto.
  - destruct (group_span n c) as [[a b]|]; [|discriminate].
    set (g := Py.take (b - a) (Py.drop a s)) in *.
    destruct (Py.startswith rest g) eqn:E; [|discriminate].
    pose proof (startswith_length _ _ E) as Hlen.
    rewrite Hrest, length_drop in Hlen.
    exists (i + String.length g)%nat, c. simpl. repeat split; [lia | lia |].
    rewrite <- drop_drop, <- Hrest. exact H.
  - exists i, c. rewrite <- Hrest. simpl.
    destruct (run s r1 i rest c _); destruct pos; try discriminate; auto.
  - exists i, c. rewrite <- Hrest. simpl.
    match type of H with
    | match ?f with _ => _ end = _ => destruct f
    end; destruct pos; try discriminate; auto.
  - destruct (i =? 0)%nat; [|discriminate].
    exists i, c. rewrite <- Hrest. simpl. auto.
  - exists i, c. rewrite <- Hrest. simpl.
    destruct rest as [|b [|b' rest]]; try discriminate; auto.
    destruct (Ascii.eqb b "010"); [auto | discriminate].
Qed.

Lemma sem_le (s : string) (r : regex) :
  forall i j, sem s r i j -> (i <= j)%nat.
Proof.
  induction r; intros i j H; simpl in H;
    try (destruct H as (_ & ->)); try subst; try lia.
  - destruct H as (k & H1 & H2). apply IHr1 in H1. apply IHr2 in H2. lia.
  - destruct H as [H|H]; eauto.
  - eauto.
Qed.

Lemma match_at_sound (s : string) (r : regex) (i j : nat) (c : captures) :
  match_at s r i (Py.drop i s) = Some (j, c) -> (i <= String.length s)%nat ->
  sem s r i j /\ (i <= j)%nat /\ (j <= String.length s)%nat.
Proof.
  intros H Hi. unfold match_at in H.
  destruct (run_sound s r _ _ _ _ _ H eq_refl Hi) as (j' & c' & Hs & Hj & Hk).
  injection Hk as <- <-. repeat split; [assumption | | assumption].
  eapply sem_le; eauto.
Qed.

Lemma search_from_sound (s : string) (r : regex) (rest : string) :
  forall i a b c,
    search_from s r i rest = Some (a, b, c) ->
    rest = Py.drop i s -> (i <= String.length s)%nat ->
    (i <= a)%nat /\ sem s r a b /\ (a <= b)%nat /\ (b <= String.length s)%nat.
Proof.
  induction rest as [|ch rest IH]; intros i a b c H Hrest Hi; cbn [search_from] in H.
  - destruct (match_at s r i "") as [[j c']|] eqn:E; [|discriminate].
    injection H as <- <- <-. rewrite Hrest in E.
    destruct (match_at_sound _ _ _ _ _ E Hi) as (H1 & H2 & H3). auto.
  - destruct (match_at s r i (String ch rest)) as [[j c']|] eqn:E.
    + injection H as <- <- <-. rewrite Hrest in E.
      destruct (match_at_sound _ _ _ _ _ E Hi) as (H1 & H2 & H3). auto.
    + symmetry in Hrest. destruct (drop_cons _ _ _ _ Hrest) as (_ & Hd & Hlt).
      destruct (IH _ _ _ _ H (eq_sym Hd)) as (H1 & H2 & H3 & H4); [lia|].
      repeat split; [lia | assumption..].
Qed.

(** The matches of [finditer] are matches, in the order of the text. *)
Lemma finditer_from_sound (s : string) (r : regex) (fuel : nat) :
  forall i,
    ordered i (finditer_from s fuel r i) /\
    Forall (fun m => sem s r m.1.1 m.1.2 /\ (m.1.2 <= String.length s)%nat)
      (finditer_from s fuel r i).
Proof.
  induction fuel as [|fuel IH]; intros i; cbn [finditer_from].
  - split; [exact I | constructor].
  - destruct (Nat.ltb_spec (String.length s) i); [split; [exact I|constructor]|].
    destruct (search_from s r i (Py.drop i s)) as [[[a b] c]|] eqn:E;
      [|split; [exact I|constructor]].
    destruct (search_from_sound _ _ _ _ _ _ _ E eq_refl) as (H1 & H2 & H3 & H4);
      [assumption|].
    destruct (IH (if (a <? b)%nat then b else S b)) as (Ho & Hf).
    split.
    + simpl. repeat split; [assumption..|].
      clear -Ho. revert Ho.
      generalize (finditer_from s fuel r (if (a <? b)%nat then b else S b)).
      intros [|[[a' b'] c'] ms]; [auto|]. simpl.
      intros (Ha & Hb & Hms). repeat split; [|assumption..].
      destruct (a <? b)%nat; lia.
    + constructor; [simpl; auto | assumption].
Qed.

(** ** The matches of the three brace patterns *)

Ltac sem_cases :=
  repeat match goal with
  | H : _ /\ _ |- _ => destruct H
  | H : ex _ |- _ => destruct H
  | H : _ \/ _ |- _ => destruct H
  end;
  subst.

Ltac braced_tac :=
  unfold braced; repeat split;
  first [ lia
        | match goal with
          | H : String.get ?i ?s = Some ?c |- String.get ?j ?s = Some ?c =>
              replace j with i by lia; exact H
          end ].

Lemma sem_TEMPLATE_PARAMETER (s : string) (a b : nat) :
  sem s TEMPLATE_PARAMETER_REGEX a b -> braced s a b.
Proof.
  unfold TEMPLATE_PARAMETER_REGEX, seq, lit, star_lazy. cbn [sem].
  intros H. sem_cases; braced_tac.
Qed.

Lemma sem_PARSER_FUNCTION (s : string) (a b : nat) :
  sem s PARSER_FUNCTION_REGEX a b -> braced s a b.
Proof.
  unfold PARSER_FUNCTION_REGEX, seq, lit, star_lazy, star. cbn [sem].
  intros H. sem_cases; braced_tac.
Qed.

Lemma sem_TEMPLATE_PATTERN (s : string) (g a b : nat) :
  sem s (TEMPLATE_PATTERN g) a b -> braced s a b.
Proof.
  unfold TEMPLATE_PATTERN, VALID_TITLE_CHARS_PATTERN, seq, lit, star_lazy, star.
  cbn [sem]. intros H. sem_cases; braced_tac.
Qed.

Lemma sem_TEMPLATE_NOT_PARAM (s : string) (a b : nat) :
  sem s TEMPLATE_NOT_PARAM_REGEX a b -> braced s a b.
Proof.
  unfold TEMPLATE_NOT_PARAM_REGEX. cbn [sem].
  intros [(k & H & ->)|(k & -> & H)]; eapply sem_TEMPLATE_PATTERN; eauto.
Qed.

(** ** The text of a match and its filler *)

Lemma get_drop (a k : nat) (s : string) :
  String.get k (Py.drop a s) = String.get (a + k) s.
Proof.
  revert s. induction a as [|a IH]; intros s; [reflexivity|].
  destruct s as [|c s]; simpl; [now destruct k | apply IH].
Qed.

Lemma get_take (k m : nat) (s : string) :
  (k < m)%nat -> String.get k (Py.take m s) = String.get k s.
Proof.
  revert k s. induction m as [|m IH]; intros k s H; [lia|].
  destruct s as [|c s]; [reflexivity|]. destruct k as [|k]; [reflexivity|].
  simpl. apply IH. lia.
Qed.

Lemma get_drop_cons (i : nat) (s : string) (c : ascii) :
  String.get i s = Some c -> Py.drop i s = String c (Py.drop (S i) s).
Proof.
  revert s. induction i as [|i IH]; intros [|b s] H; simpl in *;
    try discriminate.
  - now injection H as ->.
  - now apply IH.
Qed.

Lemma slice_nat (s : string) (a b : nat) :
  (a <= b)%nat -> (b <= String.length s)%nat ->
  Py.slice s (Z.of_nat a) (Z.of_nat b) = Py.take (b - a) (Py.drop a s).
Proof.
  intros Hab Hb. unfold Py.slice.
  rewrite !bound_in_range by (unfold Py.len; lia).
  now rewrite !Nat2Z.id.
Qed.

Lemma is_brace_open : is_ "{}" "{" = true.
Proof. reflexivity. Qed.
Lemma is_brace_close : is_ "{}" "}" = true.
Proof. reflexivity. Qed.

(** A text that opens with two braces and closes with two has four
    more braces than any part of it between them. *)
Lemma count_braces_inner (g : string) (lo hi : nat) :
  braced g 0 (String.length g) ->
  (2 <= lo)%nat -> (hi <= String.length g - 2 \/ hi <= lo)%nat ->
  (count_braces (Py.take (hi - lo) (Py.drop lo g)) + 4 <= count_braces g)%nat.
Proof.
  intros (Hn & H0 & H1 & H2 & H3) Hlo Hhi.
  assert (Hfront : count_braces g = (2 + count_braces (Py.drop 2 g))%nat).
  { clear -H0 H1. destruct g as [|c0 [|c1 g']]; simpl in H0, H1;
      try discriminate.
    injection H0 as ->. injection H1 as ->. reflexivity. }
  set (n := String.length g) in *.
  assert (Hback : count_braces (Py.drop (n - 2) g) = 2%nat).
  { pose proof (get_drop_cons _ _ _ H2) as E2.
    pose proof (get_drop_cons _ _ _ H3) as E3.
    replace (S (n - 2)) with (n - 1)%nat in E2 by lia.
    rewrite E2, E3. replace (S (n - 1)) with n by lia.
    rewrite (drop_all n g) by (unfold n; lia). reflexivity. }
  assert (Hmid : (count_braces (Py.drop 2 g) >= 2)%nat).
  { pose proof (count_braces_drop_le 2 (n - 2) g). lia. }
  destruct (Nat.le_gt_cases hi lo) as [Hle|Hgt].
  - replace (hi - lo)%nat with O by lia. simpl.
    destruct (Py.drop lo g); simpl; lia.
  - destruct Hhi as [Hhi|Hhi]; [|lia].
    pose proof (count_braces_take_drop (hi - lo) (Py.drop lo g)) as Hsplit.
    rewrite drop_drop in Hsplit. replace (lo + (hi - lo))%nat with hi in Hsplit by lia.
    pose proof (count_braces_drop_le 2 lo g Hlo).
    pose proof (count_braces_drop_le hi (n - 2) g Hhi).
    lia.
Qed.

Lemma braced_slice (s : string) (a b : nat) :
  braced s a b -> (b <= String.length s)%nat ->
  let g := Py.take (b - a) (Py.drop a s) in
  String.length g = (b - a)%nat /\ braced g 0 (String.length g).
Proof.
  intros (Hn & H0 & H1 & H2 & H3) Hb g.
  assert (Hlen : String.length g = (b - a)%nat).
  { unfold g. rewrite length_take, length_drop. lia. }
  split; [exact Hlen|]. rewrite Hlen. unfold braced, g.
  repeat split; [lia|..]; rewrite get_take, get_drop by lia.
  - now rewrite Nat.add_0_r.
  - now replace (a + 1)%nat with (S a) by lia.
  - now replace (a + (b - a - 2))%nat with (b - 2)%nat by lia.
  - now replace (a + (b - a - 1))%nat with (b - 1)%nat by lia.
Qed.

Lemma bound_facts (n : nat) (k : Z) :
  (4 <= n)%nat -> 2 <= k ->
  (2 <= Py.bound (Z.of_nat n) k)%nat /\
  (Py.bound (Z.of_nat n) (- k) <= n - 2)%nat.
Proof.
  intros Hn Hk. unfold Py.bound.
  destruct (Z.ltb_spec k 0); [lia|].
  destruct (Z.ltb_spec (- k) 0); [|lia]. lia.
Qed.

(** The filler of a match of one of the three brace patterns has four
    braces fewer than the match, which is not empty and occurs in the
    text. *)
Lemma braced_group (s : string) (a b : nat) :
  braced s a b -> (b <= String.length s)%nat ->
  let g := Py.slice s (Z.of_nat a) (Z.of_nat b) in
  g <> "" /\ occurs g s /\
  (count_braces (mask_2 g) + 4 <= count_braces g)%nat /\
  (count_braces (mask_3 g) + 4 <= count_braces g)%nat.
Proof.
  intros Hbr Hb.
  assert (Hab : (a + 4 <= b)%nat) by apply Hbr.
  simpl. rewrite slice_nat by lia.
  destruct (braced_slice s a b Hbr Hb) as (Hlen & Hg).
  set (g := Py.take (b - a) (Py.drop a s)) in *.
  assert (Hmask : forall k pre post, 2 <= k ->
            count_braces pre = O -> count_braces post = O ->
            (count_braces (pre +:+ Py.slice g k (- k) +:+ post) + 4
             <= count_braces g)%nat).
  { intros k pre post Hk Hpre Hpost. rewrite !count_braces_append, Hpre, Hpost.
    unfold Py.slice, Py.len.
    destruct (bound_facts (String.length g) k) as (Hlo & Hhi); [lia | lia |].
    pose proof (count_braces_inner g _ _ Hg Hlo (or_introl Hhi)). lia. }
  repeat split.
  - intros E. rewrite E in Hlen. simpl in Hlen. lia.
  - exists a. apply startswith_take.
  - apply (Hmask 2 "__" "__"); [lia | reflexivity..].
  - apply (Hmask 3 "___" "___"); [lia | reflexivity..].
Qed.

(** ** Every step of the tokenizer masks braces and adds none *)

Lemma count_braces_slice (g : string) (a b : Z) :
  (count_braces (Py.slice g a b) <= count_braces g)%nat.
Proof.
  unfold Py.slice.
  etransitivity; [apply count_braces_take | apply count_braces_drop].
Qed.

Lemma mask_all_le (g : string) :
  (count_braces (mask_all g) <= count_braces g)%nat.
Proof. unfold mask_all. rewrite count_braces_repeat_underscore. lia. Qed.

Lemma mask_braces_le (g : string) :
  (count_braces (mask_braces g) <= count_braces g)%nat.
Proof.
  unfold mask_braces.
  etransitivity; [apply count_braces_replace | apply count_braces_replace];
    simpl; lia.
Qed.

Lemma mask_2_le (g : string) :
  (count_braces (mask_2 g) <= count_braces g)%nat.
Proof.
  unfold mask_2. rewrite !count_braces_append. simpl.
  pose proof (count_braces_slice g 2 (-2)). lia.
Qed.

Lemma mask_3_le (g : string) :
  (count_braces (mask_3 g) <= count_braces g)%nat.
Proof.
  unfold mask_3. rewrite !count_braces_append. simpl.
  pose proof (count_braces_slice g 3 (-3)). lia.
Qed.

Section ForMatches.

Variable mask : string -> string.
Hypothesis Hmask : forall g, (count_braces (mask g) <= count_braces g)%nat.

Lemma fold_record_le (ms : list Match) (acc : string * list (Z * Z)) :
  (count_braces (fold_left (record_match mask) ms acc).1
   <= count_braces acc.1)%nat.
Proof.
  revert acc. induction ms as [|m ms IH]; intros acc; [simpl; lia|].
  simpl. etransitivity; [apply IH|]. simpl.
  apply count_braces_replace, Hmask.
Qed.

(** A [for] loop over the matches adds no brace. *)
Lemma for_matches_le (r : regex) (str : string) (spans : list (Z * Z)) :
  (count_braces (for_matches r mask str spans).1 <= count_braces str)%nat.
Proof. unfold for_matches. apply (fold_record_le _ (str, spans)). Qed.

Variable r : regex.
Hypothesis Hr : forall s a b, sem s r a b -> braced s a b.
Hypothesis Hfill : forall g, braced g 0 (String.length g) ->
  (count_braces (mask g) + 4 <= count_braces g)%nat.

(** A [for] loop over the matches of a brace pattern, when there is a
    match, masks four braces at least. *)
Lemma for_matches_lt (str : string) (spans : list (Z * Z)) :
  finditer r str <> [] ->
  (count_braces (for_matches r mask str spans).1 + 4 <= count_braces str)%nat.
Proof.
  unfold for_matches, finditer.
  destruct (finditer_from_sound str r (S (String.length str)) O) as (_ & Hall).
  destruct (finditer_from str (S (String.length str)) r O) as [|[[a b] c] ms];
    [intros H; exfalso; apply H; reflexivity|]. intros _.
  apply Forall_cons in Hall as ((Hsem & Hb) & _). simpl in Hsem, Hb.
  pose proof (Hr _ _ _ Hsem) as Hbr.
  destruct (braced_group str a b Hbr Hb) as (Hne & Hocc & _).
  assert (Hab : (a <= b)%nat) by (destruct Hbr; lia).
  cbn [map fold_left].
  etransitivity; [apply Nat.add_le_mono_r, fold_record_le|].
  unfold record_match at 1. cbn [fst].
  change (group (mk_match str (a, b, c)))
    with (Py.slice str (Z.of_nat a) (Z.of_nat b)).
  set (g := Py.slice str (Z.of_nat a) (Z.of_nat b)) in *.
  assert (Hg : (count_braces (mask g) + 4 <= count_braces g)%nat).
  { apply Hfill. unfold g. rewrite slice_nat by assumption.
    apply (braced_slice str a b Hbr Hb). }
  pose proof (count_braces_replace_occurs g (mask g) str (Hmask g) Hne Hocc).
  lia.
Qed.

Lemma last_cons_Some {A} (x : A) (l : list A) : last (x :: l) <> None.
Proof.
  revert x. induction l as [|y l IH]; intros x; [discriminate|].
  change (last (y :: l) <> None). apply IH.
Qed.

(** The [while] loop of a brace pattern ends within as many iterations
    as there are braces, plus one; either it finds no match and changes
    nothing, or it masks four braces at least and leaves a match in
    [match]. *)
Lemma while_loop_total (fuel : nat) :
  forall str spans match_,
    (count_braces str < fuel)%nat ->
    exists str' spans' match',
      while_loop fuel r mask str spans match_ = Some (str', spans', match') /\
      ((str' = str /\ match' = match_) \/
       ((count_braces str' + 4 <= count_braces str)%nat /\ match' <> None)).
Proof.
  induction fuel as [|fuel IH]; intros str spans match_ Hfuel; [lia|].
  cbn [while_loop].
  destruct (finditer r str) as [|m ms] eqn:E.
  - exists str, spans, match_. auto.
  - assert (Hne : finditer r str <> []) by (rewrite E; discriminate).
    pose proof (for_matches_lt str spans Hne) as Hlt.
    destruct (for_matches r mask str spans) as [str1 spans1]. simpl in Hlt.
    destruct (IH str1 spans1 (last_match (m :: ms) match_))
      as (str' & spans' & match' & Hrun & Hres); [lia|].
    exists str', spans', match'. split; [exact Hrun|]. right.
    destruct Hres as [(-> & ->)|(Hle & Hm)].
    + split; [lia|]. unfold last_match.
      pose proof (last_cons_Some m ms). destruct (last (m :: ms)); congruence.
    + split; [lia | exact Hm].
Qed.

Lemma while_loop_mono (fuel fuel' : nat) :
  forall str spans match_ res,
    (fuel <= fuel')%nat ->
    while_loop fuel r mask str spans match_ = Some res ->
    while_loop fuel' r mask str spans match_ = Some res.
Proof.
  revert fuel'. induction fuel as [|fuel IH]; intros fuel' str spans match_ res Hle H;
    [discriminate|].
  destruct fuel' as [|fuel']; [lia|]. cbn [while_loop] in *.
  destruct (finditer r str); [exact H|].
  destruct (for_matches r mask str spans). apply IH; [lia | exact H].
Qed.

End ForMatches.

(** ** The steps at the start of a pass *)

Lemma count_braces_sub_go (s : string) (ms : list (nat * nat * captures)) :
  forall pos, ordered pos ms ->
    (count_braces (sub_go "_" s pos ms) <= count_braces (Py.drop pos s))%nat.
Proof.
  induction ms as [|[[a b] c] ms IH]; intros pos Hord; [simpl; lia|].
  destruct Hord as (Hpa & Hab & Hord). cbn [sub_go].
  rewrite !count_braces_append. specialize (IH b Hord).
  pose proof (count_braces_take_drop (a - pos) (Py.drop pos s)) as Hsplit.
  rewrite drop_drop in Hsplit. replace (pos + (a - pos))%nat with a in Hsplit by lia.
  pose proof (count_braces_drop_le a b s Hab). simpl. lia.
Qed.

(** [re.sub] with the filler ["_"] adds no brace. *)
Lemma count_braces_sub (r : regex) (s : string) :
  (count_braces (sub r "_" s) <= count_braces s)%nat.
Proof.
  unfold sub.
  destruct (finditer_from_sound s r (S (String.length s)) O) as (Hord & _).
  apply (count_braces_sub_go s _ O Hord).
Qed.

Lemma find_nat_startswith (sub : string) (s : string) :
  forall i k, Py.find_nat sub i s = Some k ->
    Py.startswith (Py.drop k s) sub = true.
Proof.
  induction s as [|c s IH]; intros i k H.
  - destruct i; cbn [Py.find_nat] in H; [|discriminate].
    destruct (Py.startswith "" sub) eqn:E; [|discriminate].
    injection H as <-. exact E.
  - destruct i as [|i]; cbn [Py.find_nat] in H.
    + destruct (Py.startswith (String c s) sub) eqn:E.
      * injection H as <-. exact E.
      * destruct (Py.find_nat sub 0 s) as [k'|] eqn:Ek; [|discriminate].
        injection H as <-. simpl. eapply IH; eauto.
    + destruct (Py.find_nat sub i s) as [k'|] eqn:Ek; [|discriminate].
      injection H as <-. simpl. eapply IH; eauto.
Qed.

Lemma rfind_nat_startswith (sub : string) (s : string) :
  forall k, Py.rfind_nat sub s = Some k ->
    Py.startswith (Py.drop k s) sub = true.
Proof.
  induction s as [|c s IH]; intros k H; cbn [Py.rfind_nat] in H.
  - destruct (Py.startswith "" sub) eqn:E; [|discriminate].
    injection H as <-. exact E.
  - destruct (Py.rfind_nat sub s) as [k'|] eqn:Ek.
    + injection H as <-. simpl. now apply IH.
    + destruct (Py.startswith (String c s) sub) eqn:E; [|discriminate].
      injection H as <-. exact E.
Qed.

Lemma count_braces_cut (s sep : string) (k : nat) :
  Py.startswith (Py.drop k s) sep = true ->
  count_braces s
  = (count_braces (Py.take k s) + count_braces sep
     + count_braces (Py.drop (k + String.length sep) s))%nat.
Proof.
  intros H. rewrite (count_braces_take_drop k s) at 1.
  rewrite (count_braces_startswith sep _ H), drop_drop. lia.
Qed.

Lemma count_braces_partition (s sep : string) :
  count_braces s
  = (count_braces (Py.partition s sep).1.1 + count_braces (Py.partition s sep).1.2
     + count_braces (Py.partition s sep).2)%nat.
Proof.
  unfold Py.partition. destruct (Py.find_nat sep 0 s) as [k|] eqn:E; simpl.
  - apply count_braces_cut. eapply find_nat_startswith; eauto.
  - lia.
Qed.

Lemma count_braces_rpartition (s sep : string) :
  count_braces s
  = (count_braces (Py.rpartition s sep).1.1 + count_braces (Py.rpartition s sep).1.2
     + count_braces (Py.rpartition s sep).2)%nat.
Proof.
  unfold Py.rpartition. destruct (Py.rfind_nat sep s) as [k|] eqn:E; simpl.
  - apply count_braces_cut. eapply rfind_nat_startswith; eauto.
  - lia.
Qed.

Lemma pass_start_le (str : string) :
  (count_braces (pass_start str) <= count_braces str)%nat.
Proof.
  unfold pass_start.
  pose proof (count_braces_sub SINGLE_OPEN_REGEX str) as H1.
  set (s1 := sub SINGLE_OPEN_REGEX "_" str) in *.
  pose proof (count_braces_sub SINGLE_CLOSE_REGEX s1) as H2.
  set (s2 := sub SINGLE_CLOSE_REGEX "_" s1) in *.
  pose proof (count_braces_rpartition s2 "}") as H3.
  destruct (Py.rpartition s2 "}") as [[head sep] tail]. simpl in H3.
  assert (H4 : (count_braces (Py.replace tail "{" "_") <= count_braces tail)%nat)
    by (apply count_braces_replace; simpl; lia).
  set (s3 := head +:+ sep +:+ Py.replace tail "{" "_").
  assert (H5 : (count_braces s3 <= count_braces s2)%nat).
  { unfold s3. rewrite !count_braces_append. lia. }
  pose proof (count_braces_partition s3 "{") as H6.
  destruct (Py.partition s3 "{") as [[head' sep'] tail']. simpl in H6.
  assert (H7 : (count_braces (Py.replace head' "}" "_") <= count_braces head')%nat)
    by (apply count_braces_replace; simpl; lia).
  rewrite !count_braces_append. lia.
Qed.

(** ** The fixpoint loop *)

Lemma get_spans_loop_S (fuel : nat) (str : string)
    (p pf t : list (Z * Z)) (passes : nat) :
  get_spans_loop (S fuel) str p pf t passes
  = ('(str, p, match_) ←
       while_loop (S fuel) TEMPLATE_PARAMETER_REGEX mask_3 (pass_start str) p None;
     '(str, pf, match_) ←
       while_loop (S fuel) PARSER_FUNCTION_REGEX mask_2 str pf match_;
     '(str, t, match_) ←
       while_loop (S fuel) TEMPLATE_NOT_PARAM_REGEX mask_2 str t match_;
     match match_ with
     | None => Some (p, pf, t, S passes)
     | Some _ => get_spans_loop fuel str p pf t (S passes)
     end).
Proof.
  cbn [get_spans_loop]. unfold pass_start.
  destruct (Py.rpartition _ _) as [[head sep] tail].
  destruct (Py.partition _ _) as [[head' sep'] tail'].
  reflexivity.
Qed.

Lemma fill_3 (g : string) :
  braced g 0 (String.length g) ->
  (count_braces (mask_3 g) + 4 <= count_braces g)%nat.
Proof.
  intros H. assert (Hlen : (0 + 4 <= String.length g)%nat) by apply H.
  pose proof (braced_group g 0 (String.length g) H (Nat.le_refl _)) as (_ & _ & _ & H3).
  rewrite slice_nat in H3 by lia.
  rewrite Nat.sub_0_r in H3. simpl Py.drop in H3.
  replace (Py.take (String.length g) g) with g in H3; [exact H3|].
  rewrite <- (take_drop (String.length g) g) at 1.
  rewrite (drop_all _ g) by lia.
  clear. induction (Py.take (String.length g) g) as [|c s IH];
    [reflexivity | rewrite append_cons; now f_equal].
Qed.

Lemma fill_2 (g : string) :
  braced g 0 (String.length g) ->
  (count_braces (mask_2 g) + 4 <= count_braces g)%nat.
Proof.
  intros H. assert (Hlen : (0 + 4 <= String.length g)%nat) by apply H.
  pose proof (braced_group g 0 (String.length g) H (Nat.le_refl _)) as (_ & _ & H2 & _).
  rewrite slice_nat in H2 by lia.
  rewrite Nat.sub_0_r in H2. simpl Py.drop in H2.
  replace (Py.take (String.length g) g) with g in H2; [exact H2|].
  rewrite <- (take_drop (String.length g) g) at 1.
  rewrite (drop_all _ g) by lia.
  clear. induction (Py.take (String.length g) g) as [|c s IH];
    [reflexivity | rewrite append_cons; now f_equal].
Qed.

Lemma loop_P (fuel : nat) (str : string) spans match_ :
  (count_braces str < fuel)%nat ->
  exists str' spans' match',
    while_loop fuel TEMPLATE_PARAMETER_REGEX mask_3 str spans match_
      = Some (str', spans', match') /\
    ((str' = str /\ match' = match_) \/
     ((count_braces str' + 4 <= count_braces str)%nat /\ match' <> None)).
Proof.
  apply (while_loop_total mask_3 mask_3_le TEMPLATE_PARAMETER_REGEX
           sem_TEMPLATE_PARAMETER fill_3).
Qed.

Lemma loop_PF (fuel : nat) (str : string) spans match_ :
  (count_braces str < fuel)%nat ->
  exists str' spans' match',
    while_loop fuel PARSER_FUNCTION_REGEX mask_2 str spans match_
      = Some (str', spans', match') /\
    ((str' = str /\ match' = match_) \/
     ((count_braces str' + 4 <= count_braces str)%nat /\ match' <> None)).
Proof.
  apply (while_loop_total mask_2 mask_2_le PARSER_FUNCTION_REGEX
           sem_PARSER_FUNCTION fill_2).
Qed.

Lemma loop_T (fuel : nat) (str : string) spans match_ :
  (count_braces str < fuel)%nat ->
  exists str' spans' match',
    while_loop fuel TEMPLATE_NOT_PARAM_REGEX mask_2 str spans match_
      = Some (str', spans', match') /\
    ((str' = str /\ match' = match_) \/
     ((count_braces str' + 4 <= count_braces str)%nat /\ match' <> None)).
Proof.
  apply (while_loop_total mask_2 mask_2_le TEMPLATE_NOT_PARAM_REGEX
           sem_TEMPLATE_NOT_PARAM fill_2).
Qed.

(** The loop ends when its fuel exceeds the number of braces; every pass
    but the last masks four braces at least. *)
Lemma get_spans_loop_total (fuel : nat) :
  forall str p pf t passes,
    (count_braces str < fuel)%nat ->
    exists p' pf' t' n,
      get_spans_loop fuel str p pf t passes = Some (p', pf', t', n) /\
      (passes < n)%nat /\ (4 * (n - passes - 1) <= count_braces str)%nat.
Proof.
  induction fuel as [|fuel IH]; intros str p pf t passes Hfuel; [lia|].
  rewrite get_spans_loop_S.
  pose proof (pass_start_le str) as H0.
  destruct (loop_P (S fuel) (pass_start str) p None)
    as (s1 & p1 & m1 & E1 & H1); [lia|].
  rewrite E1. cbn [mbind option_bind].
  assert (Hs1 : (count_braces s1 <= count_braces str)%nat)
    by (destruct H1 as [(-> & _)|(? & _)]; lia).
  destruct (loop_PF (S fuel) s1 pf m1) as (s2 & pf2 & m2 & E2 & H2); [lia|].
  rewrite E2. cbn [mbind option_bind].
  assert (Hs2 : (count_braces s2 <= count_braces s1)%nat)
    by (destruct H2 as [(-> & _)|(? & _)]; lia).
  destruct (loop_T (S fuel) s2 t m2) as (s3 & t3 & m3 & E3 & H3); [lia|].
  rewrite E3. cbn [mbind option_bind].
  assert (Hs3 : (count_braces s3 <= count_braces s2)%nat)
    by (destruct H3 as [(-> & _)|(? & _)]; lia).
  cbn [mbind option_bind].
  destruct m3 as [m|].
  - assert (Hdec : (count_braces s3 + 4 <= count_braces str)%nat).
    { destruct H3 as [(-> & H3)|(? & _)]; [|lia].
      destruct H2 as [(-> & H2)|(? & _)]; [|lia].
      destruct H1 as [(-> & H1)|(? & _)]; [|lia].
      congruence. }
    destruct (IH s3 p1 pf2 t3 (S passes)) as (p' & pf' & t' & n & Hrun & Hn & Hb);
      [lia|].
    exists p', pf', t', n. split; [exact Hrun|]. split; lia.
  - exists p1, pf2, t3, (S passes). split; [reflexivity|]. split; lia.
Qed.

Lemma get_spans_loop_mono (fuel : nat) :
  forall fuel' str p pf t passes res,
    (fuel <= fuel')%nat ->
    get_spans_loop fuel str p pf t passes = Some res ->
    get_spans_loop fuel' str p pf t passes = Some res.
Proof.
  induction fuel as [|fuel IH]; intros fuel' str p pf t passes res Hle H;
    [discriminate|].
  destruct fuel' as [|fuel']; [lia|].
  rewrite get_spans_loop_S in *.
  destruct (while_loop (S fuel) TEMPLATE_PARAMETER_REGEX _ _ _ _)
    as [[[s1 p1] m1]|] eqn:E1; [|discriminate].
  rewrite (while_loop_mono _ _ _ _ _ _ _ _ Hle E1).
  cbn [mbind option_bind] in *.
  destruct (while_loop (S fuel) PARSER_FUNCTION_REGEX _ _ _ _)
    as [[[s2 pf2] m2]|] eqn:E2; [|discriminate].
  rewrite (while_loop_mono _ _ _ _ _ _ _ _ Hle E2).
  cbn [mbind option_bind] in *.
  destruct (while_loop (S fuel) TEMPLATE_NOT_PARAM_REGEX _ _ _ _)
    as [[[s3 t3] m3]|] eqn:E3; [|discriminate].
  rewrite (while_loop_mono _ _ _ _ _ _ _ _ Hle E3).
  cbn [mbind option_bind] in *.
  destruct m3; [|exact H]. apply IH; [lia | exact H].
Qed.

(** ** The whole of [_get_spans] *)

(** With more fuel than the text has braces, [_get_spans] returns; the
    table and the number of passes do not depend on the fuel. *)
Lemma get_spans_fuel_enough (str : string) :
  exists p pf t wl c nw passes,
    (forall fuel, (count_braces str < fuel)%nat ->
       get_spans_fuel fuel str = Some (table p pf t wl c nw, passes)) /\
    (1 <= passes)%nat /\ (4 * (passes - 1) <= count_braces str)%nat.
Proof.
  pose proof (for_matches_le mask_all mask_all_le COMMENT_REGEX str []) as H1.
  destruct (for_matches COMMENT_REGEX mask_all str []) as [s1 c] eqn:E1.
  pose proof (for_matches_le mask_all mask_all_le NOWIKI_REGEX s1 []) as H2.
  destruct (for_matches NOWIKI_REGEX mask_all s1 []) as [s2 nw] eqn:E2.
  pose proof (for_matches_le mask_braces mask_braces_le WIKILINK_REGEX s2 []) as H3.
  destruct (for_matches WIKILINK_REGEX mask_braces s2 []) as [s3 wl] eqn:E3.
  cbn [fst] in *.
  destruct (get_spans_loop_total (S (count_braces s3)) s3 [] [] [] O)
    as (p & pf & t & passes & Hrun & Hpos & Hbound); [lia|].
  exists p, pf, t, wl, c, nw, passes. split; [|split; lia].
  intros fuel Hfuel. unfold get_spans_fuel. rewrite E1, E2, E3.
  assert (Hle : (S (count_braces s3) <= fuel)%nat) by lia.
  rewrite (get_spans_loop_mono _ fuel _ _ _ _ _ _ Hle Hrun).
  reflexivity.
Qed.

(** * Further properties of the module

    ** Reading back what the setter of [string] wrote *)

Lemma take_app_length (a b : string) : Py.take (String.length a) (a +:+ b) = a.
Proof.
  induction a as [|c a IH]; [now destruct b|].
  rewrite append_cons. simpl. now rewrite IH.
Qed.

Lemma drop_app_length (a b : string) : Py.drop (String.length a) (a +:+ b) = b.
Proof.
  induction a as [|c a IH]; [now destruct b|].
  rewrite append_cons. simpl. exact IH.
Qed.

Lemma append_empty_r (s : string) : s +:+ EmptyString = s.
Proof. induction s as [|c s IH]; [reflexivity | now rewrite append_cons, IH]. Qed.

Lemma append_assoc (a b c : string) : (a +:+ b) +:+ c = a +:+ (b +:+ c).
Proof.
  induction a as [|x a IH]; [reflexivity | now rewrite !append_cons, IH].
Qed.

(** [(a + b + c)[len(a):len(a) + len(b)] == b] *)
Lemma slice_middle (a b c : string) :
  Py.slice (a +:+ b +:+ c) (Py.len a) (Py.len a + Py.len b) = b.
Proof.
  unfold Py.slice. pose proof (len_nonneg a). pose proof (len_nonneg b).
  pose proof (len_nonneg c).
  rewrite !bound_in_range by (rewrite !len_append; lia).
  unfold Py.len. rewrite Nat2Z.id, <- Nat2Z.inj_add, Nat2Z.id.
  rewrite drop_app_length.
  replace (String.length a + String.length b - String.length a)%nat
    with (String.length b) by lia.
  apply take_app_length.
Qed.


(** The span of the written node after the call. *)
Lemma rebase_own_span (p e new : Z) :
  p < e -> 0 <= new -> rebase p (new - (e - p)) (p, e) = (p, p + new).
Proof. intros. split_span; f_equal; lia. Qed.

(** What the setter leaves behind when the span of the node lies in the
    buffer and is not empty, or the node is the document. *)
Lemma set_string_read_back (st : State) (n : Node) (newstring : string) (p e : Z) :
  _get_span st n = Py.Ok (p, e) ->
  0 <= p -> p <= e -> e <= Py.len (_lststr st) ->
  p < e \/ span_key (class n) = None ->
  exists st',
    set_string st n newstring = Py.Ok st' /\
    _lststr st' = Py.slice_to (_lststr st) p +:+ newstring
                  +:+ Py.slice_from (_lststr st) e /\
    _spans st' = fmap (M := list) (rebase p (Py.len newstring - (e - p)))
                 <$> _spans st /\
    _get_span st' n = Py.Ok (p, p + Py.len newstring) /\
    string_ st' n = Py.Ok newstring.
Proof.
  intros Hsp Hp Hpe He Hne.
  assert (Hd : delta st n newstring = Py.len newstring - (e - p)).
  { unfold delta, string_. rewrite Hsp. simpl. now rewrite len_slice by lia. }
  eexists. split; [exact (set_string_spec _ _ _ _ _ Hsp)|].
  rewrite Hd. cbn [_lststr _spans]. split; [reflexivity|]. split; [reflexivity|].
  pose proof (len_nonneg newstring) as Hnew.
  assert (Hlen : Py.len (Py.slice_to (_lststr st) p) = p)
    by (apply len_slice_to; lia).
  assert (Hown : _get_span
            {| _lststr := Py.slice_to (_lststr st) p +:+ newstring
                          +:+ Py.slice_from (_lststr st) e;
               _spans := fmap (M := list) (rebase p (Py.len newstring - (e - p)))
                         <$> _spans st |} n
          = Py.Ok (p, p + Py.len newstring)).
  { destruct (span_key (class n)) as [key|] eqn:Hkey.
    - destruct Hne as [Hlt|]; [|discriminate].
      pose proof (get_span_fmap
        {| _lststr := Py.slice_to (_lststr st) p +:+ newstring
                      +:+ Py.slice_from (_lststr st) e;
           _spans := _spans st |}
        (rebase p (Py.len newstring - (e - p))) n) as H.
      cbn [_lststr _spans] in H. rewrite H by congruence.
      assert (Hsp' : _get_span
                {| _lststr := Py.slice_to (_lststr st) p +:+ newstring
                              +:+ Py.slice_from (_lststr st) e;
                   _spans := _spans st |} n = Py.Ok (p, e)).
      { revert Hsp. unfold _get_span. rewrite Hkey. simpl. trivial. }
      rewrite Hsp'. simpl. f_equal. now apply rebase_own_span.
    - revert Hsp. unfold _get_span. rewrite Hkey. cbn [_lststr].
      intros [= <- <-]. f_equal. f_equal.
      rewrite !len_append, Hlen, len_slice_from by lia. lia. }
  split; [exact Hown|].
  unfold string_. rewrite Hown. simpl. unfold mret, result_ret. f_equal.
  pose proof (slice_middle (Py.slice_to (_lststr st) p) newstring
                (Py.slice_from (_lststr st) e)) as H.
  rewrite Hlen in H. exact H.
Qed.




(** Reading a node after its text has been set gives the new text back,
    when the span of the node lies in the buffer and is not empty, or the
    node is the document: the buffer is the old one with the new text in
    place of the span, and the span of the node starts where it did and
    has the length of the new text. *)
Theorem string_read_after_write (st : State) (n : Node) (newstring : string)
    (p e : Z) :
  _get_span st n = Py.Ok (p, e) ->
  0 <= p -> p <= e -> e <= Py.len (_lststr st) ->
  p < e \/ class n = KWikiText ->
  exists st',
    set_string st n newstring = Py.Ok st' /\
    _lststr st' = Py.slice_to (_lststr st) p +:+ newstring
                  +:+ Py.slice_from (_lststr st) e /\
    _get_span st' n = Py.Ok (p, p + Py.len newstring) /\
    string_ st' n = Py.Ok newstring.
Proof.
  intros Hsp Hp Hpe He Hne.
  destruct (set_string_read_back st n newstring p e Hsp Hp Hpe He)
    as (st' & H1 & H2 & _ & H3 & H4).
  { destruct Hne as [?|Hc]; [now left | right; now rewrite Hc]. }
  exists st'. repeat split; assumption.
Qed.

Lemma string_read_after_write_witness :
  exists st',
    set_string example_5 (template 0) "{{alpha|1}}" = Py.Ok st' /\
    _lststr st' = Py.slice_to (_lststr example_5) 0 +:+ "{{alpha|1}}"
                  +:+ Py.slice_from (_lststr example_5) 7 /\
    _get_span st' (template 0) = Py.Ok (0, 0 + Py.len "{{alpha|1}}") /\
    string_ st' (template 0) = Py.Ok "{{alpha|1}}".
Proof.
  apply (string_read_after_write example_5 (template 0) "{{alpha|1}}" 0 7).
  - reflexivity.
  - lia.
  - lia.
  - vm_compute. discriminate.
  - left. lia.
Defined.



(** ** When the setter of [string] fails *)

Lemma list_getitem_cases {A} (l : list A) (i : Z) :
  (exists x, Py.list_getitem l i = Py.Ok x /\
     - Z.of_nat (length l) <= i < Z.of_nat (length l)) \/
  (Py.list_getitem l i = Py.Raise Py.IndexError /\
     (i < - Z.of_nat (length l) \/ Z.of_nat (length l) <= i)).
Proof.
  unfold Py.list_getitem.
  destruct (Z.ltb_spec i 0) as [Hneg|Hpos].
  - destruct (Z.ltb_spec (i + Z.of_nat (length l)) 0); simpl.
    + right. split; [reflexivity | lia].
    + destruct (Z.leb_spec (Z.of_nat (length l)) (i + Z.of_nat (length l)));
        [lia|].
      destruct (lookup_lt_is_Some_2 l (Z.to_nat (i + Z.of_nat (length l))))
        as (x & ->); [lia|].
      left. exists x. split; [reflexivity | lia].
  - destruct (Z.ltb_spec i 0); [lia|]. simpl.
    destruct (Z.leb_spec (Z.of_nat (length l)) i).
    + right. split; [reflexivity | lia].
    + destruct (lookup_lt_is_Some_2 l (Z.to_nat i)) as (x & ->); [lia|].
      left. exists x. split; [reflexivity | lia].
Qed.

(** The setter of [string] fails only when the span of the node cannot be
    read, and before anything is written: with [KeyError] when the table
    has no category for the node (an [Argument], [Section] or
    [ExternalLink] made for a table that was never asked for them), with
    [IndexError] when the index of the node is not one of the category.
    In every other case it returns.  The same holds for the getter. *)
Theorem string_setter_errors (st : State) (n : Node) (newstring : string) :
  (set_string st n newstring = Py.Raise Py.KeyError <->
     exists key, span_key (class n) = Some key /\ _spans st !! key = None) /\
  (set_string st n newstring = Py.Raise Py.IndexError <->
     exists key l, span_key (class n) = Some key /\ _spans st !! key = Some l /\
       (_index n < - Z.of_nat (length l) \/ Z.of_nat (length l) <= _index n)) /\
  ((exists st', set_string st n newstring = Py.Ok st') <->
     class n = KWikiText \/
     exists key l, span_key (class n) = Some key /\ _spans st !! key = Some l /\
       - Z.of_nat (length l) <= _index n < Z.of_nat (length l)) /\
  (forall e, set_string st n newstring = Py.Raise e <->
             string_ st n = Py.Raise e).
Proof.
  assert (Hcases :
    (exists sp, _get_span st n = Py.Ok sp /\
       (class n = KWikiText \/
        exists key l, span_key (class n) = Some key /\
          _spans st !! key = Some l /\
          - Z.of_nat (length l) <= _index n < Z.of_nat (length l))) \/
    (_get_span st n = Py.Raise Py.KeyError /\
       exists key, span_key (class n) = Some key /\ _spans st !! key = None) \/
    (_get_span st n = Py.Raise Py.IndexError /\
       exists key l, span_key (class n) = Some key /\
         _spans st !! key = Some l /\
         (_index n < - Z.of_nat (length l) \/ Z.of_nat (length l) <= _index n))).
  { unfold _get_span, dict_getitem.
    destruct (span_key (class n)) as [key|] eqn:Hkey.
    - destruct (_spans st !! key) as [l|] eqn:Hl; simpl.
      + destruct (list_getitem_cases l (_index n)) as [(x & -> & Hr)|(-> & Hr)].
        * left. exists x. split; [reflexivity|]. right. eauto.
        * right. right. split; [reflexivity|]. eauto.
      + right. left. split; [reflexivity|]. eauto.
    - left. eexists. split; [reflexivity|]. left.
      destruct (class n); try discriminate. reflexivity. }
  assert (Hset : forall sp, _get_span st n = Py.Ok sp ->
            exists st', set_string st n newstring = Py.Ok st').
  { intros [p e] Hsp. eexists. exact (set_string_spec _ _ _ _ _ Hsp). }
  assert (Hraise : forall e, _get_span st n = Py.Raise e ->
            set_string st n newstring = Py.Raise e /\ string_ st n = Py.Raise e).
  { intros e He. unfold set_string, string_. rewrite He. split; reflexivity. }
  destruct Hcases as [(sp & Hsp & Hwhy)|[(Hsp & key & Hkey & Hl)|
                                         (Hsp & key & l & Hkey & Hl & Hr)]].
  - destruct (Hset sp Hsp) as (st' & Hst').
    assert (Hstr : exists s, string_ st n = Py.Ok s).
    { unfold string_. rewrite Hsp. destruct sp. simpl. eauto. }
    destruct Hstr as (s & Hs). rewrite Hst', Hs.
    split; [|split; [|split]].
    + split; [discriminate|]. intros (key & Hkey & Hnone).
      destruct Hwhy as [Hc|(key' & l & Hkey' & Hl & _)].
      * rewrite Hc in Hkey. discriminate.
      * congruence.
    + split; [discriminate|]. intros (key & l & Hkey & Hl & Hr).
      destruct Hwhy as [Hc|(key' & l' & Hkey' & Hl' & Hr')].
      * rewrite Hc in Hkey. discriminate.
      * assert (key' = key) by congruence. subst key'.
        assert (l' = l) by congruence. subst l'. lia.
    + split; [intros _; exact Hwhy | intros _; eauto].
    + intros e. split; discriminate.
  - destruct (Hraise _ Hsp) as (Hst' & Hs). rewrite Hst', Hs.
    split; [|split; [|split]].
    + split; [intros _; eauto | reflexivity].
    + split; [discriminate|]. intros (key' & l & Hkey' & Hl' & _). congruence.
    + split; [intros (st' & Hst''); discriminate|].
      intros [Hc|(key' & l & Hkey' & Hl' & _)].
      * rewrite Hc in Hkey. discriminate.
      * congruence.
    + intros e. split; intros [= <-]; reflexivity.
  - destruct (Hraise _ Hsp) as (Hst' & Hs). rewrite Hst', Hs.
    split; [|split; [|split]].
    + split; [discriminate|]. intros (key' & Hkey' & Hnone). congruence.
    + split; [intros _; eauto 10 | reflexivity].
    + split; [intros (st' & Hst''); discriminate|].
      intros [Hc|(key' & l' & Hkey' & Hl' & Hr')].
      * rewrite Hc in Hkey. discriminate.
      * assert (key' = key) by congruence. subst key'.
        assert (l' = l) by congruence. subst l'. lia.
    + intros e. split; intros [= <-]; reflexivity.
Qed.

(** ** Partition at a character, and the slices that strip delimiters *)

Lemma startswith_char (c : ascii) (s : string) :
  Py.startswith s (String c "")
  = match s with String b _ => Ascii.eqb c b | EmptyString => false end.
Proof.
  destruct s as [|b s]; simpl; [reflexivity|].
  destruct s; apply andb_true_r.
Qed.

Lemma find_nat_char_cons (c b : ascii) (s : string) :
  Py.find_nat (String c "") 0 (String b s)
  = if Ascii.eqb c b then Some O
    else option_map S (Py.find_nat (String c "") 0 s).
Proof.
  cbn [Py.find_nat]. rewrite startswith_char. reflexivity.
Qed.

Lemma find_nat_char_app (c : ascii) (x y : string) :
  Py.find_nat (String c "") 0 x = None ->
  Py.find_nat (String c "") 0 (x +:+ String c y) = Some (String.length x).
Proof.
  induction x as [|b x IH]; intros H.
  - change ("" +:+ String c y) with (String c y).
    rewrite find_nat_char_cons, Ascii.eqb_refl. reflexivity.
  - rewrite append_cons, find_nat_char_cons. rewrite find_nat_char_cons in H.
    destruct (Ascii.eqb c b); [discriminate|].
    destruct (Py.find_nat _ 0 x); [discriminate|].
    rewrite IH by reflexivity. reflexivity.
Qed.

Lemma find_nat_char_app_lacks (c : ascii) (x y : string) :
  Py.find_nat (String c "") 0 x = None ->
  Py.find_nat (String c "") 0 y = None ->
  Py.find_nat (String c "") 0 (x +:+ y) = None.
Proof.
  induction x as [|b x IH]; intros Hx Hy; [exact Hy|].
  rewrite append_cons, find_nat_char_cons. rewrite find_nat_char_cons in Hx.
  destruct (Ascii.eqb c b); [discriminate|].
  destruct (Py.find_nat _ 0 x); [discriminate|].
  rewrite IH by trivial. reflexivity.
Qed.

(** The text before the first [c] has no [c], and [c] follows it. *)
Lemma find_nat_char_split (c : ascii) (s : string) (k : nat) :
  Py.find_nat (String c "") 0 s = Some k ->
  Py.find_nat (String c "") 0 (Py.take k s) = None /\
  s = Py.take k s +:+ String c (Py.drop (S k) s).
Proof.
  revert k. induction s as [|b s IH]; intros k H; [discriminate|].
  rewrite find_nat_char_cons in H.
  destruct (Ascii.eqb_spec c b) as [->|Hne].
  - injection H as <-. split; reflexivity.
  - destruct (Py.find_nat _ 0 s) as [k'|] eqn:E; [|discriminate].
    injection H as <-. destruct (IH k' eq_refl) as (H1 & H2).
    split.
    + cbn [Py.take]. rewrite find_nat_char_cons.
      destruct (Ascii.eqb_spec c b); [congruence|]. now rewrite H1.
    + cbn [Py.take Py.drop]. rewrite append_cons. f_equal. exact H2.
Qed.

(** [(x + c + y).partition(c) == (x, c, y)] when [c] is not in [x] *)
Lemma partition_char_app (c : ascii) (x y : string) :
  Py.find_nat (String c "") 0 x = None ->
  Py.partition (x +:+ String c y) (String c "") = (x, String c "", y).
Proof.
  intros H. unfold Py.partition. rewrite (find_nat_char_app c x y H).
  rewrite take_app_length.
  replace (String.length x + String.length (String c ""))%nat
    with (String.length (x +:+ String c "")) by apply length_append.
  replace (x +:+ String c y) with ((x +:+ String c "") +:+ y)
    by (rewrite append_assoc; reflexivity).
  rewrite drop_app_length. reflexivity.
Qed.

(** [x.partition(c) == (x, '', '')] when [c] is not in [x] *)
Lemma partition_char_lacks (c : ascii) (x : string) :
  Py.find_nat (String c "") 0 x = None ->
  Py.partition x (String c "") = (x, "", "").
Proof. intros H. unfold Py.partition. now rewrite H. Qed.

(** The two outcomes of [s.partition(c)]. *)
Lemma partition_char_cases (c : ascii) (s : string) :
  (Py.find_nat (String c "") 0 s = None /\
   Py.partition s (String c "") = (s, "", "")) \/
  (exists h t, s = h +:+ String c t /\
     Py.find_nat (String c "") 0 h = None /\
     Py.partition s (String c "") = (h, String c "", t)).
Proof.
  destruct (Py.find_nat (String c "") 0 s) as [k|] eqn:E.
  - right. destruct (find_nat_char_split c s k E) as (H1 & H2).
    exists (Py.take k s), (Py.drop (S k) s). split; [exact H2|].
    split; [exact H1|]. rewrite H2 at 1. now apply partition_char_app.
  - left. split; [reflexivity | now apply partition_char_lacks].
Qed.

(** [(a + x + b)[len(a):-len(b)] == x] for a [b] that is not empty *)
Lemma slice_strip (a x b : string) :
  0 < Py.len b -> Py.slice (a +:+ x +:+ b) (Py.len a) (- Py.len b) = x.
Proof.
  intros Hb. pose proof (slice_middle a x b) as H.
  unfold Py.slice in *. pose proof (len_nonneg a). pose proof (len_nonneg x).
  replace (Py.bound (Py.len (a +:+ x +:+ b)) (- Py.len b))
    with (Py.bound (Py.len (a +:+ x +:+ b)) (Py.len a + Py.len x)); [exact H|].
  unfold Py.bound. rewrite !len_append.
  destruct (Z.ltb_spec (Py.len a + Py.len x) 0); [lia|].
  destruct (Z.ltb_spec (- Py.len b) 0); [|lia]. f_equal. lia.
Qed.

Lemma slice_from_cons (c : ascii) (s : string) :
  Py.slice_from (String c s) 1 = s.
Proof.
  unfold Py.slice_from. pose proof (len_nonneg s).
  rewrite bound_in_range; [reflexivity|].
  unfold Py.len in *. simpl String.length. lia.
Qed.

(** A setter that writes [text] into a node whose span lies in the
    buffer and is not empty: the node then reads [text]. *)
Lemma set_string_then_string (st : State) (n : Node) (text : string) (p e : Z) :
  _get_span st n = Py.Ok (p, e) ->
  0 <= p -> p < e -> e <= Py.len (_lststr st) ->
  exists st', set_string st n text = Py.Ok st' /\ string_ st' n = Py.Ok text.
Proof.
  intros Hsp Hp Hpe He.
  assert (Hpe' : p <= e) by lia.
  assert (Hne : p < e \/ span_key (class n) = None) by now left.
  destruct (set_string_read_back st n text p e Hsp Hp Hpe' He Hne)
    as (st' & H1 & _ & _ & _ & H2).
  eauto.
Qed.

Lemma string_of_span (st : State) (n : Node) (p e : Z) :
  _get_span st n = Py.Ok (p, e) ->
  string_ st n = Py.Ok (Py.slice (_lststr st) p e).
Proof. intros H. unfold string_. now rewrite H. Qed.

(** ** Setters and getters of the classes *)

Lemma slice_2 (x : string) : Py.slice ("{{" +:+ x +:+ "}}") 2 (-2) = x.
Proof. exact (slice_strip "{{" x "}}" ltac:(reflexivity)). Qed.

Lemma slice_3 (x : string) : Py.slice ("{{{" +:+ x +:+ "}}}") 3 (-3) = x.
Proof. exact (slice_strip "{{{" x "}}}" ltac:(reflexivity)). Qed.

Lemma slice_link (x : string) : Py.slice ("[[" +:+ x +:+ "]]") 2 (-2) = x.
Proof. exact (slice_strip "[[" x "]]" ltac:(reflexivity)). Qed.

Lemma append_cons_assoc (x : string) (c : ascii) (t b : string) :
  x +:+ String c (t +:+ b) = (x +:+ String c t) +:+ b.
Proof. now rewrite append_assoc. Qed.

Ltac read_node H :=
  rewrite H; cbn [mbind result_bind Py.bind_flip Py.bind mret result_ret].

(** After [template.name = newname], for a [newname] without a bar:
    [template.name] is [newname], and the text of the template is
    [{{newname]] followed by what followed the old name.  The span of the
    template is assumed to lie in the buffer and not to be empty. *)
Theorem template_name_round_trip (st : State) (n : Node) (newname : string)
    (p e : Z) :
  _get_span st n = Py.Ok (p, e) ->
  0 <= p -> p < e -> e <= Py.len (_lststr st) ->
  Py.find_nat "|" 0 newname = None ->
  exists s st',
    string_ st n = Py.Ok s /\
    Template.set_name st n newname = Py.Ok st' /\
    string_ st' n
    = Py.Ok ("{{" +:+ newname
             +:+ (Py.partition (Py.slice s 2 (-2)) "|").1.2
             +:+ (Py.partition (Py.slice s 2 (-2)) "|").2 +:+ "}}") /\
    Template.name st' n = Py.Ok newname.
Proof.
  intros Hsp Hp Hpe He Hnew.
  pose proof (string_of_span st n p e Hsp) as Hs.
  exists (Py.slice (_lststr st) p e).
  unfold Template.set_name, Template.name. read_node Hs.
  destruct (partition_char_cases "|" (Py.slice (Py.slice (_lststr st) p e) 2 (-2)))
    as [(_ & ->)|(h & t & _ & _ & ->)]; cbn [fst snd].
  - destruct (set_string_then_string st n ("{{" +:+ newname +:+ "}}") p e)
      as (st' & H1 & H2); try assumption.
    exists st'. split; [reflexivity|]. split; [exact H1|]. split; [exact H2|].
    read_node H2. rewrite slice_2, partition_char_lacks by exact Hnew.
    reflexivity.
  - destruct (set_string_then_string st n
                ("{{" +:+ newname +:+ "|" +:+ t +:+ "}}") p e)
      as (st' & H1 & H2); try assumption.
    exists st'. split; [reflexivity|]. split; [exact H1|]. split; [exact H2|].
    read_node H2.
    change ("{{" +:+ newname +:+ "|" +:+ t +:+ "}}")
      with ("{{" +:+ (newname +:+ String "|" (t +:+ "}}"))).
    rewrite append_cons_assoc, slice_2, partition_char_app by exact Hnew.
    reflexivity.
Qed.

Lemma template_name_round_trip_witness :
  exists s st',
    string_ example_5 (template 0) = Py.Ok s /\
    Template.set_name example_5 (template 0) "alpha" = Py.Ok st' /\
    string_ st' (template 0)
    = Py.Ok ("{{" +:+ "alpha"
             +:+ (Py.partition (Py.slice s 2 (-2)) "|").1.2
             +:+ (Py.partition (Py.slice s 2 (-2)) "|").2 +:+ "}}") /\
    Template.name st' (template 0) = Py.Ok "alpha".
Proof.
  apply (template_name_round_trip example_5 (template 0) "alpha" 0 7).
  - reflexivity.
  - lia.
  - lia.
  - vm_compute. discriminate.
  - reflexivity.
Defined.

(** After [parameter.default = newdefault] the parameter has a pipe, its
    default is [newdefault] and its name is what it was.  After
    [parameter.name = newname], for a [newname] without a bar, its name is
    [newname], and its pipe and default are what they were.  The span of
    the parameter is assumed to lie in the buffer and not to be empty. *)
Theorem parameter_setters_round_trip (st : State) (n : Node) (p e : Z) :
  _get_span st n = Py.Ok (p, e) ->
  0 <= p -> p < e -> e <= Py.len (_lststr st) ->
  (forall newdefault, exists st',
     Parameter_.set_default st n newdefault = Py.Ok st' /\
     Parameter_.default st' n = Py.Ok newdefault /\
     Parameter_.pipe st' n = Py.Ok "|" /\
     Parameter_.name st' n = Parameter_.name st n) /\
  (forall newname, Py.find_nat "|" 0 newname = None -> exists st',
     Parameter_.set_name st n newname = Py.Ok st' /\
     Parameter_.name st' n = Py.Ok newname /\
     Parameter_.pipe st' n = Parameter_.pipe st n /\
     Parameter_.default st' n = Parameter_.default st n).
Proof.
  intros Hsp Hp Hpe He.
  pose proof (string_of_span st n p e Hsp) as Hs.
  set (s := Py.slice (_lststr st) p e) in *.
  split.
  - intros newdefault.
    unfold Parameter_.set_default, Parameter_.name, Parameter_.default,
      Parameter_.pipe.
    read_node Hs.
    assert (Hname : Py.find_nat "|" 0 (Py.partition (Py.slice s 3 (-3)) "|").1.1
                    = None).
    { destruct (partition_char_cases "|" (Py.slice s 3 (-3)))
        as [(H & ->)|(h & t & _ & H & ->)]; exact H. }
    set (nm := (Py.partition (Py.slice s 3 (-3)) "|").1.1) in *.
    destruct (set_string_then_string st n
                ("{{{" +:+ nm +:+ "|" +:+ newdefault +:+ "}}}") p e)
      as (st' & H1 & H2); try assumption.
    exists st'. split; [exact H1|]. read_node H2.
    change ("{{{" +:+ nm +:+ "|" +:+ newdefault +:+ "}}}")
      with ("{{{" +:+ (nm +:+ String "|" (newdefault +:+ "}}}"))).
    rewrite append_cons_assoc, slice_3, partition_char_app by exact Hname.
    repeat split.
  - intros newname Hnew.
    unfold Parameter_.set_name, Parameter_.name, Parameter_.default,
      Parameter_.pipe.
    read_node Hs.
    destruct (partition_char_cases "|" (Py.slice s 3 (-3)))
      as [(_ & ->)|(h & t & _ & _ & ->)]; cbn [fst snd].
    + destruct (set_string_then_string st n ("{{{" +:+ newname +:+ "}}}") p e)
        as (st' & H1 & H2); try assumption.
      exists st'. split; [exact H1|]. read_node H2.
      rewrite slice_3, partition_char_lacks by exact Hnew. repeat split.
    + destruct (set_string_then_string st n
                  ("{{{" +:+ newname +:+ "|" +:+ t +:+ "}}}") p e)
        as (st' & H1 & H2); try assumption.
      exists st'. split; [exact H1|]. read_node H2.
      change ("{{{" +:+ newname +:+ "|" +:+ t +:+ "}}}")
        with ("{{{" +:+ (newname +:+ String "|" (t +:+ "}}}"))).
      rewrite append_cons_assoc, slice_3, partition_char_app by exact Hnew.
      repeat split.
Qed.

Lemma parameter_setters_round_trip_witness :
  (forall newdefault, exists st',
     Parameter_.set_default
       {| _lststr := "{{{x|d}}}"; _spans := table [(0, 9)] [] [] [] [] [] |}
       (parameter 0) newdefault = Py.Ok st' /\
     Parameter_.default st' (parameter 0) = Py.Ok newdefault /\
     Parameter_.pipe st' (parameter 0) = Py.Ok "|" /\
     Parameter_.name st' (parameter 0)
     = Parameter_.name
         {| _lststr := "{{{x|d}}}"; _spans := table [(0, 9)] [] [] [] [] [] |}
         (parameter 0)) /\
  (forall newname, Py.find_nat "|" 0 newname = None -> exists st',
     Parameter_.set_name
       {| _lststr := "{{{x|d}}}"; _spans := table [(0, 9)] [] [] [] [] [] |}
       (parameter 0) newname = Py.Ok st' /\
     Parameter_.name st' (parameter 0) = Py.Ok newname /\
     Parameter_.pipe st' (parameter 0)
     = Parameter_.pipe
         {| _lststr := "{{{x|d}}}"; _spans := table [(0, 9)] [] [] [] [] [] |}
         (parameter 0) /\
     Parameter_.default st' (parameter 0)
     = Parameter_.default
         {| _lststr := "{{{x|d}}}"; _spans := table [(0, 9)] [] [] [] [] [] |}
         (parameter 0)).
Proof.
  apply (parameter_setters_round_trip
           {| _lststr := "{{{x|d}}}"; _spans := table [(0, 9)] [] [] [] [] [] |}
           (parameter 0) 0 9).
  - reflexivity.
  - lia.
  - lia.
  - vm_compute. discriminate.
Defined.

(** After [wikilink.text = newtext] the text of the link is [newtext] and
    its target is what it was.  After [wikilink.target = newtarget], for a
    [newtarget] without a bar, its target is [newtarget] and its text is
    what it was, [None] for a link without a pipe.  The span of the link
    is assumed to lie in the buffer and not to be empty. *)
Theorem wikilink_setters_round_trip (st : State) (n : Node) (p e : Z) :
  _get_span st n = Py.Ok (p, e) ->
  0 <= p -> p < e -> e <= Py.len (_lststr st) ->
  (forall newtext, exists st',
     WikiLink.set_text st n newtext = Py.Ok st' /\
     WikiLink.text st' n = Py.Ok (Some newtext) /\
     WikiLink.target st' n = WikiLink.target st n) /\
  (forall newtarget, Py.find_nat "|" 0 newtarget = None -> exists st',
     WikiLink.set_target st n newtarget = Py.Ok st' /\
     WikiLink.target st' n = Py.Ok newtarget /\
     WikiLink.text st' n = WikiLink.text st n).
Proof.
  intros Hsp Hp Hpe He.
  pose proof (string_of_span st n p e Hsp) as Hs.
  set (s := Py.slice (_lststr st) p e) in *.
  split.
  - intros newtext.
    unfold WikiLink.set_text, WikiLink.target, WikiLink.text.
    read_node Hs.
    assert (Htarget : Py.find_nat "|" 0 (Py.partition (Py.slice s 2 (-2)) "|").1.1
                      = None).
    { destruct (partition_char_cases "|" (Py.slice s 2 (-2)))
        as [(H & ->)|(h & t & _ & H & ->)]; exact H. }
    set (tg := (Py.partition (Py.slice s 2 (-2)) "|").1.1) in *.
    destruct (set_string_then_string st n
                ("[[" +:+ tg +:+ "|" +:+ newtext +:+ "]]") p e)
      as (st' & H1 & H2); try assumption.
    exists st'. split; [exact H1|]. read_node H2.
    change ("[[" +:+ tg +:+ "|" +:+ newtext +:+ "]]")
      with ("[[" +:+ (tg +:+ String "|" (newtext +:+ "]]"))).
    rewrite append_cons_assoc, slice_link, partition_char_app by exact Htarget.
    repeat split.
  - intros newtarget Hnew.
    unfold WikiLink.set_target, WikiLink.target, WikiLink.text.
    read_node Hs.
    destruct (partition_char_cases "|" (Py.slice s 2 (-2)))
      as [(_ & ->)|(h & t & _ & _ & ->)]; cbn [fst snd].
    + destruct (set_string_then_string st n ("[[" +:+ newtarget +:+ "]]") p e)
        as (st' & H1 & H2); try assumption.
      exists st'. split; [exact H1|]. read_node H2.
      rewrite slice_link, partition_char_lacks by exact Hnew. repeat split.
    + destruct (set_string_then_string st n
                  ("[[" +:+ newtarget +:+ "|" +:+ t +:+ "]]") p e)
        as (st' & H1 & H2); try assumption.
      exists st'. split; [exact H1|]. read_node H2.
      change ("[[" +:+ newtarget +:+ "|" +:+ t +:+ "]]")
        with ("[[" +:+ (newtarget +:+ String "|" (t +:+ "]]"))).
      rewrite append_cons_assoc, slice_link, partition_char_app by exact Hnew.
      repeat split.
Qed.

Lemma wikilink_setters_round_trip_witness :
  (forall newtext, exists st',
     WikiLink.set_text
       {| _lststr := "[[a|b]]"; _spans := table [] [] [] [(0, 7)] [] [] |}
       {| class := KWikiLink; _index := 0 |} newtext = Py.Ok st' /\
     WikiLink.text st' {| class := KWikiLink; _index := 0 |}
     = Py.Ok (Some newtext) /\
     WikiLink.target st' {| class := KWikiLink; _index := 0 |}
     = WikiLink.target
         {| _lststr := "[[a|b]]"; _spans := table [] [] [] [(0, 7)] [] [] |}
         {| class := KWikiLink; _index := 0 |}) /\
  (forall newtarget, Py.find_nat "|" 0 newtarget = None -> exists st',
     WikiLink.set_target
       {| _lststr := "[[a|b]]"; _spans := table [] [] [] [(0, 7)] [] [] |}
       {| class := KWikiLink; _index := 0 |} newtarget = Py.Ok st' /\
     WikiLink.target st' {| class := KWikiLink; _index := 0 |}
     = Py.Ok newtarget /\
     WikiLink.text st' {| class := KWikiLink; _index := 0 |}
     = WikiLink.text
         {| _lststr := "[[a|b]]"; _spans := table [] [] [] [(0, 7)] [] [] |}
         {| class := KWikiLink; _index := 0 |}).
Proof.
  apply (wikilink_setters_round_trip
           {| _lststr := "[[a|b]]"; _spans := table [] [] [] [(0, 7)] [] [] |}
           {| class := KWikiLink; _index := 0 |} 0 7).
  - reflexivity.
  - lia.
  - lia.
  - vm_compute. discriminate.
Defined.

Lemma getitem_cons (c : ascii) (s : string) : Py.getitem (String c s) 0 = Py.Ok c.
Proof.
  unfold Py.getitem. cbn [Z.ltb Z.compare].
  destruct (Z.leb_spec (Py.len (String c s)) 0) as [H|H]; [|reflexivity].
  unfold Py.len in H. simpl String.length in H. lia.
Qed.

Lemma len_zero (s : string) : Py.len s = 0 -> s = "".
Proof. destruct s; [reflexivity|]. unfold Py.len. simpl. lia. Qed.

Lemma node_text_not_empty (st : State) (p e : Z) :
  0 <= p -> p < e -> e <= Py.len (_lststr st) ->
  exists c s', Py.slice (_lststr st) p e = String c s'.
Proof.
  intros Hp Hpe He.
  destruct (Py.slice (_lststr st) p e) as [|c s'] eqn:E; [|eauto].
  pose proof (len_slice (_lststr st) p e Hp ltac:(lia) He) as H.
  rewrite E in H. unfold Py.len in H. simpl in H. lia.
Qed.

(** After [argument.name = newname], for a [newname] without an equal
    sign: the argument is a keyword argument, its name is [newname] and
    its value is what it was.  The span of the argument is assumed to lie
    in the buffer and not to be empty. *)
Theorem argument_name_round_trip (st : State) (n : Node) (newname : string)
    (p e : Z) :
  _get_span st n = Py.Ok (p, e) ->
  0 <= p -> p < e -> e <= Py.len (_lststr st) ->
  Py.find_nat "=" 0 newname = None ->
  exists st',
    Argument.set_name st n newname = Py.Ok st' /\
    Argument.name st' n = Py.Ok newname /\
    Argument.equal_sign st' n = Py.Ok "=" /\
    Argument.value st' n = Argument.value st n.
Proof.
  intros Hsp Hp Hpe He Hnew.
  pose proof (string_of_span st n p e Hsp) as Hs.
  set (s := Py.slice (_lststr st) p e) in *.
  assert (Hv : exists v, Argument.value st n = Py.Ok v).
  { unfold Argument.value. read_node Hs.
    destruct (Py.partition s "=") as [[pipename equal] value].
    destruct equal; eauto. }
  destruct Hv as (v & Hv).
  unfold Argument.set_name. read_node Hv.
  destruct (set_string_then_string st n ("|" +:+ newname +:+ "=" +:+ v) p e)
    as (st' & H1 & H2); try assumption.
  exists st'. split; [exact H1|].
  unfold Argument.name, Argument.equal_sign, Argument.value. read_node H2.
  change ("|" +:+ newname +:+ "=" +:+ v)
    with (String "|" newname +:+ String "=" v).
  rewrite partition_char_app
    by (rewrite find_nat_char_cons; simpl; now rewrite Hnew).
  cbn [fst snd]. rewrite slice_from_cons. repeat split.
Qed.

Lemma argument_name_round_trip_witness :
  exists st',
    Argument.set_name example_5 (argument "ta0" 0) "k" = Py.Ok st' /\
    Argument.name st' (argument "ta0" 0) = Py.Ok "k" /\
    Argument.equal_sign st' (argument "ta0" 0) = Py.Ok "=" /\
    Argument.value st' (argument "ta0" 0)
    = Argument.value example_5 (argument "ta0" 0).
Proof.
  apply (argument_name_round_trip example_5 (argument "ta0" 0) "k" 3 5).
  - reflexivity.
  - lia.
  - lia.
  - vm_compute. discriminate.
  - reflexivity.
Defined.

(** After [argument.value = newvalue] the value of the argument is
    [newvalue], when the argument is a keyword argument or [newvalue] has
    no equal sign; the argument is a keyword argument after the call if
    and only if it was before, and a keyword argument keeps its name.
    The span of the argument is assumed to lie in the buffer and not to
    be empty. *)
Theorem argument_value_round_trip (st : State) (n : Node) (newvalue : string)
    (p e : Z) :
  _get_span st n = Py.Ok (p, e) ->
  0 <= p -> p < e -> e <= Py.len (_lststr st) ->
  Argument.equal_sign st n = Py.Ok "=" \/ Py.find_nat "=" 0 newvalue = None ->
  exists st',
    Argument.set_value st n newvalue = Py.Ok st' /\
    Argument.value st' n = Py.Ok newvalue /\
    Argument.equal_sign st' n = Argument.equal_sign st n /\
    (Argument.equal_sign st n = Py.Ok "=" ->
     Argument.name st' n = Argument.name st n).
Proof.
  intros Hsp Hp Hpe He Hcase.
  pose proof (string_of_span st n p e Hsp) as Hs.
  destruct (node_text_not_empty st p e Hp Hpe He) as (c & s' & Hne).
  set (s := Py.slice (_lststr st) p e) in *.
  revert Hcase.
  unfold Argument.set_value, Argument.name, Argument.equal_sign, Argument.value.
  read_node Hs.
  destruct (partition_char_cases "=" s) as [(Hlacks & ->)|(h & t & _ & Hh & ->)];
    cbn [fst snd].
  - intros [[=]|Hnew]. rewrite Hne, getitem_cons.
    cbn [mbind result_bind Py.bind_flip Py.bind].
    destruct (set_string_then_string st n (String c newvalue) p e)
      as (st' & H1 & H2); try assumption.
    exists st'. split; [exact H1|]. read_node H2.
    assert (Hc : Ascii.eqb "=" c = false).
    { rewrite Hne, find_nat_char_cons in Hlacks.
      destruct (Ascii.eqb "=" c); [discriminate | reflexivity]. }
    rewrite partition_char_lacks
      by (rewrite find_nat_char_cons, Hc, Hnew; reflexivity).
    cbn [fst snd]. rewrite slice_from_cons.
    repeat split. intros [=].
  - intros _.
    destruct (set_string_then_string st n (h +:+ "=" +:+ newvalue) p e)
      as (st' & H1 & H2); try assumption.
    exists st'. split; [exact H1|]. read_node H2.
    change (h +:+ "=" +:+ newvalue) with (h +:+ String "=" newvalue).
    rewrite partition_char_app by exact Hh. repeat split.
Qed.

Lemma argument_value_round_trip_witness :
  exists st',
    Argument.set_value example_5 (argument "ta0" 0) "2" = Py.Ok st' /\
    Argument.value st' (argument "ta0" 0) = Py.Ok "2" /\
    Argument.equal_sign st' (argument "ta0" 0)
    = Argument.equal_sign example_5 (argument "ta0" 0) /\
    (Argument.equal_sign example_5 (argument "ta0" 0) = Py.Ok "=" ->
     Argument.name st' (argument "ta0" 0)
     = Argument.name example_5 (argument "ta0" 0)).
Proof.
  apply (argument_value_round_trip example_5 (argument "ta0" 0) "2" 3 5).
  - reflexivity.
  - lia.
  - lia.
  - vm_compute. discriminate.
  - right. reflexivity.
Defined.

(** A positional argument whose value is set to a text with an equal sign
    becomes a keyword argument: its name is the text before the first
    equal sign of the new value, and its value the text after it.  The
    span of the argument is assumed to lie in the buffer and not to be
    empty. *)
Theorem positional_value_with_equal_sign (st : State) (n : Node)
    (before after : string) (p e : Z) :
  _get_span st n = Py.Ok (p, e) ->
  0 <= p -> p < e -> e <= Py.len (_lststr st) ->
  Argument.equal_sign st n = Py.Ok "" ->
  Py.find_nat "=" 0 before = None ->
  exists st',
    Argument.set_value st n (before +:+ "=" +:+ after) = Py.Ok st' /\
    Argument.equal_sign st' n = Py.Ok "=" /\
    Argument.name st' n = Py.Ok before /\
    Argument.value st' n = Py.Ok after.
Proof.
  intros Hsp Hp Hpe He Hpos Hbefore.
  pose proof (string_of_span st n p e Hsp) as Hs.
  destruct (node_text_not_empty st p e Hp Hpe He) as (c & s' & Hne).
  set (s := Py.slice (_lststr st) p e) in *.
  revert Hpos.
  unfold Argument.set_value, Argument.name, Argument.equal_sign, Argument.value.
  read_node Hs.
  destruct (partition_char_cases "=" s) as [(Hlacks & ->)|(h & t & _ & Hh & ->)];
    cbn [fst snd]; [|intros [=]].
  intros _. rewrite Hne, getitem_cons.
  cbn [mbind result_bind Py.bind_flip Py.bind].
  destruct (set_string_then_string st n
              (String c (before +:+ "=" +:+ after)) p e)
    as (st' & H1 & H2); try assumption.
  exists st'. split; [exact H1|]. read_node H2.
  assert (Hc : Ascii.eqb "=" c = false).
  { rewrite Hne, find_nat_char_cons in Hlacks.
    destruct (Ascii.eqb "=" c); [discriminate | reflexivity]. }
  change (String c (before +:+ "=" +:+ after))
    with (String c before +:+ String "=" after).
  rewrite partition_char_app
    by (rewrite find_nat_char_cons, Hc, Hbefore; reflexivity).
  cbn [fst snd]. rewrite slice_from_cons. repeat split.
Qed.

Lemma positional_value_with_equal_sign_witness :
  exists st',
    Argument.set_value example_5 (argument "ta0" 0) ("k" +:+ "=" +:+ "v")
    = Py.Ok st' /\
    Argument.equal_sign st' (argument "ta0" 0) = Py.Ok "=" /\
    Argument.name st' (argument "ta0" 0) = Py.Ok "k" /\
    Argument.value st' (argument "ta0" 0) = Py.Ok "v".
Proof.
  apply (positional_value_with_equal_sign example_5 (argument "ta0" 0)
           "k" "v" 3 5).
  - reflexivity.
  - lia.
  - lia.
  - vm_compute. discriminate.
  - reflexivity.
  - reflexivity.
Defined.

Lemma slice_bracket (x : string) : Py.slice ("[" +:+ x +:+ "]") 1 (-1) = x.
Proof. exact (slice_strip "[" x "]" ltac:(reflexivity)). Qed.

(** After [link.text = newtext] the link is in brackets, its text is
    [newtext] and its url is what it was; the url of a bare link is
    assumed to have no space, as the url of a link in brackets never has.
    After [link.url = newurl] on a link in brackets, for a [newurl]
    without a space, its url is [newurl] and its text is what it was.
    The span of the link is assumed to lie in the buffer and not to be
    empty. *)
Theorem external_link_setters_round_trip (st : State) (n : Node) (u : string)
    (p e : Z) :
  _get_span st n = Py.Ok (p, e) ->
  0 <= p -> p < e -> e <= Py.len (_lststr st) ->
  ExternalLink.url st n = Py.Ok u ->
  ExternalLink.in_brackets st n = Py.Ok true \/ Py.find_nat " " 0 u = None ->
  Py.find_nat " " 0 u = None /\
  (forall newtext, exists st',
     ExternalLink.set_text st n newtext = Py.Ok st' /\
     ExternalLink.in_brackets st' n = Py.Ok true /\
     ExternalLink.url st' n = Py.Ok u /\
     ExternalLink.text st' n = Py.Ok newtext) /\
  (forall newurl,
     ExternalLink.in_brackets st n = Py.Ok true ->
     Py.find_nat " " 0 newurl = None ->
     exists st',
       ExternalLink.set_url st n newurl = Py.Ok st' /\
       ExternalLink.in_brackets st' n = Py.Ok true /\
       ExternalLink.url st' n = Py.Ok newurl /\
       ExternalLink.text st' n = ExternalLink.text st n).
Proof.
  intros Hsp Hp Hpe He Hu Hcase.
  pose proof (string_of_span st n p e Hsp) as Hs.
  set (s := Py.slice (_lststr st) p e) in *.
  assert (Hlacks : Py.find_nat " " 0 u = None).
  { destruct Hcase as [Hb|H]; [|exact H].
    revert Hu Hb. unfold ExternalLink.url, ExternalLink.in_brackets.
    read_node Hs. intros Hu [= Hb]. rewrite Hb in Hu. injection Hu as <-.
    destruct (partition_char_cases " " (Py.slice s 1 (-1)))
      as [(H & ->)|(h & t & _ & H & ->)]; exact H. }
  split; [exact Hlacks|]. split.
  - intros newtext. unfold ExternalLink.set_text. read_node Hu.
    destruct (set_string_then_string st n
                ("[" +:+ u +:+ " " +:+ newtext +:+ "]") p e)
      as (st' & H1 & H2); try assumption.
    exists st'. split; [exact H1|].
    unfold ExternalLink.url, ExternalLink.text, ExternalLink.in_brackets.
    read_node H2.
    change (Py.startswith ("[" +:+ u +:+ " " +:+ newtext +:+ "]") "[")
      with (Py.startswith (u +:+ " " +:+ newtext +:+ "]") "").
    assert (Hst : forall x, Py.startswith x "" = true) by (now intros []).
    rewrite Hst.
    change ("[" +:+ u +:+ " " +:+ newtext +:+ "]")
      with ("[" +:+ (u +:+ String " " (newtext +:+ "]"))).
    rewrite append_cons_assoc, slice_bracket, partition_char_app by exact Hlacks.
    repeat split.
  - intros newurl Hb Hnew. revert Hb.
    unfold ExternalLink.set_url, ExternalLink.text, ExternalLink.url,
      ExternalLink.in_brackets.
    read_node Hs. intros [= Hb]. rewrite Hb.
    cbn [mbind result_bind Py.bind_flip Py.bind mret result_ret].
    assert (Hst : forall x, Py.startswith x "" = true) by (now intros []).
    destruct (partition_char_cases " " (Py.slice s 1 (-1)))
      as [(_ & ->)|(h & t & _ & _ & ->)]; cbn [fst snd].
    + destruct (set_string_then_string st n ("[" +:+ newurl +:+ "]") p e)
        as (st' & H1 & H2); try assumption.
      exists st'. split; [exact H1|]. read_node H2.
      change (Py.startswith ("[" +:+ newurl +:+ "]") "[")
        with (Py.startswith (newurl +:+ "]") "").
      rewrite Hst, slice_bracket, partition_char_lacks by exact Hnew.
      repeat split.
    + destruct t as [|c t].
      * destruct (set_string_then_string st n ("[" +:+ newurl +:+ "]") p e)
          as (st0 & G1 & G2); try assumption.
        exists st0. split; [exact G1|]. read_node G2.
        change (Py.startswith ("[" +:+ newurl +:+ "]") "[")
          with (Py.startswith (newurl +:+ "]") "").
        rewrite Hst, slice_bracket, partition_char_lacks by exact Hnew.
        repeat split.
      * destruct (set_string_then_string st n
                    ("[" +:+ newurl +:+ " " +:+ String c t +:+ "]") p e)
          as (st' & H1 & H2); try assumption.
        exists st'. split; [exact H1|]. read_node H2.
        change (Py.startswith ("[" +:+ newurl +:+ " " +:+ String c t +:+ "]") "[")
          with (Py.startswith (newurl +:+ " " +:+ String c t +:+ "]") "").
        rewrite Hst.
        change ("[" +:+ newurl +:+ " " +:+ String c t +:+ "]")
          with ("[" +:+ (newurl +:+ String " " (String c t +:+ "]"))).
        rewrite append_cons_assoc, slice_bracket, partition_char_app by exact Hnew.
        repeat split.
Qed.

Lemma external_link_setters_round_trip_witness :
  Py.find_nat " " 0 "http://a.b" = None /\
  (forall newtext, exists st',
     ExternalLink.set_text
       {| _lststr := "[http://a.b c]";
          _spans := <["el" := [(0, 14)]]> (table [] [] [] [] [] []) |}
       (external_link 0) newtext = Py.Ok st' /\
     ExternalLink.in_brackets st' (external_link 0) = Py.Ok true /\
     ExternalLink.url st' (external_link 0) = Py.Ok "http://a.b" /\
     ExternalLink.text st' (external_link 0) = Py.Ok newtext) /\
  (forall newurl,
     ExternalLink.in_brackets
       {| _lststr := "[http://a.b c]";
          _spans := <["el" := [(0, 14)]]> (table [] [] [] [] [] []) |}
       (external_link 0) = Py.Ok true ->
     Py.find_nat " " 0 newurl = None ->
     exists st',
       ExternalLink.set_url
         {| _lststr := "[http://a.b c]";
            _spans := <["el" := [(0, 14)]]> (table [] [] [] [] [] []) |}
         (external_link 0) newurl = Py.Ok st' /\
       ExternalLink.in_brackets st' (external_link 0) = Py.Ok true /\
       ExternalLink.url st' (external_link 0) = Py.Ok newurl /\
       ExternalLink.text st' (external_link 0)
       = ExternalLink.text
           {| _lststr := "[http://a.b c]";
              _spans := <["el" := [(0, 14)]]> (table [] [] [] [] [] []) |}
           (external_link 0)).
Proof.
  apply (external_link_setters_round_trip
           {| _lststr := "[http://a.b c]";
              _spans := <["el" := [(0, 14)]]> (table [] [] [] [] [] []) |}
           (external_link 0) "http://a.b" 0 14).
  - reflexivity.
  - lia.
  - lia.
  - vm_compute. discriminate.
  - reflexivity.
  - left. reflexivity.
Defined.

(** ** Sections of a text without a header *)

(** A quantifier fails when what follows it fails at every position. *)
Lemma rep_none (greedy : bool) (lo : nat) (hi : option nat) (p : ascii -> bool)
    (k : nat -> string -> outcome) :
  forall rest cnt i,
    (forall m, (m <= String.length rest)%nat ->
       k (i + m)%nat (Py.drop m rest) = None) ->
    rep greedy lo hi p cnt i rest k = None.
Proof.
  induction rest as [|c rest IH]; intros cnt i Hk.
  - simpl. destruct (lo <=? cnt)%nat; [|reflexivity].
    specialize (Hk O ltac:(simpl; lia)). now rewrite Nat.add_0_r in Hk.
  - assert (Hstop : (if (lo <=? cnt)%nat then k i (String c rest) else None)
                    = None).
    { destruct (lo <=? cnt)%nat; [|reflexivity].
      specialize (Hk O ltac:(simpl; lia)). now rewrite Nat.add_0_r in Hk. }
    assert (Hrec : rep greedy lo hi p (S cnt) (S i) rest k = None).
    { apply IH. intros m Hm. specialize (Hk (S m) ltac:(simpl; lia)).
      now rewrite Nat.add_succ_r in Hk. }
    cbn [rep]. rewrite Hstop, Hrec.
    destruct (below cnt hi && p c), greedy; reflexivity.
Qed.

Lemma search_from_none (s : string) (r : regex) :
  forall rest i,
    search_from s r i rest = None ->
    forall m, (m <= String.length rest)%nat ->
      match_at s r (i + m) (Py.drop m rest) = None.
Proof.
  induction rest as [|c rest IH]; intros i H m Hm; cbn [search_from] in H.
  - destruct (match_at s r i "") as [[j cs]|] eqn:E; [discriminate|].
    simpl in Hm. assert (m = O) by lia. subst m. now rewrite Nat.add_0_r.
  - destruct (match_at s r i (String c rest)) as [[j cs]|] eqn:E; [discriminate|].
    destruct m as [|m]; [now rewrite Nat.add_0_r|].
    rewrite Nat.add_succ_r. simpl in Hm. apply (IH (S i) H m). lia.
Qed.

Lemma finditer_nil (r : regex) (s : string) :
  finditer r s = [] -> search_from s r 0 s = None.
Proof.
  unfold finditer. intros H. apply fmap_nil_inv in H.
  cbn [finditer_from] in H.
  destruct (Nat.ltb_spec (String.length s) 0); [lia|].
  change (Py.drop 0 s) with s in H.
  destruct (search_from s r 0 s) as [[[a b] c]|]; [discriminate | reflexivity].
Qed.

(** LEAD_SECTION_REGEX needs a header to look ahead to. *)
Lemma lead_section_none (s : string) :
  finditer SECTION_HEADER_REGEX s = [] -> match_ LEAD_SECTION_REGEX s = None.
Proof.
  intros H. apply finditer_nil in H.
  pose proof (search_from_none s SECTION_HEADER_REGEX s 0 H) as Hnone.
  unfold match_, match_at, LEAD_SECTION_REGEX, star_lazy.
  cbn [seq run Nat.eqb].
  rewrite rep_none; [reflexivity|].
  intros m Hm. specialize (Hnone m Hm). unfold match_at in Hnone.
  cbn [Nat.add] in *. now rewrite Hnone.
Qed.

Lemma find_nat_char_get (c : ascii) (s : string) (k : nat) :
  Py.find_nat (String c "") 0 s = None -> String.get k s <> Some c.
Proof.
  revert k. induction s as [|b s IH]; intros k H; [now destruct k|].
  rewrite find_nat_char_cons in H.
  destruct (Ascii.eqb_spec c b) as [|Hne]; [discriminate|].
  destruct (Py.find_nat _ 0 s) eqn:E; [discriminate|].
  destruct k as [|k]; simpl; [congruence | now apply IH].
Qed.

(** A header has an equal sign. *)
Lemma no_equal_sign_no_header (s : string) :
  Py.find_nat "=" 0 s = None -> finditer SECTION_HEADER_REGEX s = [].
Proof.
  intros Hlacks. unfold finditer.
  destruct (finditer_from s (S (String.length s)) SECTION_HEADER_REGEX 0)
    as [|[[a b] c] ms] eqn:E; [reflexivity|].
  destruct (finditer_from_sound s SECTION_HEADER_REGEX (S (String.length s)) 0)
    as (_ & Hall).
  rewrite E in Hall. apply Forall_cons in Hall as ((Hsem & _) & _).
  cbn [fst snd] in Hsem. unfold SECTION_HEADER_REGEX in Hsem.
  cbn [seq sem] in Hsem.
  destruct Hsem as (k1 & _ & k2 & (Heq & _) & _).
  now apply find_nat_char_get with (k := k1) in Hlacks.
Qed.

(** [sections] raises [AttributeError] on a text in which no section
    header is found, as on every text without an equal sign: the pattern
    of the lead section does not match, and the span of the [None] it
    returns is asked for. *)
Theorem sections_without_header (st : State) (n : Node) (s : string) :
  string_ st n = Py.Ok s ->
  finditer SECTION_HEADER_REGEX s = [] \/ Py.find_nat "=" 0 s = None ->
  sections st n = Py.Raise Py.AttributeError.
Proof.
  intros Hs Hcase.
  assert (Hnone : match_ LEAD_SECTION_REGEX s = None).
  { apply lead_section_none.
    destruct Hcase as [H|H]; [exact H | now apply no_equal_sign_no_header]. }
  unfold sections. unfold string_ in Hs.
  destruct (_get_span st n) as [[p e]| |] eqn:Hsp; try discriminate.
  cbn [mbind result_bind Py.bind_flip Py.bind].
  unfold string_. rewrite Hsp.
  cbn [mbind result_bind Py.bind_flip Py.bind mret result_ret] in *.
  injection Hs as ->. now rewrite Hnone.
Qed.

Lemma sections_without_header_witness :
  sections {| _lststr := "abc"; _spans := table [] [] [] [] [] [] |} root
  = Py.Raise Py.AttributeError.
Proof.
  apply (sections_without_header
           {| _lststr := "abc"; _spans := table [] [] [] [] [] [] |} root "abc").
  - reflexivity.
  - right. reflexivity.
Defined.

(** ** Masking *)

Lemma masked_refl (s : string) : masked s s.
Proof. induction s as [|c s IH]; simpl; auto. Qed.

Lemma masked_trans (s t u : string) : masked s t -> masked t u -> masked s u.
Proof.
  revert t u. induction s as [|a s IH]; intros [|b t] [|c u]; simpl; try tauto.
  intros (H1 & H2) (H3 & H4). split; [|eauto].
  destruct H3 as [-> | ->]; [exact H1 | now right].
Qed.

Lemma masked_length (s t : string) :
  masked s t -> String.length t = String.length s.
Proof.
  revert t. induction s as [|a s IH]; intros [|b t]; simpl; try tauto.
  intros (_ & H). f_equal. now apply IH.
Qed.

Lemma masked_app (s s' t t' : string) :
  masked s t -> masked s' t' -> masked (s +:+ s') (t +:+ t').
Proof.
  revert t. induction s as [|a s IH]; intros [|b t]; cbn [masked]; try tauto.
  intros (H1 & H2) H3. rewrite !append_cons. cbn [masked]. split; [exact H1|].
  now apply IH.
Qed.

Lemma masked_drop (n : nat) (s t : string) :
  masked s t -> masked (Py.drop n s) (Py.drop n t).
Proof.
  revert s t. induction n as [|n IH]; intros [|a s] [|b t]; simpl; try tauto.
  intros (_ & H). now apply IH.
Qed.

Lemma masked_take (n : nat) (s t : string) :
  masked s t -> masked (Py.take n s) (Py.take n t).
Proof.
  revert s t. induction n as [|n IH]; intros [|a s] [|b t]; simpl; try tauto.
  intros (H1 & H2). split; [exact H1 | now apply IH].
Qed.

(** A character of the masked string that is not an underscore is the
    character of the string at the same place. *)
Lemma masked_get (s t : string) (i : nat) (c : ascii) :
  masked s t -> String.get i t = Some c -> c <> "_"%char ->
  String.get i s = Some c.
Proof.
  revert s t. induction i as [|i IH]; intros [|a s] [|b t]; simpl; try tauto;
    try discriminate.
  - intros ([-> | ->] & _) [= ->] Hc; [reflexivity | congruence].
  - intros (_ & H). now apply IH.
Qed.

Lemma masked_repeat (s : string) :
  masked s (Py.repeat_char "_" (String.length s)).
Proof. induction s as [|a s IH]; simpl; auto. Qed.

Lemma masked_replace_go (a : ascii) (old' new : string) (skip : nat) (s : string) :
  masked (String a old') new ->
  (skip <= String.length s)%nat ->
  masked (Py.drop skip s) (Py.replace_go (String a old') new skip s).
Proof.
  intros Hmask. revert skip. induction s as [|c s IH]; intros skip Hskip.
  - destruct skip; simpl; auto.
  - destruct skip as [|k]; [|apply IH; simpl in Hskip; lia].
    cbn [Py.replace_go Py.drop].
    destruct (Py.startswith (String c s) (String a old')) eqn:E.
    + pose proof (startswith_split _ _ E) as Hs.
      pose proof (startswith_length _ _ E) as Hl.
      rewrite Hs at 1. apply masked_app; [exact Hmask|].
      cbn [String.length Py.drop] in *.
      replace (S (String.length old') - 1)%nat with (String.length old')
        by lia.
      apply IH. lia.
    + cbn [masked]. split; [now left|]. apply (IH O). lia.
Qed.

(** [s.replace(old, new)] masks [s] when [new] masks [old]. *)
Lemma masked_replace (old new s : string) :
  old <> "" -> masked old new -> masked s (Py.replace s old new).
Proof.
  intros Hne Hmask. unfold Py.replace. destruct old as [|a old']; [congruence|].
  apply (masked_replace_go a old' new O s Hmask). lia.
Qed.

Lemma masked_replace_char (c : ascii) (s : string) :
  masked s (Py.replace s (String c "") "_").
Proof. apply masked_replace; [discriminate|]. simpl. auto. Qed.

Lemma masked_mask_all (g : string) : masked g (mask_all g).
Proof. apply masked_repeat. Qed.

Lemma masked_mask_braces (g : string) : masked g (mask_braces g).
Proof.
  unfold mask_braces. eapply masked_trans; apply masked_replace_char.
Qed.

Lemma startswith_nil (s : string) : Py.startswith s "" = true.
Proof. now destruct s. Qed.

Lemma startswith_cons (c : ascii) (p s : string) :
  Py.startswith s (String c p) = true <->
  exists s', s = String c s' /\ Py.startswith s' p = true.
Proof.
  destruct s as [|b s]; simpl.
  - split; [discriminate | intros (s' & [=] & _)].
  - rewrite andb_true_iff, Ascii.eqb_eq. split.
    + intros (-> & H). eauto.
    + intros (s' & [= -> ->] & H). auto.
Qed.

(** What the masked text reads without an underscore, the text reads. *)
Lemma masked_startswith (p : string) :
  forall s t, masked s t -> Py.startswith t p = true ->
    Py.find_nat "_" 0 p = None -> Py.startswith s p = true.
Proof.
  induction p as [|c p IH]; intros s t Hm Ht Hp; [apply startswith_nil|].
  apply startswith_cons in Ht as (t' & -> & Ht).
  rewrite find_nat_char_cons in Hp.
  destruct (Ascii.eqb_spec "_" c) as [|Hc]; [discriminate|].
  destruct (Py.find_nat "_" 0 p) eqn:E; [discriminate|].
  destruct s as [|a s]; [contradiction|]. destruct Hm as (Ha & Hm).
  apply startswith_cons. exists s. split; [|eapply IH; eauto].
  destruct Ha as [-> | ->]; [reflexivity | congruence].
Qed.

Lemma edged_masked (s t pre post : string) (a b : nat) :
  masked s t -> edged t pre post a b ->
  Py.find_nat "_" 0 pre = None -> Py.find_nat "_" 0 post = None ->
  edged s pre post a b.
Proof.
  intros Hm (H1 & H2 & H3 & H4) Hpre Hpost.
  rewrite (masked_length _ _ Hm) in H2.
  repeat split; try assumption.
  - eapply masked_startswith; [apply masked_drop; exact Hm | exact H3 | exact Hpre].
  - eapply masked_startswith; [apply masked_drop; exact Hm | exact H4 | exact Hpost].
Qed.

Lemma startswith_drop_get (c : ascii) (p s : string) (a : nat) :
  String.get a s = Some c -> Py.startswith (Py.drop (S a) s) p = true ->
  Py.startswith (Py.drop a s) (String c p) = true.
Proof.
  intros Hg Hp. rewrite (get_drop_cons _ _ _ Hg).
  apply startswith_cons. eauto.
Qed.

Lemma startswith_eq (s p : string) :
  Py.startswith s p = true -> Py.take (String.length p) s = p.
Proof.
  intros H. rewrite (startswith_split _ _ H) at 1. apply take_app_length.
Qed.

Lemma drop_take (n : nat) :
  forall (m : nat) (s : string),
    Py.drop n (Py.take m s) = Py.take (m - n) (Py.drop n s).
Proof.
  induction n as [|n IH]; intros m s.
  - now rewrite Nat.sub_0_r.
  - destruct m as [|m]; destruct s as [|c s]; simpl; try reflexivity;
      try apply IH.
    + now destruct (m - n)%nat.
Qed.

Lemma startswith_take_ge (n : nat) (s p : string) :
  (String.length p <= n)%nat -> Py.startswith s p = true ->
  Py.startswith (Py.take n s) p = true.
Proof.
  revert n s. induction p as [|c p IH]; intros n s Hn H; [apply startswith_nil|].
  apply startswith_cons in H as (s' & -> & H).
  destruct n as [|n]; [simpl in Hn; lia|]. simpl in Hn.
  cbn [Py.take]. apply startswith_cons. exists (Py.take n s').
  split; [reflexivity|]. apply IH; [lia | exact H].
Qed.

(** The matched text opens and closes as the match does. *)
Lemma edged_group (s pre post : string) (a b : nat) :
  edged s pre post a b ->
  let g := Py.take (b - a) (Py.drop a s) in
  String.length g = (b - a)%nat /\ edged g pre post 0 (String.length g).
Proof.
  intros (H1 & H2 & H3 & H4) g.
  assert (Hlen : String.length g = (b - a)%nat).
  { unfold g. rewrite length_take, length_drop. lia. }
  split; [exact Hlen|]. rewrite Hlen. unfold edged. rewrite Hlen.
  repeat split; try lia.
  - cbn [Py.drop]. unfold g. apply startswith_take_ge; [lia | exact H3].
  - unfold g. rewrite drop_take, drop_drop.
    replace (a + (b - a - String.length post))%nat
      with (b - String.length post)%nat by lia.
    apply startswith_take_ge; [lia | exact H4].
Qed.

Lemma edged_delimited (s pre post : string) (a b : nat) :
  edged s pre post a b -> delimited s pre post (Z.of_nat a, Z.of_nat b).
Proof.
  intros (H1 & H2 & H3 & H4). unfold delimited, Py.len. cbn [fst snd].
  repeat split; try lia.
  - rewrite <- Nat2Z.inj_add, slice_nat by lia.
    replace (a + String.length pre - a)%nat with (String.length pre) by lia.
    now apply startswith_eq.
  - rewrite <- Nat2Z.inj_sub, slice_nat by lia.
    replace (b - (b - String.length post))%nat with (String.length post) by lia.
    now apply startswith_eq.
Qed.

Lemma masked_underscores (x : string) (n : nat) :
  String.length x = n -> masked x (Py.repeat_char "_" n).
Proof. intros <-. apply masked_repeat. Qed.

(** [g[k:-k]] for a [g] of [2 k] characters at least *)
Lemma slice_inner (g : string) (k : nat) :
  (0 < k)%nat -> (2 * k <= String.length g)%nat ->
  Py.slice g (Z.of_nat k) (- Z.of_nat k)
  = Py.take (String.length g - 2 * k) (Py.drop k g).
Proof.
  intros Hk Hlen. unfold Py.slice, Py.bound, Py.len.
  destruct (Z.ltb_spec (Z.of_nat k) 0); [lia|].
  destruct (Z.ltb_spec (- Z.of_nat k) 0); [|lia].
  f_equal; [|f_equal]; lia.
Qed.

(** The filler of a match of [2 k] characters at least masks it. *)
Lemma masked_fill (g : string) (k : nat) :
  (0 < k)%nat -> (2 * k <= String.length g)%nat ->
  masked g (Py.repeat_char "_" k
            +:+ Py.slice g (Z.of_nat k) (- Z.of_nat k)
            +:+ Py.repeat_char "_" k).
Proof.
  intros Hk Hlen. rewrite slice_inner by assumption.
  rewrite <- (take_drop k g) at 1.
  apply masked_app.
  { apply masked_underscores. rewrite length_take. lia. }
  rewrite <- (take_drop (String.length g - 2 * k) (Py.drop k g)) at 1.
  apply masked_app; [apply masked_refl|].
  apply masked_underscores. rewrite !length_drop. lia.
Qed.

Lemma masked_mask_2 (g : string) :
  (4 <= String.length g)%nat -> masked g (mask_2 g).
Proof. intros H. apply (masked_fill g 2); lia. Qed.

Lemma masked_mask_3 (g : string) :
  (6 <= String.length g)%nat -> masked g (mask_3 g).
Proof. intros H. apply (masked_fill g 3); lia. Qed.

(** ** What the matches of each pattern open and close with *)

Ltac edged_tac :=
  unfold edged; cbn [String.length];
  repeat match goal with
  | |- _ /\ _ => split
  end;
  try lia;
  repeat match goal with
  | |- Py.startswith _ EmptyString = true => apply startswith_nil
  | H : String.get ?i ?s = Some ?c
    |- Py.startswith (Py.drop ?j ?s) (String ?c _) = true =>
      replace j with i by lia; apply (startswith_drop_get c _ s i H)
  end.

Lemma edged_TEMPLATE_PARAMETER (s : string) (a b : nat) :
  sem s TEMPLATE_PARAMETER_REGEX a b -> (b <= String.length s)%nat ->
  edged s "{{{" "}}}" a b.
Proof.
  unfold TEMPLATE_PARAMETER_REGEX, seq, lit, star_lazy. cbn [sem].
  intros H Hb. sem_cases. edged_tac.
Qed.

Lemma edged_PARSER_FUNCTION (s : string) (a b : nat) :
  sem s PARSER_FUNCTION_REGEX a b -> (b <= String.length s)%nat ->
  edged s "{{" "}}" a b.
Proof.
  unfold PARSER_FUNCTION_REGEX, seq, lit, star_lazy, star. cbn [sem].
  intros H Hb. sem_cases. edged_tac.
Qed.

Lemma edged_TEMPLATE_PATTERN (s : string) (g a b : nat) :
  sem s (TEMPLATE_PATTERN g) a b -> (b <= String.length s)%nat ->
  edged s "{{" "}}" a b.
Proof.
  unfold TEMPLATE_PATTERN, VALID_TITLE_CHARS_PATTERN, seq, lit, star_lazy, star.
  cbn [sem]. intros H Hb. sem_cases; edged_tac.
Qed.

Lemma edged_TEMPLATE_NOT_PARAM (s : string) (a b : nat) :
  sem s TEMPLATE_NOT_PARAM_REGEX a b -> (b <= String.length s)%nat ->
  edged s "{{" "}}" a b.
Proof.
  unfold TEMPLATE_NOT_PARAM_REGEX. cbn [sem].
  intros [(k & H & ->)|(k & -> & H)] Hb; eapply edged_TEMPLATE_PATTERN; eauto.
Qed.

Lemma edged_WIKILINK (s : string) (a b : nat) :
  sem s WIKILINK_REGEX a b -> (b <= String.length s)%nat ->
  edged s "[[" "]]" a b.
Proof.
  unfold WIKILINK_REGEX, VALID_TITLE_CHARS_PATTERN, seq, lit, star_lazy, star.
  cbn [sem]. intros H Hb. sem_cases; edged_tac.
Qed.

Lemma edged_COMMENT (s : string) (a b : nat) :
  sem s COMMENT_REGEX a b -> (b <= String.length s)%nat ->
  edged s "<!--" "-->" a b.
Proof.
  unfold COMMENT_REGEX, seq, lit, star_lazy. cbn [sem].
  intros H Hb. sem_cases. edged_tac.
Qed.

Lemma edged_NOWIKI (s : string) (a b : nat) :
  sem s NOWIKI_REGEX a b -> (b <= String.length s)%nat ->
  edged s "<nowiki" ">" a b.
Proof.
  unfold NOWIKI_REGEX, seq, lit, star_lazy, star. cbn [sem].
  intros H Hb. sem_cases. edged_tac.
Qed.

(** ** The start of a pass masks the string *)

Lemma cut_join (s sep : string) (k : nat) :
  Py.startswith (Py.drop k s) sep = true ->
  Py.take k s +:+ sep +:+ Py.drop (k + String.length sep) s = s.
Proof.
  intros H. transitivity (Py.take k s +:+ Py.drop k s); [|apply take_drop].
  f_equal. rewrite <- drop_drop. symmetry. now apply startswith_split.
Qed.

Lemma partition_join (s sep : string) :
  (Py.partition s sep).1.1 +:+ (Py.partition s sep).1.2
  +:+ (Py.partition s sep).2 = s.
Proof.
  unfold Py.partition. destruct (Py.find_nat sep 0 s) as [k|] eqn:E; cbn [fst snd].
  - apply cut_join. eapply find_nat_startswith; eauto.
  - cbn. apply append_empty_r.
Qed.

Lemma rpartition_join (s sep : string) :
  (Py.rpartition s sep).1.1 +:+ (Py.rpartition s sep).1.2
  +:+ (Py.rpartition s sep).2 = s.
Proof.
  unfold Py.rpartition. destruct (Py.rfind_nat sep s) as [k|] eqn:E; cbn [fst snd].
  - apply cut_join. eapply rfind_nat_startswith; eauto.
  - reflexivity.
Qed.

Lemma sem_SINGLE_OPEN (s : string) (a b : nat) :
  sem s SINGLE_OPEN_REGEX a b -> b = S a.
Proof.
  unfold SINGLE_OPEN_REGEX, seq. cbn [sem]. intros H. sem_cases. reflexivity.
Qed.

Lemma sem_SINGLE_CLOSE (s : string) (a b : nat) :
  sem s SINGLE_CLOSE_REGEX a b -> b = S a.
Proof.
  unfold SINGLE_CLOSE_REGEX, seq. cbn [sem]. intros H. sem_cases. reflexivity.
Qed.

Lemma get_in_range (s : string) (a : nat) :
  (a < String.length s)%nat -> exists ch, String.get a s = Some ch.
Proof.
  revert a. induction s as [|ch s IH]; intros a Ha; simpl in Ha; [lia|].
  destruct a as [|a]; simpl; [eauto|]. apply IH. lia.
Qed.

(** [re.sub] with the filler ["_"] and matches of one character. *)
Lemma masked_sub_go (s : string) (ms : list (nat * nat * captures)) :
  forall pos, ordered pos ms ->
    Forall (fun m => m.1.2 = S m.1.1 /\ (m.1.2 <= String.length s)%nat) ms ->
    masked (Py.drop pos s) (sub_go "_" s pos ms).
Proof.
  induction ms as [|[[a b] c] ms IH]; intros pos Hord Hall; [apply masked_refl|].
  destruct Hord as (Hpa & Hab & Hord).
  apply Forall_cons in Hall as ((Hb & Hlen) & Hall). cbn [fst snd] in Hb, Hlen.
  subst b. cbn [sub_go].
  rewrite <- (take_drop (a - pos) (Py.drop pos s)) at 1.
  apply masked_app; [apply masked_refl|].
  rewrite drop_drop. replace (pos + (a - pos))%nat with a by lia.
  destruct (get_in_range s a ltac:(lia)) as (ch & Hg).
  rewrite (get_drop_cons _ _ _ Hg).
  change ("_" +:+ sub_go "_" s (S a) ms) with (String "_" (sub_go "_" s (S a) ms)).
  cbn [masked]. split; [now right|]. now apply IH.
Qed.

Lemma masked_sub (r : regex) (s : string) :
  (forall a b, sem s r a b -> b = S a) -> masked s (sub r "_" s).
Proof.
  intros Hone. unfold sub.
  destruct (finditer_from_sound s r (S (String.length s)) O) as (Hord & Hall).
  apply (masked_sub_go s _ O Hord).
  eapply Forall_impl; [exact Hall|].
  intros [[a b] c] (Hsem & Hlen). cbn [fst snd] in *. split; [|exact Hlen].
  now apply Hone.
Qed.

Lemma masked_pass_start (str : string) : masked str (pass_start str).
Proof.
  unfold pass_start.
  pose proof (masked_sub SINGLE_OPEN_REGEX str (sem_SINGLE_OPEN str)) as H1.
  set (s1 := sub SINGLE_OPEN_REGEX "_" str) in *.
  pose proof (masked_sub SINGLE_CLOSE_REGEX s1 (sem_SINGLE_CLOSE s1)) as H2.
  set (s2 := sub SINGLE_CLOSE_REGEX "_" s1) in *.
  pose proof (rpartition_join s2 "}") as H3.
  destruct (Py.rpartition s2 "}") as [[head sep] tail]. cbn [fst snd] in H3.
  set (s3 := head +:+ sep +:+ Py.replace tail "{" "_").
  assert (H4 : masked s2 s3).
  { rewrite <- H3. unfold s3.
    repeat apply masked_app; try apply masked_refl. apply masked_replace_char. }
  pose proof (partition_join s3 "{") as H5.
  destruct (Py.partition s3 "{") as [[head' sep'] tail']. cbn [fst snd] in H5.
  eapply masked_trans; [exact H1|]. eapply masked_trans; [exact H2|].
  eapply masked_trans; [exact H4|]. rewrite <- H5 at 1.
  repeat apply masked_app; try apply masked_refl. apply masked_replace_char.
Qed.

(** ** What the loops of [_get_spans] record *)

Section Recording.

Variables (pre post : string) (r : regex) (mask : string -> string).
Hypothesis Hpre : Py.find_nat "_" 0 pre = None.
Hypothesis Hpost : Py.find_nat "_" 0 post = None.
Hypothesis Hne : (0 < String.length pre + String.length post)%nat.
Hypothesis Hr : forall s a b,
  sem s r a b -> (b <= String.length s)%nat -> edged s pre post a b.
Hypothesis Hmask : forall g,
  edged g pre post 0 (String.length g) -> masked g (mask g).

(** The text [orig] opens with [pre] and closes with [post] at the span. *)
Let recorded (orig : string) (sp : Z * Z) : Prop :=
  exists a b, sp = (Z.of_nat a, Z.of_nat b) /\ edged orig pre post a b.

Lemma finditer_edged (str : string) :
  Forall (fun m => subject m = str /\
            exists a b, span m = (Z.of_nat a, Z.of_nat b) /\
                        edged str pre post a b)
    (finditer r str).
Proof.
  unfold finditer.
  destruct (finditer_from_sound str r (S (String.length str)) O) as (_ & Hall).
  apply Forall_fmap. eapply Forall_impl; [exact Hall|].
  intros [[a b] c] (Hsem & Hlen). cbn [fst snd] in *. simpl.
  split; [reflexivity|]. exists a, b. split; [reflexivity|]. now apply Hr.
Qed.

Lemma fold_record_inv (orig str : string) (ms : list Match) :
  masked orig str ->
  Forall (fun m => subject m = str /\
            exists a b, span m = (Z.of_nat a, Z.of_nat b) /\
                        edged str pre post a b) ms ->
  forall cur spans,
    masked str cur -> Forall (recorded orig) spans ->
    masked str (fold_left (record_match mask) ms (cur, spans)).1 /\
    Forall (recorded orig) (fold_left (record_match mask) ms (cur, spans)).2.
Proof.
  intros Horig. induction ms as [|m ms IH]; intros Hall cur spans Hcur Hspans.
  - split; assumption.
  - apply Forall_cons in Hall as ((Hsub & a & b & Hsp & He) & Hall).
    cbn [fold_left]. unfold record_match at 2 4. cbn [fst snd].
    apply IH; [exact Hall | |].
    + eapply masked_trans; [exact Hcur|].
      assert (Hg : group m = Py.take (b - a) (Py.drop a str)).
      { unfold group. rewrite Hsub, Hsp. cbn [fst snd].
        destruct He as (H1 & H2 & _). apply slice_nat; lia. }
      destruct (edged_group _ _ _ _ _ He) as (Hlen & Hedge).
      rewrite <- Hg in Hlen, Hedge.
      apply masked_replace; [|now apply Hmask].
      intros E. rewrite E in Hlen. simpl in Hlen.
      destruct He as (H1 & _). lia.
    + apply Forall_app. split; [exact Hspans|]. constructor; [|constructor].
      exists a, b. split; [exact Hsp|].
      eapply edged_masked; eauto.
Qed.

Lemma for_matches_inv (orig str : string) (spans : list (Z * Z)) :
  masked orig str -> Forall (recorded orig) spans ->
  masked orig (for_matches r mask str spans).1 /\
  Forall (recorded orig) (for_matches r mask str spans).2.
Proof.
  intros Horig Hspans. unfold for_matches.
  destruct (fold_record_inv orig str (finditer r str) Horig (finditer_edged str)
              str spans (masked_refl str) Hspans) as (H1 & H2).
  split; [eapply masked_trans; eauto | exact H2].
Qed.

Lemma while_loop_inv (orig : string) (fuel : nat) :
  forall str spans match_ str' spans' match',
    masked orig str -> Forall (recorded orig) spans ->
    while_loop fuel r mask str spans match_ = Some (str', spans', match') ->
    masked orig str' /\ Forall (recorded orig) spans'.
Proof.
  induction fuel as [|fuel IH]; intros str spans m str' spans' m' Horig Hspans H;
    [discriminate|].
  cbn [while_loop] in H.
  destruct (finditer r str) as [|m0 ms] eqn:E.
  - injection H as <- <- <-. split; assumption.
  - destruct (for_matches_inv orig str spans Horig Hspans) as (H1 & H2).
    destruct (for_matches r mask str spans) as [str1 spans1].
    eapply IH; eauto.
Qed.

End Recording.

Lemma for_matches_spans (r : regex) (mask : string -> string) (str : string)
    (spans : list (Z * Z)) :
  (for_matches r mask str spans).2 = spans ++ spans_of (finditer r str).
Proof.
  unfold for_matches, spans_of.
  generalize (finditer r str) as ms. intros ms. revert spans. generalize str at 1.
  induction ms as [|m ms IH]; intros cur spans.
  - simpl. now rewrite app_nil_r.
  - cbn [fold_left map]. unfold record_match at 2. cbn [fst snd].
    rewrite IH, <- app_assoc. reflexivity.
Qed.

Lemma mask_3_edged (g : string) :
  edged g "{{{" "}}}" 0 (String.length g) -> masked g (mask_3 g).
Proof. intros (H & _). apply masked_mask_3. simpl in H. lia. Qed.

Lemma mask_2_edged (g : string) :
  edged g "{{" "}}" 0 (String.length g) -> masked g (mask_2 g).
Proof. intros (H & _). apply masked_mask_2. simpl in H. lia. Qed.

(** The spans that the [while True] loop adds open and close, in the
    text the tokenizer was given, as their category does. *)
Lemma get_spans_loop_inv (orig : string) (fuel : nat) :
  forall str p pf t passes p' pf' t' n,
    masked orig str ->
    Forall (fun sp => exists a b, sp = (Z.of_nat a, Z.of_nat b) /\
                                  edged orig "{{{" "}}}" a b) p ->
    Forall (fun sp => exists a b, sp = (Z.of_nat a, Z.of_nat b) /\
                                  edged orig "{{" "}}" a b) pf ->
    Forall (fun sp => exists a b, sp = (Z.of_nat a, Z.of_nat b) /\
                                  edged orig "{{" "}}" a b) t ->
    get_spans_loop fuel str p pf t passes = Some (p', pf', t', n) ->
    Forall (fun sp => exists a b, sp = (Z.of_nat a, Z.of_nat b) /\
                                  edged orig "{{{" "}}}" a b) p' /\
    Forall (fun sp => exists a b, sp = (Z.of_nat a, Z.of_nat b) /\
                                  edged orig "{{" "}}" a b) pf' /\
    Forall (fun sp => exists a b, sp = (Z.of_nat a, Z.of_nat b) /\
                                  edged orig "{{" "}}" a b) t'.
Proof.
  induction fuel as [|fuel IH];
    intros str p pf t passes p' pf' t' n Hm Hp Hpf Ht H; [discriminate|].
  rewrite get_spans_loop_S in H.
  assert (Hstart : masked orig (pass_start str))
    by (eapply masked_trans; [exact Hm | apply masked_pass_start]).
  destruct (while_loop (S fuel) TEMPLATE_PARAMETER_REGEX mask_3
              (pass_start str) p None) as [[[s1 p1] m1]|] eqn:E1;
    [|discriminate].
  destruct (while_loop_inv "{{{" "}}}" TEMPLATE_PARAMETER_REGEX mask_3
              eq_refl eq_refl ltac:(simpl; lia) edged_TEMPLATE_PARAMETER
              mask_3_edged orig _ _ _ _ _ _ _ Hstart Hp E1) as (Hm1 & Hp1).
  cbn [mbind option_bind] in H.
  destruct (while_loop (S fuel) PARSER_FUNCTION_REGEX mask_2 s1 pf m1)
    as [[[s2 pf2] m2]|] eqn:E2; [|discriminate].
  destruct (while_loop_inv "{{" "}}" PARSER_FUNCTION_REGEX mask_2
              eq_refl eq_refl ltac:(simpl; lia) edged_PARSER_FUNCTION
              mask_2_edged orig _ _ _ _ _ _ _ Hm1 Hpf E2) as (Hm2 & Hpf2).
  cbn [mbind option_bind] in H.
  destruct (while_loop (S fuel) TEMPLATE_NOT_PARAM_REGEX mask_2 s2 t m2)
    as [[[s3 t3] m3]|] eqn:E3; [|discriminate].
  destruct (while_loop_inv "{{" "}}" TEMPLATE_NOT_PARAM_REGEX mask_2
              eq_refl eq_refl ltac:(simpl; lia) edged_TEMPLATE_NOT_PARAM
              mask_2_edged orig _ _ _ _ _ _ _ Hm2 Ht E3) as (Hm3 & Ht3).
  cbn [mbind option_bind] in H.
  destruct m3 as [m|].
  - eapply IH; [exact Hm3 | exact Hp1 | exact Hpf2 | exact Ht3 | exact H].
  - injection H as <- <- <- <-. auto.
Qed.

Lemma Forall_edged_delimited (s pre post : string) (l : list (Z * Z)) :
  Forall (fun sp => exists a b, sp = (Z.of_nat a, Z.of_nat b) /\
                                edged s pre post a b) l ->
  Forall (delimited s pre post) l.
Proof.
  intros H. eapply Forall_impl; [exact H|].
  intros sp (a & b & -> & He). now apply edged_delimited.
Qed.

(** The table of a text: every span lies in the text, where it opens and
    closes with the delimiters of its category. *)
Lemma get_spans_fuel_delimited (fuel : nat) (str : string) (spans : SpanTable)
    (passes : nat) :
  get_spans_fuel fuel str = Some (spans, passes) ->
  exists p pf t wl c nw,
    spans = table p pf t wl c nw /\
    Forall (delimited str "{{{" "}}}") p /\
    Forall (delimited str "{{" "}}") pf /\
    Forall (delimited str "{{" "}}") t /\
    Forall (delimited str "[[" "]]") wl /\
    Forall (delimited str "<!--" "-->") c /\
    Forall (delimited str "<nowiki" ">") nw /\
    c = spans_of (finditer COMMENT_REGEX str).
Proof.
  unfold get_spans_fuel. intros H.
  pose proof (for_matches_spans COMMENT_REGEX mask_all str []) as Hc.
  destruct (for_matches_inv "<!--" "-->" COMMENT_REGEX mask_all
              eq_refl eq_refl ltac:(simpl; lia) edged_COMMENT
              (fun g _ => masked_mask_all g) str str []
              (masked_refl str) (Forall_nil_2 _)) as (Hm1 & Hc1).
  destruct (for_matches COMMENT_REGEX mask_all str []) as [s1 c].
  cbn [fst snd] in *.
  destruct (for_matches_inv "<nowiki" ">" NOWIKI_REGEX mask_all
              eq_refl eq_refl ltac:(simpl; lia) edged_NOWIKI
              (fun g _ => masked_mask_all g) str s1 []
              Hm1 (Forall_nil_2 _)) as (Hm2 & Hnw).
  destruct (for_matches NOWIKI_REGEX mask_all s1 []) as [s2 nw].
  cbn [fst snd] in *.
  destruct (for_matches_inv "[[" "]]" WIKILINK_REGEX mask_braces
              eq_refl eq_refl ltac:(simpl; lia) edged_WIKILINK
              (fun g _ => masked_mask_braces g) str s2 []
              Hm2 (Forall_nil_2 _)) as (Hm3 & Hwl).
  destruct (for_matches WIKILINK_REGEX mask_braces s2 []) as [s3 wl].
  cbn [fst snd] in *.
  destruct (get_spans_loop fuel s3 [] [] [] 0) as [[[[p pf] t] n]|] eqn:E;
    [|discriminate].
  cbn [mbind option_bind] in H. injection H as <- <-.
  destruct (get_spans_loop_inv str fuel s3 [] [] [] O p pf t n Hm3
              (Forall_nil_2 _) (Forall_nil_2 _) (Forall_nil_2 _) E)
    as (Hp & Hpf & Ht).
  exists p, pf, t, wl, c, nw.
  split; [reflexivity|].
  repeat split; try (now apply Forall_edged_delimited). exact Hc.
Qed.

Lemma get_spans_some (str : string) :
  exists spans passes,
    get_spans_fuel (S (count_braces str)) str = Some (spans, passes) /\
    _get_spans str = Some spans.
Proof.
  destruct (get_spans_fuel_enough str)
    as (p & pf & t & wl & c & nw & passes & Hrun & _).
  exists (table p pf t wl c nw), passes.
  unfold _get_spans. rewrite (Hrun (S (count_braces str))) by lia.
  split; reflexivity.
Qed.

(** The table that the tokenizer computes for a text: every span lies in
    the text, and there the text opens and closes with the delimiters of
    the category of the span: three braces for a parameter, two for a
    parser function and for a template, two brackets for a wikilink,
    [<!--] and [-->] for a comment, [<nowiki] and [>] for a nowiki tag.
    So a span of a parameter has six characters at least, and a span of a
    template four. *)
Theorem tokenizer_spans_are_delimited (str : string) :
  exists p pf t wl c nw,
    _get_spans str = Some (table p pf t wl c nw) /\
    Forall (delimited str "{{{" "}}}") p /\
    Forall (delimited str "{{" "}}") pf /\
    Forall (delimited str "{{" "}}") t /\
    Forall (delimited str "[[" "]]") wl /\
    Forall (delimited str "<!--" "-->") c /\
    Forall (delimited str "<nowiki" ">") nw.
Proof.
  destruct (get_spans_some str) as (spans & passes & Hrun & Hget).
  destruct (get_spans_fuel_delimited _ _ _ _ Hrun)
    as (p & pf & t & wl & c & nw & -> & Hp & Hpf & Ht & Hwl & Hc & Hnw & _).
  exists p, pf, t, wl, c, nw. repeat split; assumption.
Qed.

(** The comments are found first and in the text as it was given: the
    spans of the category [c] are the matches of COMMENT_REGEX in the
    text, in their order, whatever markup is around or inside them. *)
Theorem comment_spans_are_raw_matches (str : string) :
  exists spans,
    _get_spans str = Some spans /\
    spans !! "c" = Some (spans_of (finditer COMMENT_REGEX str)).
Proof.
  destruct (get_spans_some str) as (spans & passes & Hrun & Hget).
  destruct (get_spans_fuel_delimited _ _ _ _ Hrun)
    as (p & pf & t & wl & c & nw & -> & _ & _ & _ & _ & _ & _ & ->).
  eexists. split; [exact Hget|]. reflexivity.
Qed.

Lemma delimited_span_ok (str pre post : string) (sp : Z * Z) :
  delimited str pre post sp -> span_ok (Py.len str) sp.
Proof.
  intros (H1 & H2 & H3 & _). pose proof (len_nonneg pre). pose proof (len_nonneg post).
  unfold span_ok. lia.
Qed.

Lemma table_lookup (p pf t wl c nw : list (Z * Z)) (key : string)
    (l : list (Z * Z)) :
  table p pf t wl c nw !! key = Some l ->
  (key = "p" /\ l = p) \/ (key = "pf" /\ l = pf) \/ (key = "t" /\ l = t) \/
  (key = "wl" /\ l = wl) \/ (key = "c" /\ l = c) \/ (key = "nw" /\ l = nw).
Proof.
  unfold table. intros H.
  repeat (apply lookup_insert_Some in H as [(<- & <-)|(_ & H)]; [tauto|]).
  rewrite lookup_empty in H. discriminate.
Qed.

(** [WikiText(string)] returns, and the document it makes satisfies the
    invariant of the span table: its buffer is the text, its table has
    the six categories of the tokenizer and no other, and every span of
    it satisfies [0 <= start <= end <= len(buffer)]. *)
Theorem parsed_document_satisfies_invariant (str : string) :
  exists st,
    WikiText_init str = Py.Ok st /\
    _lststr st = str /\
    table_ok st /\
    dom (_spans st) = {["p"; "pf"; "t"; "wl"; "c"; "nw"]}.
Proof.
  destruct (get_spans_some str) as (spans & passes & Hrun & Hget).
  destruct (get_spans_fuel_delimited _ _ _ _ Hrun)
    as (p & pf & t & wl & c & nw & -> & Hp & Hpf & Ht & Hwl & Hc & Hnw & _).
  exists {| _lststr := str; _spans := table p pf t wl c nw |}.
  split; [unfold WikiText_init; now rewrite Hget|].
  split; [reflexivity|]. split.
  - intros key l Hl. cbn [_lststr _spans] in *.
    apply table_lookup in Hl
      as [(_ & ->)|[(_ & ->)|[(_ & ->)|[(_ & ->)|[(_ & ->)|(_ & ->)]]]]];
      (eapply Forall_impl; [eassumption|]);
      intros sp Hsp; eapply delimited_span_ok; exact Hsp.
  - cbn [_spans]. unfold table. rewrite !dom_insert_L, dom_empty_L.
    set_solver.
Qed.

(** ** The nodes of a parsed document *)

Lemma take_add (n m : nat) (s : string) :
  Py.take (n + m) s = Py.take n s +:+ Py.take m (Py.drop n s).
Proof.
  revert s. induction n as [|n IH]; intros s; [reflexivity|].
  destruct s as [|c s]; simpl; [now destruct m|].
  rewrite append_cons. f_equal. apply IH.
Qed.

(** [s[a:b] == s[a:m] + s[m:b]] for [0 <= a <= m <= b <= len(s)] *)
Lemma slice_split (s : string) (a m b : Z) :
  0 <= a -> a <= m -> m <= b -> b <= Py.len s ->
  Py.slice s a b = Py.slice s a m +:+ Py.slice s m b.
Proof.
  intros Ha Ham Hmb Hb. unfold Py.slice.
  rewrite !bound_in_range by lia.
  replace (Z.to_nat b - Z.to_nat a)%nat
    with ((Z.to_nat m - Z.to_nat a) + (Z.to_nat b - Z.to_nat m))%nat by lia.
  rewrite take_add, drop_drop. do 3 f_equal. lia.
Qed.

(** The text of a span is its opening, its body and its closing. *)
Lemma delimited_text (str pre post : string) (sp : Z * Z) :
  delimited str pre post sp ->
  Py.slice str sp.1 sp.2
  = pre +:+ Py.slice str (sp.1 + Py.len pre) (sp.2 - Py.len post) +:+ post.
Proof.
  intros (H1 & H2 & H3 & H4 & H5).
  pose proof (len_nonneg pre). pose proof (len_nonneg post).
  rewrite (slice_split str sp.1 (sp.1 + Py.len pre) sp.2) by lia.
  rewrite (slice_split str (sp.1 + Py.len pre) (sp.2 - Py.len post) sp.2) by lia.
  now rewrite H4, H5.
Qed.

Lemma filter_all {A} (P : A -> Prop) `{forall x, Decision (P x)} (l : list A) :
  Forall P l -> filter P l = l.
Proof.
  induction 1 as [|x l Hx Hl IH]; [reflexivity|].
  rewrite filter_cons_True by assumption. now rewrite IH.
Qed.

Lemma fst_enumerate {A} (l : list A) :
  fst <$> enumerate l = Z.of_nat <$> List.seq 0 (length l).
Proof. unfold enumerate. rewrite fmap_imap. apply (imap_seq_0 l Z.of_nat). Qed.

(** The document lists every span of a category whose spans lie in the
    buffer. *)
Lemma root_lists_all (st : State) (key : string) (l : list (Z * Z)) :
  _spans st !! key = Some l ->
  Forall (span_ok (Py.len (_lststr st))) l ->
  _gen_subspan_indices st root key = Py.Ok (Z.of_nat <$> List.seq 0 (length l)).
Proof.
  intros Hl Hok. unfold _gen_subspan_indices, _get_span, dict_getitem.
  cbn [root class span_key]. rewrite Hl.
  cbn [mbind result_bind Py.bind_flip Py.bind mret result_ret].
  f_equal. rewrite <- fst_enumerate. f_equal.
  apply filter_all. unfold enumerate.
  apply Forall_lookup. intros i [k sp] Hi.
  rewrite list_lookup_imap in Hi.
  destruct (l !! i) as [sp'|] eqn:E; [|discriminate]. injection Hi as <- <-.
  destruct (proj1 (Forall_lookup _ _) Hok _ _ E) as (H1 & H2 & H3).
  cbn [snd]. apply andb_true_iff. split; [apply Z.leb_le | apply Z.leb_le]; lia.
Qed.

(** The nodes that the document lists for a category of delimited spans:
    one for each span, each reading its delimiters around its body. *)
Lemma listed_nodes (st : State) (K : Class) (key pre post : string)
    (l : list (Z * Z)) :
  span_key K = Some key ->
  _spans st !! key = Some l ->
  Forall (delimited (_lststr st) pre post) l ->
  exists nodes,
    nodes_of K <$> _gen_subspan_indices st root key = Py.Ok nodes /\
    length nodes = length l /\
    Forall (fun n => exists body,
              string_ st n = Py.Ok (pre +:+ body +:+ post)) nodes.
Proof.
  intros HK Hl Hdel.
  assert (Hok : Forall (span_ok (Py.len (_lststr st))) l).
  { eapply Forall_impl; [exact Hdel|]. intros sp. apply delimited_span_ok. }
  rewrite (root_lists_all st key l Hl Hok).
  eexists. split; [reflexivity|]. split.
  - unfold nodes_of. now rewrite !length_fmap, List.length_seq.
  - unfold nodes_of. apply Forall_fmap, Forall_fmap, Forall_forall.
    intros i Hi. apply elem_of_seq in Hi as (_ & Hi). simpl in Hi.
    destruct (lookup_lt_is_Some_2 l i Hi) as (sp & Hsp).
    pose proof (proj1 (Forall_lookup _ _) Hdel _ _ Hsp) as Hd.
    exists (Py.slice (_lststr st) (sp.1 + Py.len pre) (sp.2 - Py.len post)).
    unfold string_, _get_span, dict_getitem. cbn [class _index].
    rewrite HK, Hl.
    cbn [mbind result_bind Py.bind_flip Py.bind mret result_ret].
    rewrite (list_getitem_of_nat _ _ _ Hsp). destruct sp as [a b].
    cbn [mbind result_bind Py.bind_flip Py.bind mret result_ret].
    f_equal. exact (delimited_text _ _ _ _ Hd).
Qed.

(** On the document that [WikiText(string)] makes, [parameters],
    [parser_functions], [templates], [wikilinks] and [comments] return one
    node for each span of their category, and the text of each node opens
    and closes with the delimiters of the category; the contents of a
    comment are the text between [<!--] and [-->]. *)
Theorem parsed_document_lists_its_nodes (str : string) :
  exists st ps pfs ts wls cs,
    WikiText_init str = Py.Ok st /\
    parameters st root = Py.Ok ps /\
    parser_functions st root = Py.Ok pfs /\
    templates st root = Py.Ok ts /\
    wikilinks st root = Py.Ok wls /\
    comments st root = Py.Ok cs /\
    length <$> _spans st !! "p" = Some (length ps) /\
    length <$> _spans st !! "pf" = Some (length pfs) /\
    length <$> _spans st !! "t" = Some (length ts) /\
    length <$> _spans st !! "wl" = Some (length wls) /\
    length <$> _spans st !! "c" = Some (length cs) /\
    Forall (fun n => exists body,
              string_ st n = Py.Ok ("{{{" +:+ body +:+ "}}}")) ps /\
    Forall (fun n => exists body,
              string_ st n = Py.Ok ("{{" +:+ body +:+ "}}")) pfs /\
    Forall (fun n => exists body,
              string_ st n = Py.Ok ("{{" +:+ body +:+ "}}")) ts /\
    Forall (fun n => exists body,
              string_ st n = Py.Ok ("[[" +:+ body +:+ "]]")) wls /\
    Forall (fun n => exists body,
              string_ st n = Py.Ok ("<!--" +:+ body +:+ "-->") /\
              Comment.contents st n = Py.Ok body) cs.
Proof.
  destruct (get_spans_some str) as (spans & passes & Hrun & Hget).
  destruct (get_spans_fuel_delimited _ _ _ _ Hrun)
    as (p & pf & t & wl & c & nw & -> & Hp & Hpf & Ht & Hwl & Hc & _).
  set (st := {| _lststr := str; _spans := table p pf t wl c nw |}).
  destruct (listed_nodes st KParameter "p" "{{{" "}}}" p eq_refl eq_refl Hp)
    as (ps & E1 & L1 & F1).
  destruct (listed_nodes st KParserFunction "pf" "{{" "}}" pf eq_refl eq_refl Hpf)
    as (pfs & E2 & L2 & F2).
  destruct (listed_nodes st KTemplate "t" "{{" "}}" t eq_refl eq_refl Ht)
    as (ts & E3 & L3 & F3).
  destruct (listed_nodes st KWikiLink "wl" "[[" "]]" wl eq_refl eq_refl Hwl)
    as (wls & E4 & L4 & F4).
  destruct (listed_nodes st KComment "c" "<!--" "-->" c eq_refl eq_refl Hc)
    as (cs & E5 & L5 & F5).
  exists st, ps, pfs, ts, wls, cs.
  split; [unfold WikiText_init; now rewrite Hget|].
  do 5 (split; [assumption|]).
  split; [cbn; now rewrite L1|]. split; [cbn; now rewrite L2|].
  split; [cbn; now rewrite L3|]. split; [cbn; now rewrite L4|].
  split; [cbn; now rewrite L5|].
  do 4 (split; [assumption|]).
  eapply Forall_impl; [exact F5|]. intros n (body & Hbody).
  exists body. split; [exact Hbody|].
  unfold Comment.contents. rewrite Hbody.
  cbn [mbind result_bind Py.bind_flip Py.bind mret result_ret]. f_equal.
  exact (slice_strip "<!--" body "-->" ltac:(reflexivity)).
Qed.

(** ** The splitter *)

Lemma find_nat_bounds (sub : string) (s : string) :
  forall i k, Py.find_nat sub i s = Some k ->
    (i <= k)%nat /\ (k <= String.length s)%nat.
Proof.
  induction s as [|c s IH]; intros i k H.
  - destruct i; cbn [Py.find_nat] in H; [|discriminate].
    destruct (Py.startswith "" sub); [|discriminate].
    injection H as <-. simpl. lia.
  - destruct i as [|i]; cbn [Py.find_nat] in H.
    + destruct (Py.startswith (String c s) sub).
      * injection H as <-. simpl. lia.
      * destruct (Py.find_nat sub 0 s) as [k'|] eqn:Ek; [|discriminate].
        injection H as <-. destruct (IH _ _ Ek). simpl. lia.
    + destruct (Py.find_nat sub i s) as [k'|] eqn:Ek; [|discriminate].
      injection H as <-. destruct (IH _ _ Ek). simpl. lia.
Qed.

(** [s.find(sub, start)] for a [start] that is not negative: [-1], or the
    position of an occurrence of [sub] at [start] or later. *)
Lemma find_spec (s sub : string) (start : Z) :
  0 <= start ->
  Py.find s sub start = -1 \/
  (start <= Py.find s sub start /\ Py.find s sub start <= Py.len s /\
   Py.startswith (Py.drop (Z.to_nat (Py.find s sub start)) s) sub = true).
Proof.
  intros Hstart. unfold Py.find.
  destruct (Z.ltb_spec start 0); [lia|].
  destruct (Py.find_nat sub (Z.to_nat start) s) as [k|] eqn:E; [|now left].
  right. destruct (find_nat_bounds _ _ _ _ E) as (H1 & H2).
  rewrite Nat2Z.id. unfold Py.len.
  repeat split; try lia. eapply find_nat_startswith; eauto.
Qed.

Lemma tiled_impl (good good' : Z -> Prop) (l : list (Z * Z)) :
  (forall b, good b -> good' b) ->
  forall start end_, tiled good start end_ l -> tiled good' start end_ l.
Proof.
  intros Himpl. induction l as [|sp rest IH]; intros start end_ H; [exact H|].
  cbn [tiled] in *. destruct H as (H1 & H2). split; [exact H1|].
  destruct rest as [|sp' rest']; [exact H2|].
  destruct H2 as (Hle & Hg & Ht).
  split; [exact Hle|]. split; [now apply Himpl|]. now apply IH.
Qed.

Section Splitter.

Variables (in_spans : Z -> bool) (str char : string) (spanstart spanend : Z).
Hypothesis Hbefore : in_spans (spanstart + -1) = false.

(** [char] occurs at [r] in [str]. *)
Let occ (r : Z) : Prop :=
  0 <= r /\ r <= Py.len str /\
  Py.startswith (Py.drop (Z.to_nat r) str) char = true.

Lemma skip_in_spans_minus (fuel : nat) :
  skip_in_spans fuel in_spans str char spanstart (-1) = Py.Ok (-1).
Proof. destruct fuel; cbn [skip_in_spans]; now rewrite Hbefore. Qed.

Lemma skip_in_spans_spec (fuel : nat) :
  forall index,
    index = -1 \/ occ index ->
    (0 <= index -> Py.len str + 1 - index <= Z.of_nat fuel) ->
    exists r,
      skip_in_spans fuel in_spans str char spanstart index = Py.Ok r /\
      (r = -1 \/ (occ r /\ index <= r /\ in_spans (spanstart + r) = false)).
Proof.
  pose proof skip_in_spans_minus as Hminus.
  induction fuel as [|fuel IH]; intros index Hindex Hfuel.
  - cbn [skip_in_spans].
    destruct (in_spans (spanstart + index)) eqn:E.
    + destruct Hindex as [->|(H0 & H1 & _)]; [congruence|].
      specialize (Hfuel H0). simpl in Hfuel. lia.
    + exists index. split; [reflexivity|].
      destruct Hindex as [->|H]; [now left|].
      right. split; [exact H|]. split; [lia | exact E].
  - cbn [skip_in_spans].
    destruct (in_spans (spanstart + index)) eqn:E.
    + destruct Hindex as [->|(H0 & H1 & H2)]; [congruence|].
      specialize (Hfuel H0).
      destruct (find_spec str char (index + 1) ltac:(lia)) as [Hf|(F1 & F2 & F3)].
      * rewrite Hf, Hminus. exists (-1). split; [reflexivity | now left].
      * destruct (IH (Py.find str char (index + 1))) as (r & Hr & Hcase).
        { right. repeat split; [lia | exact F2 | exact F3]. }
        { intros _. lia. }
        exists r. split; [exact Hr|].
        destruct Hcase as [->|(Ho & Hle & Hin)]; [now left|].
        right. split; [exact Ho|]. split; [lia | exact Hin].
    + exists index. split; [reflexivity|].
      destruct Hindex as [->|H]; [now left|].
      right. split; [exact H|]. split; [lia | exact E].
Qed.

Lemma splitspans_loop_spec (fuel : nat) :
  forall findstart results,
    0 <= findstart -> findstart <= Py.len str + 1 ->
    Py.len str + 2 - findstart <= Z.of_nat fuel ->
    exists out,
      splitspans_loop fuel in_spans str char spanstart spanend findstart results
      = Py.Ok (results ++ out) /\
      tiled (fun b => occ (b - spanstart) /\ in_spans b = false)
        (spanstart + findstart) spanend out.
Proof.
  induction fuel as [|fuel IH]; intros findstart results Hstart Hmax Hfuel.
  - exfalso. simpl in Hfuel. lia.
  - cbn [splitspans_loop].
    assert (Hskip : exists r,
              skip_in_spans (S (String.length str)) in_spans str char spanstart
                (Py.find str char findstart) = Py.Ok r /\
              (r = -1 \/
               (occ r /\ findstart <= r /\ in_spans (spanstart + r) = false))).
    { destruct (find_spec str char findstart Hstart) as [Hf|(F1 & F2 & F3)].
      - rewrite Hf, skip_in_spans_minus. exists (-1). split; [reflexivity|now left].
      - destruct (skip_in_spans_spec (S (String.length str))
                    (Py.find str char findstart)) as (r & Hr & Hcase).
        { right. repeat split; [lia | exact F2 | exact F3]. }
        { intros H0. unfold Py.len. lia. }
        exists r. split; [exact Hr|].
        destruct Hcase as [->|(Ho & Hle & Hin)]; [now left|].
        right. split; [exact Ho|]. split; [lia | exact Hin]. }
    destruct Hskip as (r & Hr & Hcase).
    rewrite Hr. cbn [mbind result_bind Py.bind_flip Py.bind mret result_ret].
    destruct Hcase as [->|(Ho & Hle & Hin)].
    + cbn [Z.eqb]. exists [(spanstart + findstart, spanend)].
      split; [reflexivity|]. cbn [tiled fst snd]. split; reflexivity.
    + assert (Hr0 : 0 <= r) by apply Ho.
      destruct (Z.eqb_spec r (-1)) as [|_]; [lia|].
      assert (Hfs : findstart <= r) by exact Hle.
      destruct (IH (r + 1)
                  (results ++ [(spanstart + findstart, spanstart + r)]))
        as (out & Hout & Htiled).
      { lia. }
      { destruct Ho as (_ & Hlen & _). lia. }
      { destruct Ho as (_ & Hlen & _). lia. }
      exists ((spanstart + findstart, spanstart + r) :: out).
      split; [rewrite Hout, <- app_assoc; reflexivity|].
      destruct out as [|sp out']; [contradiction|].
      cbn [tiled fst snd] in *. split; [reflexivity|].
      split; [lia|]. split.
      * split; [|exact Hin].
        replace (spanstart + r - spanstart) with r by lia. exact Ho.
      * replace (spanstart + r + 1) with (spanstart + (r + 1)) by lia.
        exact Htiled.
Qed.

End Splitter.

(** The spans that [_in_subspans_factory] collects are strictly inside
    the span of the node. *)
Lemma subspans_of_inside (spans : gmap string (list (Z * Z)))
    (selfstart selfend : Z) (keys : list string) :
  forall subspans,
    subspans_of spans selfstart selfend keys = Py.Ok subspans ->
    Forall (fun s => selfstart < s.1 /\ s.2 < selfend) subspans.
Proof.
  induction keys as [|key keys IH]; intros subspans H; cbn [subspans_of] in H.
  - injection H as <-. constructor.
  - apply bind_Ok in H as (l & _ & H). apply bind_Ok in H as (rest & Hrest & H).
    injection H as <-. apply Forall_app. split; [|now apply IH].
    apply Forall_forall. intros s Hs. now apply list_elem_of_filter in Hs as (Hs & _).
Qed.

Lemma in_spans_before (subspans : list (Z * Z)) (selfstart selfend : Z) :
  Forall (fun s => selfstart < s.1 /\ s.2 < selfend) subspans ->
  in_spans subspans (selfstart + -1) = false.
Proof.
  intros H. unfold in_spans. apply not_true_iff_false. intros E.
  apply existsb_exists in E as (s & Hin & Hs).
  apply andb_true_iff in Hs as (Hs & _). apply Z.leb_le in Hs.
  apply (proj1 (List.Forall_forall _ _) H) in Hin. lia.
Qed.

Lemma factory_before (st : State) (n : Node) (p e : Z) (f : Z -> bool) :
  _get_span st n = Py.Ok (p, e) -> _in_subspans_factory st n = Py.Ok f ->
  f (p + -1) = false.
Proof.
  intros Hsp H. unfold _in_subspans_factory in H. rewrite Hsp in H.
  cbn [mbind result_bind Py.bind_flip Py.bind] in H.
  change (Py.bind ?x ?g) with (x ≫= g) in H.
  apply bind_Ok in H as (subspans & Hsub & H). injection H as <-.
  eapply in_spans_before, subspans_of_inside, Hsub.
Qed.

Lemma drop_slice (s : string) (p e r : Z) :
  0 <= p -> p <= e -> e <= Py.len s -> 0 <= r -> r <= e - p ->
  Py.drop (Z.to_nat r) (Py.slice s p e) = Py.slice s (p + r) e.
Proof.
  intros Hp Hpe He Hr Hre. unfold Py.slice.
  rewrite !bound_in_range by lia.
  rewrite drop_take, drop_drop. f_equal; [lia | f_equal; lia].
Qed.

(** The spans that [_not_in_subspans_splitspans] returns tile the span
    of the node. *)
Lemma splitspans_tiled (st : State) (n : Node) (char : string) (p e : Z)
    (in_spans : Z -> bool) :
  _get_span st n = Py.Ok (p, e) ->
  0 <= p -> p <= e -> e <= Py.len (_lststr st) ->
  _in_subspans_factory st n = Py.Ok in_spans ->
  exists results,
    _not_in_subspans_splitspans st n char = Py.Ok results /\
    tiled (fun b => p <= b /\ b <= e /\
                    Py.startswith (Py.slice (_lststr st) b e) char = true /\
                    in_spans b = false)
      p e results.
Proof.
  intros Hsp Hp Hpe He Hf.
  pose proof (factory_before st n p e in_spans Hsp Hf) as Hbefore.
  unfold _not_in_subspans_splitspans. rewrite Hsp.
  cbn [mbind result_bind Py.bind_flip Py.bind]. rewrite Hf. cbn [Py.bind].
  set (str := Py.slice (_lststr st) p e).
  assert (Hlen : Py.len str = e - p) by (apply len_slice; lia).
  destruct (splitspans_loop_spec in_spans str char p e Hbefore
              (S (S (String.length str))) 0 [])
    as (out & Hout & Htiled); try (unfold Py.len in *; lia).
  exists out. split; [exact Hout|].
  rewrite Z.add_0_r in Htiled.
  eapply tiled_impl; [|exact Htiled].
  intros b ((H0 & H1 & H2) & Hin). rewrite Hlen in H1.
  split; [lia|]. split; [lia|]. split; [|exact Hin].
  unfold str in H2. rewrite drop_slice in H2 by lia.
  replace (p + (b - p)) with b in H2 by lia. exact H2.
Qed.

(** [_not_in_subspans_splitspans] returns, for every node whose span lies
    in the buffer and for every separator: its loops end.  The spans it
    returns follow one another from the start of the span of the node to
    its end; between two of them there is one position, where the
    separator occurs in the text of the node, outside of the spans that
    lie strictly inside the node. *)
Theorem splitspans_tiles (st : State) (n : Node) (char : string) (p e : Z)
    (in_spans : Z -> bool) :
  _get_span st n = Py.Ok (p, e) ->
  0 <= p -> p <= e -> e <= Py.len (_lststr st) ->
  _in_subspans_factory st n = Py.Ok in_spans ->
  exists results,
    _not_in_subspans_splitspans st n char = Py.Ok results /\
    tiled (fun b => p <= b /\ b <= e /\
                    Py.startswith (Py.slice (_lststr st) b e) char = true /\
                    in_spans b = false)
      p e results.
Proof.
  intros Hsp Hp Hpe He Hf.
  pose proof (factory_before st n p e in_spans Hsp Hf) as Hbefore.
  unfold _not_in_subspans_splitspans. rewrite Hsp.
  cbn [mbind result_bind Py.bind_flip Py.bind]. rewrite Hf. cbn [Py.bind].
  set (str := Py.slice (_lststr st) p e).
  assert (Hlen : Py.len str = e - p) by (apply len_slice; lia).
  destruct (splitspans_loop_spec in_spans str char p e Hbefore
              (S (S (String.length str))) 0 [])
    as (out & Hout & Htiled); try (unfold Py.len in *; lia).
  exists out. split; [exact Hout|].
  rewrite Z.add_0_r in Htiled.
  eapply tiled_impl; [|exact Htiled].
  intros b ((H0 & H1 & H2) & Hin). rewrite Hlen in H1.
  split; [lia|]. split; [lia|]. split; [|exact Hin].
  unfold str in H2. rewrite drop_slice in H2 by lia.
  replace (p + (b - p)) with b in H2 by lia. exact H2.
Qed.

Lemma splitspans_tiles_witness :
  exists results,
    _not_in_subspans_splitspans example_5 (template 0) "|" = Py.Ok results /\
    tiled (fun b => 0 <= b /\ b <= 7 /\
                    Py.startswith (Py.slice (_lststr example_5) b 7) "|" = true /\
                    in_spans [] b = false)
      0 7 results.
Proof.
  apply (splitspans_tiles example_5 (template 0) "|" 0 7 (in_spans [])).
  - reflexivity.
  - lia.
  - lia.
  - vm_compute. discriminate.
  - reflexivity.
Defined.

(** ** The arguments of a template *)

Lemma add_span_prefix (l : list (Z * Z)) (sp : Z * Z) :
  l `prefix_of` (add_span l sp).1.
Proof.
  unfold add_span. cbn [fst]. destruct (Py.contains sp l).
  - reflexivity.
  - now apply prefix_app_r.
Qed.

(** [add_arguments] only appends to the spans, and each node it makes
    addresses the span of its bar split, moved to the bar. *)
Lemma add_arguments_spec (typeindex : string) (barsplits : list (Z * Z)) :
  forall aspans arguments,
    aspans `prefix_of` (add_arguments typeindex barsplits aspans arguments).1 /\
    exists new,
      (add_arguments typeindex barsplits aspans arguments).2 = arguments ++ new /\
      Forall2 (fun a b =>
                 class a = KArgument typeindex /\
                 exists i, _index a = Z.of_nat i /\
                   (add_arguments typeindex barsplits aspans arguments).1 !! i
                   = Some (b.1 + -1, b.2))
        new barsplits.
Proof.
  induction barsplits as [|b bs IH]; intros aspans arguments; cbn [add_arguments].
  - split; [reflexivity|]. exists []. rewrite app_nil_r. split; [reflexivity|].
    constructor.
  - destruct (add_span_lookup aspans (b.1 + -1, b.2)) as (i & Hi & Hl).
    pose proof (add_span_prefix aspans (b.1 + -1, b.2)) as Hpre.
    destruct (add_span aspans (b.1 + -1, b.2)) as [aspans1 idx].
    cbn [fst snd] in *. subst idx.
    destruct (IH aspans1
                (arguments ++ [{| class := KArgument typeindex;
                                  _index := Z.of_nat i |}]))
      as (Hpre' & new & Hargs & Hnew).
    split; [etransitivity; eassumption|].
    exists ({| class := KArgument typeindex; _index := Z.of_nat i |} :: new).
    split; [rewrite Hargs, <- app_assoc; reflexivity|].
    constructor; [|exact Hnew].
    split; [reflexivity|]. exists i. split; [reflexivity|].
    eapply prefix_lookup_Some; eassumption.
Qed.

Lemma cut_last_singleton (x : Z * Z) : cut_last [x] = [(x.1, x.2 - 2)].
Proof. reflexivity. Qed.

Lemma cut_last_cons (x y : Z * Z) (l : list (Z * Z)) :
  cut_last (x :: y :: l) = x :: cut_last (y :: l).
Proof.
  unfold cut_last. rewrite (reverse_cons (y :: l) x).
  destruct (reverse (y :: l)) as [|z before] eqn:E.
  - apply (f_equal length) in E. rewrite length_reverse in E. discriminate.
  - cbn [app]. rewrite !reverse_cons, reverse_app. reflexivity.
Qed.

(** A bar of a text that closes with two braces is before them. *)
Lemma bar_before_closing (buf : string) (p e b : Z) :
  delimited buf "{{" "}}" (p, e) ->
  p <= b -> b <= e -> Py.startswith (Py.slice buf b e) "|" = true ->
  b + 3 <= e.
Proof.
  intros (H1 & H2 & H3 & _ & H5) Hpb Hbe Hbar. cbn [fst snd] in *.
  change (Py.len "{{") with 2 in *. change (Py.len "}}") with 2 in *.
  destruct (Z.le_gt_cases (b + 3) e) as [|Hgt]; [assumption|exfalso].
  assert (Hdrop : Py.slice buf b e
                  = Py.drop (Z.to_nat (b - (e - 2))) (Py.slice buf (e - 2) e)).
  { rewrite drop_slice by lia. f_equal. lia. }
  rewrite H5 in Hdrop. rewrite Hdrop in Hbar.
  assert (Hr : b - (e - 2) = 0 \/ b - (e - 2) = 1 \/ b - (e - 2) = 2) by lia.
  destruct Hr as [Hr|[Hr|Hr]]; rewrite Hr in Hbar; discriminate.
Qed.

(** The text from a bar on starts with the bar. *)
Lemma text_from_bar (buf : string) (b next e : Z) :
  0 <= b -> b < next -> next <= e -> e <= Py.len buf ->
  Py.startswith (Py.slice buf b e) "|" = true ->
  Py.startswith (Py.slice buf b next) "|" = true.
Proof.
  intros H0 H1 H2 H3 Hbar.
  rewrite (slice_split buf b next e) in Hbar by lia.
  pose proof (len_slice buf b next H0 ltac:(lia) ltac:(lia)) as Hlen.
  destruct (Py.slice buf b next) as [|c r].
  - unfold Py.len in Hlen. simpl in Hlen. lia.
  - rewrite append_cons in Hbar. apply startswith_cons in Hbar as (s' & [= <- _] & _).
    apply startswith_cons. eauto using startswith_nil.
Qed.

Section ArgumentSpans.

Variables (buf : string) (p e : Z) (good : Z -> Prop).
Hypothesis Hp : 0 <= p.
Hypothesis He : e <= Py.len buf.
Hypothesis Hgood : forall b, good b ->
  p <= b /\ b + 3 <= e /\ Py.startswith (Py.slice buf b e) "|" = true.

(** The spans of the arguments, from the spans between the bars that
    follow the span of the name: they follow one another from the first
    bar to the closing braces, and the text of each starts with its bar. *)
Lemma argument_spans (rest : list (Z * Z)) :
  forall sp start,
    tiled good start e (sp :: rest) -> rest <> [] -> p <= start ->
    let spans := (fun b => (b.1 + -1, b.2)) <$> cut_last rest in
    Forall (fun a => Py.startswith (Py.slice buf a.1 a.2) "|" = true) spans /\
    fold_right String.append "" ((fun a => Py.slice buf a.1 a.2) <$> spans)
    = Py.slice buf sp.2 (e - 2) /\
    start <= sp.2 /\ sp.2 + 3 <= e.
Proof.
  induction rest as [|y rest IH]; intros sp start Ht Hne Hstart; [congruence|].
  cbn [tiled] in Ht. destruct Ht as (Hs1 & Hle & Hg & Ht).
  destruct (Hgood _ Hg) as (G1 & G2 & G3).
  destruct rest as [|z rest].
  - cbn [tiled] in Ht. destruct Ht as (Hy1 & Hy2).
    rewrite cut_last_singleton. cbn [fmap list_fmap fold_right fst snd].
    rewrite Hy1, Hy2. replace (sp.2 + 1 + -1) with sp.2 by lia.
    split; [|split; [apply append_empty_r | lia]].
    constructor; [|constructor].
    apply (text_from_bar buf sp.2 (e - 2) e); try lia. exact G3.
  - destruct (IH y (sp.2 + 1) Ht ltac:(discriminate) ltac:(lia))
      as (Hall & Hcat & Hy & Hy3).
    assert (Hy1 : y.1 = sp.2 + 1) by (cbn [tiled] in Ht; apply Ht).
    rewrite cut_last_cons. cbn [fmap list_fmap fold_right fst snd].
    cbn [fmap list_fmap] in Hall, Hcat.
    rewrite Hy1. replace (sp.2 + 1 + -1) with sp.2 by lia.
    split; [|split; [|lia]].
    + constructor; [|exact Hall].
      apply (text_from_bar buf sp.2 y.2 e); try lia. exact G3.
    + rewrite Hcat. symmetry. apply slice_split; lia.
Qed.

End ArgumentSpans.

Lemma Forall2_and_r {A B} (P : A -> B -> Prop) (Q : B -> Prop)
    (l : list A) (k : list B) :
  Forall2 P l k -> Forall Q k -> Forall2 (fun a b => P a b /\ Q b) l k.
Proof.
  induction 1 as [|a b l k Hab Hlk IH]; intros HQ; [constructor|].
  apply Forall_cons in HQ as (Hb & HQ). constructor; auto.
Qed.

Lemma setdefault_lookup (spans : gmap string (list (Z * Z))) (key : string) :
  exists l, setdefault_empty spans key !! key = Some l.
Proof.
  unfold setdefault_empty. destruct (spans !! key) as [l|] eqn:E.
  - eauto.
  - rewrite lookup_insert_eq. eauto.
Qed.

(** [template.arguments] on a template whose text opens and closes with
    two braces: every argument it returns reads a text that starts with
    a bar, and the texts of the arguments, one after the other, are the
    text of the template from its first bar outside of the spans within
    it to its closing braces.  The buffer is not changed. *)
Theorem template_arguments_tile (st : State) (n : Node) (p e : Z)
    (in_spans : Z -> bool) :
  _get_span st n = Py.Ok (p, e) ->
  delimited (_lststr st) "{{" "}}" (p, e) ->
  _in_subspans_factory st n = Py.Ok in_spans ->
  exists arguments st' texts head,
    Template.arguments st n = Py.Ok (arguments, st') /\
    _lststr st' = _lststr st /\
    Forall2 (fun a text => string_ st' a = Py.Ok text /\
                           Py.startswith text "|" = true) arguments texts /\
    string_ st n
    = Py.Ok (head +:+ fold_right String.append "" texts +:+ "}}").
Proof.
  intros Hsp Hdel Hf.
  pose proof Hdel as (H1 & H2 & H3 & H4 & H5). cbn [fst snd] in H1, H2, H3, H4, H5.
  change (Py.len "{{") with 2 in *. change (Py.len "}}") with 2 in *.
  destruct (splitspans_tiled st n "|" p e in_spans Hsp H1 ltac:(lia) H3 Hf)
    as (splits & Hsplits & Htiled).
  destruct splits as [|sp rest]; [contradiction|].
  unfold Template.arguments. rewrite Hsplits.
  cbn [mbind result_bind Py.bind_flip Py.bind mret result_ret List.tl].
  set (typeindex := "ta" +:+ Py.str_of_int (_index n)).
  destruct (setdefault_lookup (_spans st) typeindex) as (aspans & Haspans).
  unfold dict_getitem. rewrite Haspans.
  cbn [mbind result_bind Py.bind_flip Py.bind mret result_ret].
  pose proof (string_of_span st n p e Hsp) as Hs. rewrite Hs.
  destruct rest as [|y rest].
  - exists [], {| _lststr := _lststr st;
                  _spans := setdefault_empty (_spans st) typeindex |}, [],
      (Py.slice (_lststr st) p (e - 2)).
    split; [reflexivity|]. split; [reflexivity|]. split; [constructor|].
    f_equal. cbn [fold_right]. rewrite <- H5.
    change ("" +:+ Py.slice (_lststr st) (e - 2) e)
      with (Py.slice (_lststr st) (e - 2) e).
    apply slice_split; lia.
  - set (bs := cut_last (y :: rest)).
    destruct (add_arguments_spec typeindex bs aspans [])
      as (_ & new & Hargs & Hnew).
    destruct (add_arguments typeindex bs aspans []) as [aspans' arguments] eqn:E.
    cbn [fst snd] in Hargs, Hnew. cbn [app] in Hargs. subst new.
    set (st' := {| _lststr := _lststr st;
                   _spans := <[typeindex := aspans']>
                               (setdefault_empty (_spans st) typeindex) |}).
    destruct (argument_spans (_lststr st) p e
                (fun b => p <= b /\ b <= e /\
                          Py.startswith (Py.slice (_lststr st) b e) "|" = true /\
                          in_spans b = false)
                H1 H3) with (rest := y :: rest) (sp := sp) (start := p)
      as (Hbars & Hcat & Hfirst & Hlast); try exact Htiled; try discriminate;
      try lia.
    { intros b (G1 & G2 & G3 & _). split; [exact G1|]. split; [|exact G3].
      eapply bar_before_closing; eauto. }
    fold bs in Hbars, Hcat.
    exists arguments, st',
      ((fun a => Py.slice (_lststr st) a.1 a.2)
         <$> ((fun b => (b.1 + -1, b.2)) <$> bs)),
      (Py.slice (_lststr st) p sp.2).
    split; [reflexivity|]. split; [reflexivity|]. split.
    + apply Forall2_fmap_r, Forall2_fmap_r.
      apply Forall_fmap in Hbars.
      eapply Forall2_impl; [exact (Forall2_and_r _ _ _ _ Hnew Hbars)|].
      intros a b ((Hclass & i & Hi & Hl) & Hbar). cbn [fst snd] in *.
      split; [|exact Hbar].
      unfold string_, _get_span. rewrite Hclass. cbn [span_key].
      unfold dict_getitem. cbn [st' _spans _lststr].
      rewrite lookup_insert_eq.
      cbn [mbind result_bind Py.bind_flip Py.bind mret result_ret].
      rewrite Hi, (list_getitem_of_nat _ _ _ Hl). reflexivity.
    + f_equal. rewrite Hcat, <- H5.
      rewrite <- (slice_split (_lststr st) sp.2 (e - 2) e) by lia.
      apply slice_split; lia.
Qed.

Lemma template_arguments_tile_witness :
  exists arguments st' texts head,
    Template.arguments example_5 (template 0) = Py.Ok (arguments, st') /\
    _lststr st' = _lststr example_5 /\
    Forall2 (fun a text => string_ st' a = Py.Ok text /\
                           Py.startswith text "|" = true) arguments texts /\
    string_ example_5 (template 0)
    = Py.Ok (head +:+ fold_right String.append "" texts +:+ "}}").
Proof.
  apply (template_arguments_tile example_5 (template 0) 0 7 (in_spans [])).
  - reflexivity.
  - repeat split; vm_compute; congruence.
  - reflexivity.
Defined.

(** ** Asking for the arguments again *)

Lemma list_index_app `{EqDecision A} (x : A) (l k : list A) :
  x ∈ l -> Py.list_index x (l ++ k) = Py.list_index x l.
Proof.
  induction l as [|y l IH]; intros Hin; [inversion Hin|].
  cbn [app Py.list_index]. destruct (decide (x = y)); [reflexivity|].
  apply elem_of_cons in Hin as [?|Hin]; [congruence|]. now rewrite IH.
Qed.

Lemma add_span_elem (l : list (Z * Z)) (sp : Z * Z) : sp ∈ (add_span l sp).1.
Proof.
  unfold add_span, Py.contains. cbn [fst]. case_bool_decide; [assumption|].
  apply elem_of_app. right. now apply list_elem_of_singleton.
Qed.

(** A span that is in a prefix of the list gets the index it has there,
    and the list is not changed. *)
Lemma add_span_stable (l L : list (Z * Z)) (sp : Z * Z) :
  (add_span l sp).1 `prefix_of` L ->
  add_span L sp = (L, (add_span l sp).2).
Proof.
  intros (k & ->). pose proof (add_span_elem l sp) as Hin.
  unfold add_span at 1. cbn [fst snd].
  assert (Hc : Py.contains sp ((add_span l sp).1 ++ k) = true).
  { unfold Py.contains. apply bool_decide_eq_true. apply elem_of_app. now left. }
  rewrite Hc. f_equal. rewrite list_index_app by exact Hin. reflexivity.
Qed.

Lemma add_arguments_stable (typeindex : string) (barsplits : list (Z * Z)) :
  forall aspans arguments L,
    (add_arguments typeindex barsplits aspans arguments).1 `prefix_of` L ->
    add_arguments typeindex barsplits L arguments
    = (L, (add_arguments typeindex barsplits aspans arguments).2).
Proof.
  induction barsplits as [|b bs IH]; intros aspans arguments L Hpre;
    cbn [add_arguments] in *; [reflexivity|].
  destruct (add_span aspans (b.1 + -1, b.2)) as [aspans1 i] eqn:E.
  assert (H1 : aspans1 `prefix_of` L).
  { etransitivity; [|exact Hpre].
    apply (add_arguments_spec typeindex bs aspans1). }
  pose proof (add_span_stable aspans L (b.1 + -1, b.2)) as Hs.
  rewrite E in Hs. cbn [fst snd] in Hs. rewrite (Hs H1).
  now apply IH.
Qed.

Lemma typeindex_fresh (x : string) :
  "ta" +:+ x ∉ ["t"; "p"; "pf"; "wl"; "c"; "nw"].
Proof.
  change ("ta" +:+ x) with (String "t" (String "a" x)).
  intros H. repeat (apply elem_of_cons in H as [[=]|H]). inversion H.
Qed.

Lemma subspans_of_ext (spans spans' : gmap string (list (Z * Z)))
    (a b : Z) (keys : list string) :
  (forall key, key ∈ keys -> spans' !! key = spans !! key) ->
  subspans_of spans' a b keys = subspans_of spans a b keys.
Proof.
  induction keys as [|key keys IH]; intros H; [reflexivity|].
  cbn [subspans_of]. unfold dict_getitem.
  rewrite (H key) by (now left).
  rewrite IH by (intros k Hk; apply H; now right). reflexivity.
Qed.

Lemma setdefault_lookup_ne (spans : gmap string (list (Z * Z)))
    (key key' : string) :
  key' <> key -> setdefault_empty spans key !! key' = spans !! key'.
Proof.
  intros Hne. unfold setdefault_empty.
  destruct (spans !! key); [reflexivity | now rewrite lookup_insert_ne].
Qed.

Lemma setdefault_present (spans : gmap string (list (Z * Z))) (key : string)
    (l : list (Z * Z)) :
  spans !! key = Some l -> setdefault_empty spans key = spans.
Proof. intros H. unfold setdefault_empty. now rewrite H. Qed.

(** The splitter reads the buffer, the span of the node and the six
    categories of the tokenizer. *)
Lemma splitspans_ext (st st' : State) (n : Node) (char : string) :
  _lststr st' = _lststr st ->
  _get_span st' n = _get_span st n ->
  (forall key, key ∈ ["t"; "p"; "pf"; "wl"; "c"; "nw"] ->
     _spans st' !! key = _spans st !! key) ->
  _not_in_subspans_splitspans st' n char = _not_in_subspans_splitspans st n char.
Proof.
  intros Hbuf Hsp Hkeys.
  unfold _not_in_subspans_splitspans, _in_subspans_factory.
  rewrite Hsp, Hbuf. destruct (_get_span st n) as [[p e]| |]; try reflexivity.
  cbn [mbind result_bind Py.bind_flip Py.bind].
  now rewrite (subspans_of_ext (_spans st) (_spans st') p e _ Hkeys).
Qed.

(** Asking a template for its arguments a second time changes nothing:
    the call returns the same nodes as the first, and leaves the buffer
    and the table as the first call left them. *)
Theorem template_arguments_idempotent (st st' : State) (n : Node)
    (arguments : list Node) :
  class n = KTemplate ->
  Template.arguments st n = Py.Ok (arguments, st') ->
  Template.arguments st' n = Py.Ok (arguments, st').
Proof.
  intros Hclass H. unfold Template.arguments in H.
  apply bind_Ok in H as (splits & Hsplits & H).
  set (typeindex := "ta" +:+ Py.str_of_int (_index n)) in *.
  apply bind_Ok in H as (aspans & Haspans & H).
  unfold dict_getitem in Haspans.
  destruct (setdefault_empty (_spans st) typeindex !! typeindex)
    as [aspans0|] eqn:Eas; [|discriminate].
  injection Haspans as ->.
  pose proof (typeindex_fresh (Py.str_of_int (_index n))) as Hfresh.
  fold typeindex in Hfresh.
  assert (Hne : forall key, key ∈ ["t"; "p"; "pf"; "wl"; "c"; "nw"] ->
                            key <> typeindex) by (intros key Hk ->; auto).
  assert (Hsame : forall spans',
    spans' !! typeindex = Some aspans ->
    (forall key, key <> typeindex -> spans' !! key = _spans st !! key) ->
    _not_in_subspans_splitspans {| _lststr := _lststr st; _spans := spans' |} n "|"
    = Py.Ok splits /\
    setdefault_empty spans' typeindex = spans').
  { intros spans' Hti Hother. split; [|now apply (setdefault_present _ _ aspans)].
    rewrite <- Hsplits. apply splitspans_ext; [reflexivity| |].
    - unfold _get_span. rewrite Hclass. cbn [span_key _spans].
      unfold dict_getitem. rewrite Hother; [reflexivity|].
      apply Hne. now left.
    - intros key Hk. cbn [_spans]. apply Hother. now apply Hne. }
  destruct (List.tl splits) as [|y rest] eqn:Etl.
  - injection H as <- <-.
    destruct (Hsame (setdefault_empty (_spans st) typeindex) Eas) as (Hs1 & Hs2).
    { intros key Hk. now apply setdefault_lookup_ne. }
    unfold Template.arguments. rewrite Hs1.
    cbn [mbind result_bind Py.bind_flip Py.bind mret result_ret _spans _lststr].
    fold typeindex. rewrite Hs2. unfold dict_getitem. rewrite Eas.
    rewrite Etl. reflexivity.
  - set (bs := cut_last (y :: rest)) in *.
    destruct (add_arguments typeindex bs aspans []) as [aspans' args] eqn:E.
    injection H as <- <-.
    set (spans' := <[typeindex := aspans']>
                     (setdefault_empty (_spans st) typeindex)).
    assert (Hti : spans' !! typeindex = Some aspans')
      by apply lookup_insert_eq.
    assert (Hs : _not_in_subspans_splitspans
                   {| _lststr := _lststr st; _spans := spans' |} n "|"
                 = Py.Ok splits /\
                 setdefault_empty spans' typeindex = spans').
    { split; [|now apply (setdefault_present _ _ aspans')].
      rewrite <- Hsplits. apply splitspans_ext; [reflexivity| |].
      - unfold _get_span. rewrite Hclass. cbn [span_key _spans].
        unfold dict_getitem, spans'.
        rewrite lookup_insert_ne by (apply not_eq_sym, Hne; now left).
        rewrite setdefault_lookup_ne by (apply Hne; now left). reflexivity.
      - intros key Hk. cbn [_spans]. unfold spans'.
        rewrite lookup_insert_ne by (apply not_eq_sym, Hne; exact Hk).
        now rewrite setdefault_lookup_ne by (apply Hne; exact Hk). }
    destruct Hs as (Hs1 & Hs2).
    unfold Template.arguments. rewrite Hs1.
    cbn [mbind result_bind Py.bind_flip Py.bind mret result_ret _spans _lststr].
    fold typeindex. rewrite Hs2. unfold dict_getitem. rewrite Hti.
    rewrite Etl. fold bs.
    cbn [mbind result_bind Py.bind_flip Py.bind mret result_ret].
    pose proof (add_arguments_stable typeindex bs aspans [] aspans') as Hst.
    rewrite E in Hst. cbn [fst snd] in Hst. rewrite Hst by reflexivity.
    cbn [mbind result_bind Py.bind_flip Py.bind mret result_ret].
    do 3 f_equal. unfold spans'. apply insert_insert_eq.
Qed.

Lemma template_arguments_idempotent_witness :
  Template.arguments example_5 (template 0)
  = Py.Ok ([argument "ta0" 0], example_5).
Proof.
  apply (template_arguments_idempotent
           {| _lststr := "{{a|1}}"; _spans := table [] [] [(0, 7)] [] [] [] |}
           example_5 (template 0) [argument "ta0" 0]).
  - reflexivity.
  - vm_compute. reflexivity.
Defined.

(** ** The first argument of a parser function *)

(** [parser_function.arguments] starts the first argument at the first
    colon of the text and ends it at the first bar outside the sub-spans.
    When that bar comes before the colon, the span it records for the
    first argument ends before it starts, and the table no longer keeps
    every span ordered within the buffer. *)
Theorem parser_function_bar_before_colon (st : State) (n : Node)
    (first second : Z * Z) (rest : list (Z * Z)) (s : string) :
  _not_in_subspans_splitspans st n "|" = Py.Ok (first :: second :: rest) ->
  string_ st n = Py.Ok s ->
  first.2 < first.1 + Py.find s ":" 0 ->
  exists a others st',
    ParserFunction.arguments st n = Py.Ok (a :: others, st') /\
    _get_span st' a = Py.Ok (first.1 + Py.find s ":" 0, first.2) /\
    ~ table_ok st'.
Proof.
  intros Hsplits Hs Hlt.
  pose proof Hs as Hspan. unfold string_ in Hspan.
  apply bind_Ok in Hspan as ([p e] & Hspan & _).
  unfold ParserFunction.arguments. rewrite Hsplits.
  cbn [mbind result_bind Py.bind_flip Py.bind mret result_ret].
  set (typeindex := "pfa" +:+ Py.str_of_int (_index n)).
  destruct (setdefault_lookup (_spans st) typeindex) as (l & Hl).
  unfold dict_getitem at 1. rewrite Hl, Hspan.
  cbn [mbind result_bind Py.bind_flip Py.bind mret result_ret].
  rewrite cut_last_cons, Hs.
  cbn [mbind result_bind Py.bind_flip Py.bind mret result_ret].
  set (aspan := (first.1 + Py.find s ":" 0, first.2)).
  destruct (add_span_lookup l aspan) as (i & Hi & Hli).
  destruct (add_span l aspan) as [aspans1 i'] eqn:E1. cbn [fst snd] in Hi, Hli.
  subst i'.
  set (a := {| class := KArgument typeindex; _index := Z.of_nat i |}).
  destruct (add_arguments_spec typeindex (cut_last (second :: rest)) aspans1 [a])
    as (Hpre & new & Hnew & _).
  destruct (add_arguments typeindex (cut_last (second :: rest)) aspans1 [a])
    as [aspans2 arguments] eqn:E2. cbn [fst snd] in Hpre, Hnew. subst arguments.
  assert (Hlook : aspans2 !! i = Some aspan).
  { destruct Hpre as (k & ->). now apply lookup_app_l_Some. }
  exists a, new. eexists. split; [reflexivity|]. split.
  - unfold _get_span, dict_getitem. cbn [a class span_key _spans _index].
    rewrite lookup_insert_eq.
    cbn [mbind result_bind Py.bind_flip Py.bind mret result_ret].
    exact (list_getitem_of_nat _ _ _ Hlook).
  - intros Hok.
    specialize (Hok typeindex aspans2 (lookup_insert_eq _ _ _)).
    pose proof (proj1 (Forall_lookup _ _) Hok _ _ Hlook) as (_ & Hle & _).
    unfold aspan in Hle. cbn [fst snd] in Hle. lia.
Qed.

Lemma parser_function_bar_before_colon_witness :
  exists a others st',
    ParserFunction.arguments bar_before_colon (parser_function 0)
    = Py.Ok (a :: others, st') /\
    _get_span st' a = Py.Ok (6, 4) /\ ~ table_ok st'.
Proof.
  apply (parser_function_bar_before_colon bar_before_colon (parser_function 0)
           (0, 4) (5, 10) [] "{{#a|b:c}}").
  - vm_compute. reflexivity.
  - vm_compute. reflexivity.
  - vm_compute. reflexivity.
Defined.

(** ** The header of a section *)

Lemma length_repeat_char (c : ascii) (k : nat) :
  String.length (Py.repeat_char c k) = k.
Proof. induction k as [|k IH]; simpl; [reflexivity | now rewrite IH]. Qed.

Lemma repeat_char_snoc (c : ascii) (k : nat) :
  Py.repeat_char c (S k) = Py.repeat_char c k +:+ String c "".
Proof.
  induction k as [|k IH]; [reflexivity|].
  cbn [Py.repeat_char] in *. rewrite append_cons. f_equal. exact IH.
Qed.

Lemma find_nat_char_repeat (c b : ascii) (k : nat) :
  c <> b -> Py.find_nat (String c "") 0 (Py.repeat_char b k) = None.
Proof.
  intros Hne. induction k as [|k IH]; [reflexivity|].
  cbn [Py.repeat_char]. rewrite find_nat_char_cons, IH.
  now destruct (Ascii.eqb_spec c b).
Qed.

(** A greedy quantifier takes the whole run of a character when what
    follows the run is not in its set and the rest of the pattern
    matches there. *)
Lemma rep_greedy_exact (lo : nat) (hi : option nat) (p : ascii -> bool)
    (c : ascii) (tail : string) (K : nat -> string -> outcome)
    (x : nat * captures) :
  p c = true ->
  match tail with String b _ => p b = false | EmptyString => True end ->
  forall k cnt i,
    (lo <= cnt + k)%nat ->
    match hi with Some h => (cnt + k <= h)%nat | None => True end ->
    K (i + k)%nat tail = Some x ->
    rep true lo hi p cnt i (Py.repeat_char c k +:+ tail) K = Some x.
Proof.
  intros Hc Htail. induction k as [|k IH]; intros cnt i Hlo Hhi HK.
  - change (Py.repeat_char c 0 +:+ tail) with tail.
    rewrite Nat.add_0_r in HK, Hlo.
    apply Nat.leb_le in Hlo.
    destruct tail as [|b t]; cbn [rep]; rewrite Hlo; [exact HK|].
    rewrite Htail, andb_false_r. exact HK.
  - cbn [Py.repeat_char]. rewrite append_cons. cbn [rep].
    assert (Hb : below cnt hi = true).
    { destruct hi as [h|]; [|reflexivity]. apply Nat.ltb_lt. lia. }
    rewrite Hb, Hc. cbn [andb].
    rewrite (IH (S cnt) (S i)); [reflexivity | lia | |].
    + destruct hi; [lia | exact I].
    + now rewrite Nat.add_succ_r in HK.
Qed.

(** A lazy quantifier stops at the first length at which the rest of the
    pattern matches. *)
Lemma rep_lazy_first (lo : nat) (p : ascii -> bool) (tail : string)
    (K : nat -> string -> outcome) (x : nat * captures) :
  forall pre cnt i,
    Forall (fun b => p b = true) (list_ascii_of_string pre) ->
    (lo <= cnt + String.length pre)%nat ->
    (forall m, (m < String.length pre)%nat -> (lo <= cnt + m)%nat ->
       K (i + m)%nat (Py.drop m pre +:+ tail) = None) ->
    K (i + String.length pre)%nat tail = Some x ->
    rep false lo None p cnt i (pre +:+ tail) K = Some x.
Proof.
  induction pre as [|a pre IH]; intros cnt i Hp Hlo Hnone HK.
  - change ("" +:+ tail) with tail. cbn [String.length] in *.
    rewrite Nat.add_0_r in HK, Hlo. apply Nat.leb_le in Hlo.
    destruct tail as [|b t]; cbn [rep]; rewrite Hlo; [exact HK|].
    rewrite HK. now destruct (below cnt None && p b).
  - rewrite append_cons. cbn [rep below].
    cbn [list_ascii_of_string] in Hp. apply Forall_cons in Hp as (Ha & Hp).
    rewrite Ha. cbn [andb].
    assert (Hstop : (if (lo <=? cnt)%nat
                     then K i (String a (pre +:+ tail)) else None) = None).
    { destruct (Nat.leb_spec lo cnt) as [Hle|]; [|reflexivity].
      specialize (Hnone O ltac:(simpl; lia) ltac:(lia)).
      now rewrite Nat.add_0_r in Hnone. }
    rewrite Hstop. apply IH; [exact Hp | simpl in Hlo; lia | |].
    + intros m Hm Hlom.
      specialize (Hnone (S m) ltac:(simpl; lia) ltac:(lia)).
      now rewrite Nat.add_succ_r in Hnone.
    + cbn [String.length] in HK. now rewrite Nat.add_succ_r in HK.
Qed.

Lemma lacks_Forall (c : ascii) (s : string) :
  Py.find_nat (String c "") 0 s = None ->
  Forall (fun b => b <> c) (list_ascii_of_string s).
Proof.
  induction s as [|b s IH]; intros H; [constructor|].
  rewrite find_nat_char_cons in H.
  destruct (Ascii.eqb_spec c b) as [|Hne]; [discriminate|].
  cbn [list_ascii_of_string]. constructor; [congruence|].
  apply IH. now destruct (Py.find_nat (String c "") 0 s).
Qed.

Lemma drop_first_char (m : nat) (s : string) :
  (m < String.length s)%nat ->
  exists b t, Py.drop m s = String b t /\ b ∈ list_ascii_of_string s.
Proof.
  revert m. induction s as [|a s IH]; intros m Hm; [simpl in Hm; lia|].
  destruct m as [|m].
  - exists a, s. split; [reflexivity|]. cbn. now left.
  - destruct (IH m ltac:(simpl in Hm; lia)) as (b & t & Hd & Hin).
    exists b, t. split; [exact Hd|]. cbn. now right.
Qed.

(** SECTION_LEVEL_TITLE on a header line of [k] equal signs on each side
    of a title that has neither an equal sign nor a line break. *)
Lemma level_title_run (subj title body : string) (k : nat) :
  (1 <= k <= 6)%nat ->
  title <> "" ->
  Py.find_nat "=" 0 title = None ->
  Py.find_nat (String newline "") 0 title = None ->
  Py.take k subj = Py.repeat_char "=" k ->
  exists j c,
    match_at subj SECTION_LEVEL_TITLE 0
      (Py.repeat_char "=" k +:+ title +:+ Py.repeat_char "=" k
       +:+ String newline body) = Some (j, c) /\
    group_span 1 c = Some (O, k).
Proof.
  intros Hk Hne Heq Hnl Hsubj.
  unfold match_at, SECTION_LEVEL_TITLE, plus_lazy, star.
  cbn [seq run Nat.eqb].
  pose proof (lacks_Forall _ _ Heq) as Feq.
  pose proof (lacks_Forall _ _ Hnl) as Fnl.
  assert (Hg : Py.take (k - 0) (Py.drop 0 subj) = Py.repeat_char "=" k).
  { rewrite Nat.sub_0_r. destruct subj; exact Hsubj. }
  assert (Hopen : forall t, Py.startswith (Py.repeat_char "=" k +:+ t)
                              (Py.repeat_char "=" k) = true).
  { intros t. clear. induction k as [|k IH]; [apply startswith_nil|].
    cbn [Py.repeat_char]. rewrite append_cons. cbn [Py.startswith].
    now rewrite IH. }
  eexists. eexists. split.
  - apply rep_greedy_exact with (k := k); [reflexivity | | lia | lia |].
    + destruct title as [|b t]; [congruence|]. rewrite append_cons.
      apply Forall_cons in Feq as (Hb & _).
      unfold is_. cbn [list_ascii_of_string existsb].
      rewrite orb_false_r. now apply Ascii.eqb_neq.
    + cbn [Nat.add].
      apply rep_lazy_first with (pre := title).
      * eapply Forall_impl; [exact Fnl|]. intros b Hb.
        unfold not_newline. apply negb_true_iff. now apply Ascii.eqb_neq.
      * destruct title; [congruence | simpl; lia].
      * intros m Hm _. cbn [run group_span Nat.eqb]. rewrite Hg.
        destruct (drop_first_char m title Hm) as (b & t & -> & Hin).
        pose proof (proj1 (Forall_forall _ _) Feq b Hin) as Hb.
        destruct k as [|k']; [lia|].
        cbn [Py.repeat_char]. rewrite append_cons. cbn [Py.startswith].
        destruct (Ascii.eqb_spec "=" b) as [E|_]; [congruence | reflexivity].
      * cbn [run group_span Nat.eqb]. rewrite Hg, Hopen.
        rewrite drop_app_length, length_repeat_char.
        cbn [rep Nat.leb below andb is_ list_ascii_of_string existsb
             Ascii.eqb Bool.eqb orb newline].
        cbn [run]. reflexivity.
  - cbn [group_span Nat.eqb]. reflexivity.
Qed.

Lemma rstrip_keeps (x : string) (c : ascii) :
  Py.isspace c = false -> Py.rstrip (x +:+ String c "") = x +:+ String c "".
Proof.
  intros H. induction x as [|a x IH].
  - simpl. now rewrite H.
  - rewrite append_cons. cbn [Py.rstrip]. rewrite IH. now destruct x.
Qed.

Lemma len_repeat_char (c : ascii) (k : nat) :
  Py.len (Py.repeat_char c k) = Z.of_nat k.
Proof. unfold Py.len. now rewrite length_repeat_char. Qed.

(** What the getters of a section read from a header line of [k] equal
    signs on each side of the title, followed by a line break and the
    body. *)
Lemma header_getters (st : State) (n : Node) (k : nat) (title body : string) :
  (1 <= k <= 6)%nat ->
  title <> "" ->
  Py.find_nat "=" 0 title = None ->
  Py.find_nat (String newline "") 0 title = None ->
  string_ st n = Py.Ok (Py.repeat_char "=" k +:+ title +:+ Py.repeat_char "=" k
                        +:+ String newline body) ->
  Section_.level st n = Py.Ok (Z.of_nat k) /\
  Section_.title st n = Py.Ok title /\
  Section_.contents st n = Py.Ok body.
Proof.
  intros Hk Hne Heq Hnl Hs.
  set (equals := Py.repeat_char "=" k) in *.
  set (text := equals +:+ title +:+ equals +:+ String newline body) in *.
  assert (Htake : Py.take k text = equals).
  { pose proof (take_app_length equals
                  (title +:+ equals +:+ String newline body)) as H.
    unfold equals in H at 1. now rewrite length_repeat_char in H. }
  assert (Hlevel : Section_.level st n = Py.Ok (Z.of_nat k)).
  { unfold Section_.level. read_node Hs. unfold match_.
    destruct (level_title_run text title body k Hk Hne Heq Hnl Htake)
      as (j & c & Hm & Hg).
    fold equals in Hm. fold text in Hm. rewrite Hm.
    unfold group_n, mk_match. cbn [groups subject]. rewrite Hg.
    rewrite Nat.sub_0_r. replace (Py.drop 0 text) with text by now destruct text.
    rewrite Htake. cbn [mret result_ret]. f_equal. apply len_repeat_char. }
  assert (Hline : Py.find_nat (String newline "") 0 (equals +:+ title +:+ equals)
                  = None).
  { assert (He : Py.find_nat (String newline "") 0 equals = None)
      by (apply find_nat_char_repeat; discriminate).
    repeat apply find_nat_char_app_lacks; assumption. }
  assert (Hpart : Py.partition text (String newline "")
                  = (equals +:+ title +:+ equals, String newline "", body)).
  { unfold text.
    replace (equals +:+ title +:+ equals +:+ String newline body)
      with ((equals +:+ title +:+ equals) +:+ String newline body)
      by now rewrite !append_assoc.
    now apply partition_char_app. }
  assert (Hz : (Z.of_nat k =? 0) = false) by (apply Z.eqb_neq; lia).
  split; [exact Hlevel|]. split.
  - unfold Section_.title. read_node Hlevel. rewrite Hz. read_node Hs.
    rewrite Hpart. cbn [fst]. f_equal.
    assert (Hr : Py.rstrip (equals +:+ title +:+ equals)
                 = equals +:+ title +:+ equals).
    { unfold equals at 2 4. destruct k as [|k']; [lia|].
      rewrite repeat_char_snoc, <- !append_assoc.
      now apply rstrip_keeps. }
    rewrite Hr.
    pose proof (slice_strip equals title equals) as H.
    unfold equals in H at 1 4 5. rewrite !len_repeat_char in H.
    apply H. lia.
  - unfold Section_.contents. read_node Hlevel. read_node Hs. rewrite Hz.
    now rewrite Hpart.
Qed.

(** After [section.title = newtitle] on a section that starts with a
    header line of [k] equal signs on each side of its title: the text is
    the header line of [newtitle] at the same level, a line break and the
    old contents, and [title], [level] and [contents] read [newtitle],
    [k] and the old contents.  Both titles are not empty and have neither
    an equal sign nor a line break. *)
Theorem section_title_round_trip (st : State) (n : Node) (k : nat)
    (title body newtitle : string) (p e : Z) :
  _get_span st n = Py.Ok (p, e) ->
  0 <= p -> p < e -> e <= Py.len (_lststr st) ->
  (1 <= k <= 6)%nat ->
  string_ st n = Py.Ok (Py.repeat_char "=" k +:+ title +:+ Py.repeat_char "=" k
                        +:+ String newline body) ->
  title <> "" -> Py.find_nat "=" 0 title = None ->
  Py.find_nat (String newline "") 0 title = None ->
  newtitle <> "" -> Py.find_nat "=" 0 newtitle = None ->
  Py.find_nat (String newline "") 0 newtitle = None ->
  exists st',
    Section_.set_title st n newtitle = Py.Ok st' /\
    string_ st' n = Py.Ok (Py.repeat_char "=" k +:+ newtitle
                           +:+ Py.repeat_char "=" k +:+ String newline body) /\
    Section_.title st' n = Py.Ok newtitle /\
    Section_.level st' n = Py.Ok (Z.of_nat k) /\
    Section_.contents st' n = Py.Ok body.
Proof.
  intros Hsp Hp Hpe He Hk Hs Hne Heq Hnl Hne' Heq' Hnl'.
  destruct (header_getters st n k title body Hk Hne Heq Hnl Hs)
    as (Hlevel & _ & Hcontents).
  destruct (set_string_then_string st n
              (Py.repeat_char "=" k +:+ newtitle +:+ Py.repeat_char "=" k
               +:+ String newline body) p e Hsp Hp Hpe He)
    as (st' & Hset & Hread).
  exists st'.
  destruct (header_getters st' n k newtitle body Hk Hne' Heq' Hnl' Hread)
    as (Hlevel' & Htitle' & Hcontents').
  split; [|auto].
  unfold Section_.set_title. read_node Hlevel.
  replace (Z.of_nat k =? 0) with false by (symmetry; apply Z.eqb_neq; lia).
  read_node Hcontents. rewrite Nat2Z.id. exact Hset.
Qed.

Lemma section_title_round_trip_witness :
  exists st',
    Section_.set_title titled_section (section 0) "New" = Py.Ok st' /\
    string_ st' (section 0) = Py.Ok ("==New==" +:+ String newline "body") /\
    Section_.title st' (section 0) = Py.Ok "New" /\
    Section_.level st' (section 0) = Py.Ok 2 /\
    Section_.contents st' (section 0) = Py.Ok "body".
Proof.
  apply (section_title_round_trip titled_section (section 0) 2
           " T " "body" "New" 0 12); try reflexivity; try lia;
    try discriminate.
Defined.

(** After [section.contents = newcontents] on such a section: the text is
    the old header line, a line break and [newcontents], and [contents],
    [title] and [level] read [newcontents], the old title and [k]. *)
Theorem section_contents_round_trip (st : State) (n : Node) (k : nat)
    (title body newcontents : string) (p e : Z) :
  _get_span st n = Py.Ok (p, e) ->
  0 <= p -> p < e -> e <= Py.len (_lststr st) ->
  (1 <= k <= 6)%nat ->
  string_ st n = Py.Ok (Py.repeat_char "=" k +:+ title +:+ Py.repeat_char "=" k
                        +:+ String newline body) ->
  title <> "" -> Py.find_nat "=" 0 title = None ->
  Py.find_nat (String newline "") 0 title = None ->
  exists st',
    Section_.set_contents st n newcontents = Py.Ok st' /\
    string_ st' n = Py.Ok (Py.repeat_char "=" k +:+ title
                           +:+ Py.repeat_char "=" k
                           +:+ String newline newcontents) /\
    Section_.contents st' n = Py.Ok newcontents /\
    Section_.title st' n = Py.Ok title /\
    Section_.level st' n = Py.Ok (Z.of_nat k).
Proof.
  intros Hsp Hp Hpe He Hk Hs Hne Heq Hnl.
  destruct (header_getters st n k title body Hk Hne Heq Hnl Hs)
    as (Hlevel & _ & _).
  destruct (set_string_then_string st n
              (Py.repeat_char "=" k +:+ title +:+ Py.repeat_char "=" k
               +:+ String newline newcontents) p e Hsp Hp Hpe He)
    as (st' & Hset & Hread).
  exists st'.
  destruct (header_getters st' n k title newcontents Hk Hne Heq Hnl Hread)
    as (Hlevel' & Htitle' & Hcontents').
  split; [|auto].
  unfold Section_.set_contents. read_node Hlevel.
  replace (Z.of_nat k =? 0) with false by (symmetry; apply Z.eqb_neq; lia).
  read_node Hs.
  assert (Hline : Py.find_nat (String newline "") 0
                    (Py.repeat_char "=" k +:+ title +:+ Py.repeat_char "=" k)
                  = None).
  { assert (H : Py.find_nat (String newline "") 0 (Py.repeat_char "=" k) = None)
      by (apply find_nat_char_repeat; discriminate).
    repeat apply find_nat_char_app_lacks; assumption. }
  replace (Py.repeat_char "=" k +:+ title +:+ Py.repeat_char "=" k
           +:+ String newline body)
    with ((Py.repeat_char "=" k +:+ title +:+ Py.repeat_char "=" k)
          +:+ String newline body) by now rewrite !append_assoc.
  rewrite (partition_char_app _ _ body Hline). cbn [fst].
  rewrite <- Hset. f_equal. now rewrite !append_assoc.
Qed.

Lemma section_contents_round_trip_witness :
  exists st',
    Section_.set_contents titled_section (section 0) "xx" = Py.Ok st' /\
    string_ st' (section 0) = Py.Ok ("== T ==" +:+ String newline "xx") /\
    Section_.contents st' (section 0) = Py.Ok "xx" /\
    Section_.title st' (section 0) = Py.Ok " T " /\
    Section_.level st' (section 0) = Py.Ok 2.
Proof.
  apply (section_contents_round_trip titled_section (section 0) 2
           " T " "body" "xx" 0 12); try reflexivity; try lia;
    try discriminate.
Defined.

(** [section.level = newlevel] on such a section writes the title between
    [newlevel] equal signs on each side and then the old contents, with
    no line break between the header and the contents. *)
Theorem section_level_setter_drops_line_break (st : State) (n : Node) (k : nat)
    (title body : string) (newlevel : Z) (p e : Z) :
  _get_span st n = Py.Ok (p, e) ->
  0 <= p -> p < e -> e <= Py.len (_lststr st) ->
  (1 <= k <= 6)%nat ->
  string_ st n = Py.Ok (Py.repeat_char "=" k +:+ title +:+ Py.repeat_char "=" k
                        +:+ String newline body) ->
  title <> "" -> Py.find_nat "=" 0 title = None ->
  Py.find_nat (String newline "") 0 title = None ->
  exists st',
    Section_.set_level st n newlevel = Py.Ok st' /\
    string_ st' n
    = Py.Ok (Py.repeat_char "=" (Z.to_nat newlevel) +:+ title
             +:+ Py.repeat_char "=" (Z.to_nat newlevel) +:+ body).
Proof.
  intros Hsp Hp Hpe He Hk Hs Hne Heq Hnl.
  destruct (header_getters st n k title body Hk Hne Heq Hnl Hs)
    as (_ & Htitle & Hcontents).
  destruct (set_string_then_string st n
              (Py.repeat_char "=" (Z.to_nat newlevel) +:+ title
               +:+ Py.repeat_char "=" (Z.to_nat newlevel) +:+ body)
              p e Hsp Hp Hpe He)
    as (st' & Hset & Hread).
  exists st'. split; [|exact Hread].
  unfold Section_.set_level. read_node Htitle. read_node Hcontents.
  exact Hset.
Qed.

Lemma section_level_setter_drops_line_break_witness :
  exists st',
    Section_.set_level titled_section (section 0) 3 = Py.Ok st' /\
    string_ st' (section 0) = Py.Ok "=== T ===body".
Proof.
  apply (section_level_setter_drops_line_break titled_section (section 0) 2
           " T " "body" 3 0 12); try reflexivity; try lia;
    try discriminate.
Defined.

(** ** Lead sections *)

Lemma level_title_none (s : string) :
  Py.startswith s "=" = false -> match_ SECTION_LEVEL_TITLE s = None.
Proof.
  intros H. rewrite startswith_char in H.
  unfold match_, match_at, SECTION_LEVEL_TITLE.
  cbn [seq run Nat.eqb].
  destruct s as [|b t]; cbn [rep Nat.leb]; [reflexivity|].
  assert (Hb : is_ "=" b = false).
  { unfold is_. cbn [list_ascii_of_string existsb]. rewrite orb_false_r.
    rewrite Ascii.eqb_sym. exact H. }
  now rewrite Hb, andb_false_r.
Qed.

(** A section whose text does not start with an equal sign is a lead
    section: its level is 0, its title is empty, its contents are its
    whole text, setting its title raises [RuntimeError], setting its
    contents replaces its whole text, and setting its level to
    [newlevel] puts twice [newlevel] equal signs before its text. *)
Theorem lead_section_behaviour (st : State) (n : Node) (s : string) :
  string_ st n = Py.Ok s ->
  Py.startswith s "=" = false ->
  Section_.level st n = Py.Ok 0 /\
  Section_.title st n = Py.Ok "" /\
  Section_.contents st n = Py.Ok s /\
  (forall newtitle,
     Section_.set_title st n newtitle = Py.Raise Py.RuntimeError) /\
  (forall newcontents,
     Section_.set_contents st n newcontents = set_string st n newcontents) /\
  (forall newlevel,
     Section_.set_level st n newlevel
     = set_string st n (Py.repeat_char "=" (Z.to_nat newlevel)
                        +:+ Py.repeat_char "=" (Z.to_nat newlevel) +:+ s)).
Proof.
  intros Hs Hstart.
  assert (Hlevel : Section_.level st n = Py.Ok 0).
  { unfold Section_.level. read_node Hs.
    now rewrite (level_title_none s Hstart). }
  assert (Htitle : Section_.title st n = Py.Ok "").
  { unfold Section_.title. now read_node Hlevel. }
  assert (Hcontents : Section_.contents st n = Py.Ok s).
  { unfold Section_.contents. read_node Hlevel. now read_node Hs. }
  split; [exact Hlevel|]. split; [exact Htitle|]. split; [exact Hcontents|].
  split; [|split].
  - intros newtitle. unfold Section_.set_title. now read_node Hlevel.
  - intros newcontents. unfold Section_.set_contents. now read_node Hlevel.
  - intros newlevel. unfold Section_.set_level. read_node Htitle.
    now read_node Hcontents.
Qed.

Lemma lead_section_behaviour_witness :
  Section_.level lead_only (section 0) = Py.Ok 0 /\
  Section_.title lead_only (section 0) = Py.Ok "" /\
  Section_.contents lead_only (section 0) = Py.Ok "lead" /\
  (forall newtitle,
     Section_.set_title lead_only (section 0) newtitle
     = Py.Raise Py.RuntimeError) /\
  (forall newcontents,
     Section_.set_contents lead_only (section 0) newcontents
     = set_string lead_only (section 0) newcontents) /\
  (forall newlevel,
     Section_.set_level lead_only (section 0) newlevel
     = set_string lead_only (section 0)
         (Py.repeat_char "=" (Z.to_nat newlevel)
          +:+ Py.repeat_char "=" (Z.to_nat newlevel) +:+ "lead")).
Proof.
  apply (lead_section_behaviour lead_only (section 0) "lead"); reflexivity.
Defined.

(** ** Splitting into texts and into spans *)

(** [s[p:e][a:b] == s[p+a:p+b]] for [0 <= a <= b <= e - p] *)
Lemma slice_slice (s : string) (p e a b : Z) :
  0 <= p -> p <= e -> e <= Py.len s -> 0 <= a -> a <= b -> b <= e - p ->
  Py.slice (Py.slice s p e) a b = Py.slice s (p + a) (p + b).
Proof.
  intros Hp Hpe He Ha Hab Hb.
  pose proof (len_slice s p e Hp Hpe He) as Hlen.
  unfold Py.slice at 1. rewrite !bound_in_range by lia.
  rewrite drop_slice by lia.
  rewrite (slice_split s (p + a) (p + b) e) by lia.
  pose proof (len_slice s (p + a) (p + b) ltac:(lia) ltac:(lia) ltac:(lia)) as H.
  replace (Z.to_nat b - Z.to_nat a)%nat
    with (String.length (Py.slice s (p + a) (p + b)))
    by (unfold Py.len in H; lia).
  apply take_app_length.
Qed.

(** [s[p:e][a:] == s[p+a:e]] for [0 <= a <= e - p + 1] *)
Lemma slice_from_slice (s : string) (p e a : Z) :
  0 <= p -> p <= e -> e <= Py.len s -> 0 <= a -> a <= e - p + 1 ->
  Py.slice_from (Py.slice s p e) a = Py.slice s (p + a) e.
Proof.
  intros Hp Hpe He Ha Hae.
  pose proof (len_slice s p e Hp Hpe He) as Hlen.
  destruct (Z.le_gt_cases a (e - p)) as [Hle|Hgt].
  - unfold Py.slice_from. rewrite bound_in_range by lia.
    apply drop_slice; lia.
  - assert (a = e - p + 1) by lia. subst a.
    transitivity "".
    + apply len_zero. unfold Py.slice_from, Py.len. rewrite length_drop.
      unfold Py.bound. destruct (Z.ltb_spec (e - p + 1) 0); [lia|].
      unfold Py.len in Hlen. lia.
    + symmetry. apply len_zero. unfold Py.slice, Py.len. rewrite length_take.
      unfold Py.bound. destruct (Z.ltb_spec (p + (e - p + 1)) 0); [lia|].
      destruct (Z.ltb_spec e 0); [lia|]. lia.
Qed.

Section SplitTexts.

Variables (in_spans : Z -> bool) (buf char : string) (p e : Z).
Hypothesis Hp : 0 <= p.
Hypothesis Hpe : p <= e.
Hypothesis He : e <= Py.len buf.
Hypothesis Hbefore : in_spans (p + -1) = false.

(** The two loops take the same steps: each text is the text of the span
    that the other loop records. *)
Lemma split_loop_texts (fuel : nat) :
  forall findstart results splits res,
    0 <= findstart -> findstart <= e - p + 1 ->
    splitspans_loop fuel in_spans (Py.slice buf p e) char p e findstart results
    = Py.Ok res ->
    exists out,
      res = results ++ out /\
      split_loop fuel in_spans (Py.slice buf p e) char p findstart splits
      = Py.Ok (splits ++ map (fun sp => Py.slice buf sp.1 sp.2) out).
Proof.
  pose proof (len_slice buf p e Hp Hpe He) as Hlen.
  set (str := Py.slice buf p e) in *.
  induction fuel as [|fuel IH]; intros findstart results splits res H0 H1 H;
    [discriminate|].
  cbn [splitspans_loop split_loop] in *.
  assert (Hskip : exists r,
            skip_in_spans (S (String.length str)) in_spans str char p
              (Py.find str char findstart) = Py.Ok r /\
            (r = -1 \/ (findstart <= r /\ r <= e - p))).
  { destruct (find_spec str char findstart H0) as [Hf|(F1 & F2 & F3)].
    - rewrite Hf, (skip_in_spans_minus in_spans str char p Hbefore).
      exists (-1). split; [reflexivity | now left].
    - destruct (skip_in_spans_spec in_spans str char p Hbefore
                  (S (String.length str)) (Py.find str char findstart))
        as (r & Hr & Hcase).
      { right. repeat split; [lia | exact F2 | exact F3]. }
      { intros _. unfold Py.len. lia. }
      exists r. split; [exact Hr|].
      destruct Hcase as [->|((_ & Hle & _) & Hge & _)]; [now left|].
      right. lia. }
  destruct Hskip as (r & Hr & Hcase). rewrite Hr in *.
  cbn [mbind result_bind Py.bind_flip Py.bind mret result_ret] in *.
  destruct Hcase as [->|(Hge & Hle)].
  - cbn [Z.eqb] in *. injection H as <-.
    exists [(p + findstart, e)]. split; [reflexivity|].
    cbn [map fst snd]. do 3 f_equal.
    unfold str. apply slice_from_slice; lia.
  - destruct (Z.eqb_spec r (-1)) as [|_]; [lia|].
    destruct (IH (r + 1) (results ++ [(p + findstart, p + r)])
                (splits ++ [Py.slice str findstart r]) res
                ltac:(lia) ltac:(lia) H) as (out & -> & Hout).
    exists ((p + findstart, p + r) :: out).
    split; [now rewrite <- app_assoc|].
    rewrite Hout, <- app_assoc. cbn [map app fst snd]. do 3 f_equal.
    unfold str. apply slice_slice; lia.
Qed.

End SplitTexts.

(** [_not_in_subspans_split] returns the texts of the spans that
    [_not_in_subspans_splitspans] returns, in the same order. *)
Theorem split_reads_the_splitspans (st : State) (n : Node) (char : string)
    (p e : Z) (in_spans : Z -> bool) :
  _get_span st n = Py.Ok (p, e) ->
  0 <= p -> p <= e -> e <= Py.len (_lststr st) ->
  _in_subspans_factory st n = Py.Ok in_spans ->
  exists spans,
    _not_in_subspans_splitspans st n char = Py.Ok spans /\
    _not_in_subspans_split st n char
    = Py.Ok (map (fun sp => Py.slice (_lststr st) sp.1 sp.2) spans).
Proof.
  intros Hsp Hp Hpe He Hf.
  pose proof (factory_before st n p e in_spans Hsp Hf) as Hbefore.
  unfold _not_in_subspans_splitspans, _not_in_subspans_split. rewrite Hsp.
  cbn [mbind result_bind Py.bind_flip Py.bind]. rewrite Hf. cbn [Py.bind].
  set (str := Py.slice (_lststr st) p e).
  assert (Hlen : Py.len str = e - p) by (apply len_slice; lia).
  destruct (splitspans_loop_spec in_spans str char p e Hbefore
              (S (S (String.length str))) 0 [])
    as (out & Hout & _); try (unfold Py.len in *; lia).
  exists out. split; [exact Hout|].
  destruct (split_loop_texts in_spans (_lststr st) char p e Hp Hpe He Hbefore
              (S (S (String.length str))) 0 [] [] out
              ltac:(lia) ltac:(lia) Hout)
    as (out' & Hout' & Hsplit).
  cbn [app] in Hout', Hsplit. subst out'. exact Hsplit.
Qed.

Lemma split_reads_the_splitspans_witness :
  exists spans,
    _not_in_subspans_splitspans example_5 (template 0) "|" = Py.Ok spans /\
    _not_in_subspans_split example_5 (template 0) "|"
    = Py.Ok (map (fun sp => Py.slice (_lststr example_5) sp.1 sp.2) spans).
Proof.
  apply (split_reads_the_splitspans example_5 (template 0) "|" 0 7
           (in_spans [])).
  - reflexivity.
  - lia.
  - lia.
  - vm_compute. discriminate.
  - reflexivity.
Defined.

(** * The claims that the code does not keep as they are worded *)



(** C1.  The invariant of the span table does not hold after every call
    of the setter on any node.  The document [{{#a|b:c}}] satisfies it
    when it has just been parsed.  Its first bar comes before its colon,
    and [arguments] gives the first argument of the parser function the
    span [(6, 4)], whose text is empty.  Setting that text to [zz] writes
    [zz] at 6 and then the buffer again from 4 on: the buffer has 14
    characters, not the 10 it had plus the length delta 2, and the span
    [(6, 4)] is kept, with its start after its end.  (Where the table
    satisfies the invariant before the call, the setter keeps it:
    [setter_keeps_invariant].) *)
Theorem C1_setter_after_inverted_span :
  exists st0 st1 st2,
    WikiText_init "{{#a|b:c}}" = Py.Ok st0 /\
    table_ok st0 /\
    parser_functions st0 root = Py.Ok [parser_function 0] /\
    ParserFunction.arguments st0 (parser_function 0)
    = Py.Ok ([argument "pfa0" 0; argument "pfa0" 1], st1) /\
    _lststr st1 = "{{#a|b:c}}" /\
    _spans st1 !! "pfa0" = Some [(6, 4); (4, 8)] /\
    string_ st1 (argument "pfa0" 0) = Py.Ok "" /\
    delta st1 (argument "pfa0" 0) "zz" = 2 /\
    set_string st1 (argument "pfa0" 0) "zz" = Py.Ok st2 /\
    _lststr st2 = "{{#a|bzz|b:c}}" /\
    Py.len (_lststr st2) = 14 /\
    Py.len (_lststr st1) + delta st1 (argument "pfa0" 0) "zz" = 12 /\
    _spans st2 !! "pf" = Some [(0, 12)] /\
    _spans st2 !! "pfa0" = Some [(6, 4); (4, 10)] /\
    ~ table_ok st2.
Proof.
  exists bar_before_colon.
  eexists. eexists.
  split; [vm_compute; reflexivity|].
  split; [apply table_ok_decide; vm_compute; reflexivity|].
  split; [vm_compute; reflexivity|].
  split; [vm_compute; reflexivity|].
  split; [reflexivity|]. split; [reflexivity|].
  split; [vm_compute; reflexivity|]. split; [vm_compute; reflexivity|].
  split; [vm_compute; reflexivity|].
  split; [reflexivity|]. split; [reflexivity|]. split; [reflexivity|].
  split; [reflexivity|]. split; [reflexivity|].
  intros Hok.
  specialize (Hok "pfa0" [(6, 4); (4, 10)] eq_refl).
  apply Forall_cons in Hok as ((_ & Hle & _) & _). simpl in Hle. lia.
Qed.

(** C2, as the claim words its third rule of growth, fails.  After
    [arguments] on the parser function [{{#a|b:c}}] the category [pfa0]
    holds [(6, 4)] and [(4, 8)].  Setting the text of the second
    argument, [|b:c], to [|b:cde] is a growth by 2 anchored at 4: the
    span [(6, 4)] ends at the anchor, and it is not left unchanged but
    shifted to [(8, 6)], because its start is after the anchor and that
    rule comes first. *)
Lemma C2_span_ending_at_anchor_is_shifted :
  exists st0 st1 st2,
    WikiText_init "{{#a|b:c}}" = Py.Ok st0 /\
    ParserFunction.arguments st0 (parser_function 0)
    = Py.Ok ([argument "pfa0" 0; argument "pfa0" 1], st1) /\
    _spans st1 !! "pfa0" = Some [(6, 4); (4, 8)] /\
    _get_span st1 (argument "pfa0" 1) = Py.Ok (4, 8) /\
    string_ st1 (argument "pfa0" 1) = Py.Ok "|b:c" /\
    Py.len "|b:cde" - Py.len "|b:c" = 2 /\
    set_string st1 (argument "pfa0" 1) "|b:cde" = Py.Ok st2 /\
    _lststr st2 = "{{#a|b:cde}}" /\
    _spans st2 !! "pfa0" = Some [(8, 6); (4, 10)] /\
    (6, 4).2 <= 4 /\ (8, 6) <> (6, 4).
Proof.
  exists bar_before_colon.
  eexists. eexists.
  split; [vm_compute; reflexivity|].
  split; [vm_compute; reflexivity|].
  split; [reflexivity|].
  split; [vm_compute; reflexivity|]. split; [vm_compute; reflexivity|].
  split; [reflexivity|].
  split; [vm_compute; reflexivity|].
  split; [reflexivity|]. split; [reflexivity|].
  split; [simpl; lia | discriminate].
Qed.

(** C10, for the document itself, fails: the document has no span in
    the table, its span is the whole buffer.  The empty document has the
    span [(0, 0)]; after its text is set to [x] its span is [(0, 1)] and
    it reads [x]. *)
Lemma C10_empty_document_reads_back :
  exists st st',
    WikiText_init "" = Py.Ok st /\
    _get_span st root = Py.Ok (0, 0) /\
    set_string st root "x" = Py.Ok st' /\
    _lststr st' = "x" /\
    _get_span st' root = Py.Ok (0, 1) /\
    string_ st' root = Py.Ok "x" /\
    string_ st' root <> Py.Ok "".
Proof.
  eexists. eexists.
  split; [vm_compute; reflexivity|].
  split; [reflexivity|].
  split; [vm_compute; reflexivity|].
  split; [reflexivity|]. split; [reflexivity|]. split; [reflexivity|].
  discriminate.
Qed.
